(** * tei-to-odf: the TEI parser and the ODT renderer of [convert.py]

    A shallow embedding of [parse_tei], [get_paragraph_content],
    [parse_table] and [create_odt], and the properties of the
    specification that concern them.

    The lxml tree is an inductive type with the accessors the code uses
    ([tag], [attrib], [text], [tail], iteration over the children).  The
    calls into lxml (XPath, [find], [findall], [itertext], [QName]) and
    the Python string methods are functions over that tree.  The odfpy
    document is the tree of the constructor calls the code makes; which
    odfpy calls raise is left open (a parameter of the renderer). *)

From Stdlib Require Import List String Ascii Bool Arith Lia.
From Stdlib Require Import DecimalString DecimalNat.
Import ListNotations.
Local Open Scope string_scope.
Local Open Scope list_scope.
Set Warnings "-register-all".

(** ** Python values used by the code *)

(** Exceptions: the class name and the message ([str(e)]). *)
Record exn : Type := Exn { exn_class : string; exn_msg : string }.

(** The result of code that may raise. *)
Definition result (A : Type) : Type := (exn + A)%type.

Definition ok {A : Type} (a : A) : result A := inr a.
Definition raise {A : Type} (e : exn) : result A := inl e.

Definition rbind {A B : Type} (r : result A) (k : A -> result B) : result B :=
  match r with
  | inl e => inl e
  | inr a => k a
  end.

Declare Scope result_scope.
Delimit Scope result_scope with result.
Notation "x <- r ;; k" := (rbind r (fun x => k))
  (at level 100, r at next level, right associativity) : result_scope.

Module Py.

(** [str(n)] for a non-negative int. *)
Definition str (n : nat) : string := NilEmpty.string_of_uint (Nat.to_uint n).

(** [sep.join(l)] on a list of strings. *)
Fixpoint join (sep : string) (l : list string) : string :=
  match l with
  | [] => EmptyString
  | [s] => s
  | s :: rest => s ++ sep ++ join sep rest
  end.

(** [sep.join(l)] on a list whose items may be [None]: a [None] item
    raises [TypeError]. *)
Fixpoint all_str (l : list (option string)) : option (list string) :=
  match l with
  | [] => Some []
  | None :: _ => None
  | Some s :: rest =>
      match all_str rest with
      | Some ss => Some (s :: ss)
      | None => None
      end
  end.

Definition TypeError_join : exn :=
  Exn "TypeError" "sequence item: expected str instance, NoneType found".

Definition join_items (sep : string) (l : list (option string)) : result string :=
  match all_str l with
  | Some ss => ok (join sep ss)
  | None => raise TypeError_join
  end.

(** [str.isspace] on one character: the code points below 256 that
    Python counts as whitespace. *)
Definition isspace (c : ascii) : bool :=
  let n := nat_of_ascii c in
  (((9 <=? n) && (n <=? 13)) || ((28 <=? n) && (n <=? 32))
   || (n =? 133) || (n =? 160))%nat.

(** [s.lstrip()] *)
Fixpoint lstrip_ws (s : string) : string :=
  match s with
  | EmptyString => EmptyString
  | String c rest => if isspace c then lstrip_ws rest else s
  end.

(** [s.rstrip()] *)
Fixpoint rstrip_ws (s : string) : string :=
  match s with
  | EmptyString => EmptyString
  | String c rest =>
      match rstrip_ws rest with
      | EmptyString => if isspace c then EmptyString else String c EmptyString
      | r => String c r
      end
  end.

(** [s.strip()] *)
Definition strip (s : string) : string := rstrip_ws (lstrip_ws s).

(** [s.lstrip(c)] for a one-character argument. *)
Fixpoint lstrip_char (c : ascii) (s : string) : string :=
  match s with
  | EmptyString => EmptyString
  | String d rest => if Ascii.eqb d c then lstrip_char c rest else s
  end.

(** Truth value of a string or [None]: [if x:]. *)
Definition truthy (x : option string) : bool :=
  match x with
  | None => false
  | Some EmptyString => false
  | Some _ => true
  end.

(** [s[:n]] *)
Definition prefix (n : nat) (s : string) : string := substring 0 n s.

End Py.

(** ** The lxml tree *)

Module Lxml.

(** A qualified name: namespace URI (empty when there is none) and
    local name. *)
Record QName : Type := mkQName { namespace : string; localname : string }.

Definition QName_eqb (a b : QName) : bool :=
  String.eqb (namespace a) (namespace b) && String.eqb (localname a) (localname b).

(** [elem.tag]: a name for an element; for a comment or a processing
    instruction lxml returns the factory function, not a string. *)
Inductive etag : Type :=
| Named (q : QName)
| Special.

(** A node of the tree, as [for child in node] yields them: elements,
    comments and processing instructions. *)
Inductive node : Type :=
| Node (tag : etag) (attrib : list (QName * string))
       (text : option string) (children : list node)
       (tail : option string).

Definition tag (n : node) : etag := let 'Node t _ _ _ _ := n in t.
Definition attrib (n : node) : list (QName * string) := let 'Node _ a _ _ _ := n in a.
Definition text (n : node) : option string := let 'Node _ _ t _ _ := n in t.
Definition children (n : node) : list node := let 'Node _ _ _ c _ := n in c.
Definition tail (n : node) : option string := let 'Node _ _ _ _ t := n in t.

Definition tei_ns : string := "http://www.tei-c.org/ns/1.0".
Definition xml_ns : string := "http://www.w3.org/XML/1998/namespace".

(** [tei:name] under the prefix map [ns] of the code. *)
Definition tei (name : string) : QName := mkQName tei_ns name.
(** An attribute name without namespace. *)
Definition plain (name : string) : QName := mkQName EmptyString name.
(** [{http://www.w3.org/XML/1998/namespace}id] *)
Definition xml_id : QName := mkQName xml_ns "id".

(** [elem.get(key)] *)
Fixpoint lookup (key : QName) (l : list (QName * string)) : option string :=
  match l with
  | [] => None
  | (k, v) :: rest => if QName_eqb k key then Some v else lookup key rest
  end.

Definition get (n : node) (key : QName) : option string := lookup key (attrib n).

(** [elem.get(key, default)] *)
Definition get_default (n : node) (key : QName) (default : string) : string :=
  match get n key with
  | Some v => v
  | None => default
  end.

Definition ValueError_tag : exn :=
  Exn "ValueError" "Invalid input tag of type <class 'cython_function_or_method'>".

(** [etree.QName(elem).localname]: raises on a comment or a processing
    instruction, whose tag is not a string. *)
Definition QName_localname (n : node) : result string :=
  match tag n with
  | Named q => ok (localname q)
  | Special => raise ValueError_tag
  end.

Definition has_tag (q : QName) (n : node) : bool :=
  match tag n with
  | Named q' => QName_eqb q' q
  | Special => false
  end.

(** [elem.find('tei:name', namespaces=ns)]: the first child element of
    that name. *)
Definition find (n : node) (q : QName) : option node :=
  List.find (has_tag q) (children n).

(** [elem.findall('tei:name', namespaces=ns)]: the child elements of
    that name. *)
Definition findall (n : node) (q : QName) : list node :=
  filter (has_tag q) (children n).

(** The proper descendants of a node in document order. *)
Fixpoint descendants (n : node) : list node :=
  let 'Node _ _ _ cs _ := n in
  flat_map (fun c => c :: descendants c) cs.

(** [elem.findall('.//tei:name', namespaces=ns)] *)
Definition findall_desc (n : node) (q : QName) : list node :=
  filter (has_tag q) (descendants n).

(** [elem.itertext()]: the text of every element below and including
    [n] and the tail of every node strictly below it, in document
    order; a comment contributes its tail only. *)
Fixpoint itertext (n : node) : list string :=
  let 'Node t _ tx cs _ := n in
  (match t, tx with
   | Named _, Some s => [s]
   | _, _ => []
   end)
  ++ flat_map (fun c => itertext c ++
                        match tail c with Some s => [s] | None => [] end) cs.

(** *** XPath, for the location paths the code uses

    A path is a list of steps; a step is [/name] or [//name], with an
    optional [[@attr='value']] predicate. *)
Inductive axis : Type := Child | Descendant.

Record step : Type := mkStep {
  step_axis : axis;
  step_name : QName;
  step_pred : option (QName * string)
}.

Definition step_matches (s : step) (n : node) : bool :=
  has_tag (step_name s) n &&
  match step_pred s with
  | None => true
  | Some (a, v) =>
      match get n a with
      | Some v' => String.eqb v' v
      | None => false
      end
  end.

Definition is_descendant_step (s : step) : bool :=
  match step_axis s with Descendant => true | Child => false end.

(** [pending] holds the suffixes of the path whose first step may be
    taken at [n].  The nodes come out in document order, each once. *)
Definition selected_here (pending : list (list step)) (n : node) : bool :=
  existsb (fun p => match p with
                    | [s] => step_matches s n
                    | _ => false
                    end) pending.

Definition pending_below (pending : list (list step)) (n : node) : list (list step) :=
  flat_map (fun p => match p with
                     | [] => []
                     | s :: rest =>
                         (if is_descendant_step s then [p] else [])
                         ++ (if step_matches s n
                             then match rest with [] => [] | _ => [rest] end
                             else [])
                     end) pending.

Fixpoint xpath_walk (pending : list (list step)) (n : node) : list node :=
  let 'Node _ _ _ cs _ := n in
  (if selected_here pending n then [n] else [])
  ++ flat_map (xpath_walk (pending_below pending n)) cs.

(** [tree.xpath(path, namespaces=ns)] on the tree with root [root]. *)
Definition xpath (root : node) (path : list step) : list node :=
  xpath_walk [path] root.

End Lxml.

Import Lxml.

(** ** The document model built by the parser

    The parser returns dictionaries with fixed keys; the ['type'] key
    of a body element or of a piece of paragraph content selects the
    variant. *)

(** [{'type': 'text', 'text': _}] and
    [{'type': 'ref', 'text': _, 'target': _}]. *)
Inductive InlineSpan : Type :=
| Text (text : string)
| CitationRef (text : string) (target : string).

(** [{'type': 'heading', 'text': _}], [{'type': 'paragraph', 'content': _}]
    and [{'type': 'table', 'content': _}]; the content of a table is what
    [parse_table] returned, [None] included. *)
Inductive Block : Type :=
| Heading (text : string)
| Paragraph (content : list InlineSpan)
| Table (content : option (list (list string))).

(** [{"id": _, "text": _}] *)
Record Reference : Type := mkReference { ref_id : string; ref_text : string }.

(** The dictionary [parse_tei] returns.  The title is [title[0].text],
    which is [None] for an element without leading text. *)
Record DocumentModel : Type := mkDocumentModel {
  title : option string;
  authors : list string;
  abstract : string;
  body_elements : list Block;
  references : list Reference
}.

Definition is_table (b : Block) : bool :=
  match b with Table _ => true | _ => false end.

(** ** The odfpy document

    An odfpy element is recorded as the constructor call that made it
    (its name and keyword arguments) and the children added to it since,
    in order. *)
Inductive odf_arg : Type :=
| AStr (s : string)
| ANone
| AStyle (name : string).

Inductive odf : Type :=
| OdfText (s : string)
| OdfElem (kind : string) (args : list (string * odf_arg)) (childNodes : list odf).

(** [doc.styles] and [doc.text] of an [OpenDocumentText]. *)
Record odt : Type := mkOdt { doc_styles : list odf; doc_text : list odf }.

(** What the program does to the outside: lines printed by [log] and
    documents written by [doc.save]. *)
Inductive event : Type :=
| Print (line : string)
| Save (output_file : string) (doc : odt).

(** ** The parser *)

(** A loop that extends a list, over code that may raise. *)
Definition rflat_map {A B : Type} (f : A -> result (list B)) : list A -> result (list B) :=
  fix go (l : list A) : result (list B) :=
    match l with
    | [] => ok []
    | a :: rest =>
        (x <- f a ;;
         y <- go rest ;;
         ok (x ++ y))%result
    end.

Definition opt_is (x : option string) (v : string) : bool :=
  match x with
  | Some s => String.eqb s v
  | None => false
  end.

Definition text_piece (x : option string) : list InlineSpan :=
  match x with
  | Some s => if Py.truthy x then [Text s] else []
  | None => []
  end.

(** The in-text citation branch of [recurse]. *)
Definition citation (child : node) : InlineSpan :=
  CitationRef (Py.join EmptyString (itertext child))
              (Py.lstrip_char "#" (get_default child (plain "target") EmptyString)).

(** [recurse] of [get_paragraph_content]: the pieces it appends to
    [content], in order. *)
Fixpoint recurse (n : node) : result (list InlineSpan) :=
  let 'Node _ _ tx cs _ := n in
  (below <- rflat_map (fun child =>
              tag <- QName_localname child ;;
              if String.eqb tag "ref" && opt_is (get child (plain "type")) "bibr"
              then ok (citation child :: text_piece (tail child))
              else
                inner <- recurse child ;;
                ok (inner ++ text_piece (tail child))) cs ;;
   ok (text_piece tx ++ below))%result.

(** One iteration of the loop of [recurse]. *)
Definition recurse_child (child : node) : result (list InlineSpan) :=
  (tag <- QName_localname child ;;
   if String.eqb tag "ref" && opt_is (get child (plain "type")) "bibr"
   then ok (citation child :: text_piece (tail child))
   else
     inner <- recurse child ;;
     ok (inner ++ text_piece (tail child)))%result.

Definition get_paragraph_content (paragraph_elem : node) : result (list InlineSpan) :=
  recurse paragraph_elem.

Definition cell_text (cell : node) : string := Py.strip (Py.join EmptyString (itertext cell)).

Definition parse_table (figure_elem : node) : option (list (list string)) :=
  match find figure_elem (tei "table") with
  | None => None
  | Some table_elem =>
      Some (map (fun row => map cell_text (findall row (tei "cell")))
                (findall_desc table_elem (tei "row")))
  end.

Definition heading_of (elem : node) : Block :=
  Heading (Py.strip (Py.join EmptyString (itertext elem))).

Fixpoint process_body_elements (parent : node) : result (list Block) :=
  let 'Node _ _ _ cs _ := parent in
  rflat_map (fun elem =>
    (tag <- QName_localname elem ;;
     if String.eqb tag "head" then ok [heading_of elem]
     else if String.eqb tag "p" then
       (paragraph_content <- get_paragraph_content elem ;;
        ok [Paragraph paragraph_content])
     else if String.eqb tag "div" then process_body_elements elem
     else if String.eqb tag "figure" && opt_is (get elem (plain "type")) "table"
     then ok [Table (parse_table elem)]
     else ok [])%result) cs.

(** One iteration of the loop of [process_body_elements]: the blocks
    that [elem] appends to [body_elements]. *)
Definition process_body_element (elem : node) : result (list Block) :=
  (tag <- QName_localname elem ;;
   if String.eqb tag "head" then ok [heading_of elem]
   else if String.eqb tag "p" then
     (paragraph_content <- get_paragraph_content elem ;;
      ok [Paragraph paragraph_content])
   else if String.eqb tag "div" then process_body_elements elem
   else if String.eqb tag "figure" && opt_is (get elem (plain "type")) "table"
   then ok [Table (parse_table elem)]
   else ok [])%result.

(** The body of the loop over the author entries. *)
Definition name_parts (author : node) : list (option string) :=
  match find author (tei "persName") with
  | Some persName =>
      (match find persName (tei "forename") with
       | Some forename => [text forename]
       | None => []
       end)
      ++ (match find persName (tei "surname") with
          | Some surname => [text surname]
          | None => []
          end)
  | None => []
  end.

Fixpoint collect_authors (authors : list string) (l : list node) : result (list string) :=
  match l with
  | [] => ok authors
  | author :: rest =>
      (full_name <- Py.join_items " " (name_parts author) ;;
       collect_authors (if Py.truthy (Some full_name)
                        then authors ++ [full_name] else authors) rest)%result
  end.

(** The loop over the bibliography; [references] is the list collected
    so far. *)
Definition reference_of (references : list Reference) (ref : node) : Reference :=
  {| ref_id := get_default ref xml_id ("ref_" ++ Py.str (List.length references + 1));
     ref_text := Py.strip (Py.join " " (itertext ref)) |}.

Fixpoint collect_references (references : list Reference) (bibliography : list node)
  : list Reference :=
  match bibliography with
  | [] => references
  | ref :: rest => collect_references (references ++ [reference_of references ref]) rest
  end.

(** The location paths of [parse_tei]. *)
Definition path_title : list step :=
  [mkStep Descendant (tei "titleStmt") None;
   mkStep Child (tei "title") (Some (plain "type", "main"))].
Definition path_authors : list step :=
  [mkStep Descendant (tei "sourceDesc") None; mkStep Descendant (tei "author") None].
Definition path_abstract : list step :=
  [mkStep Descendant (tei "profileDesc") None; mkStep Child (tei "abstract") None].
Definition path_body : list step :=
  [mkStep Descendant (tei "text") None; mkStep Child (tei "body") None].
Definition path_bibliography : list step :=
  [mkStep Descendant (tei "back") None; mkStep Descendant (tei "listBibl") None;
   mkStep Descendant (tei "biblStruct") None].

Definition title_of (tree : node) : option string :=
  match xpath tree path_title with
  | t :: _ => text t
  | [] => Some "N/A"
  end.

Definition abstract_of (tree : node) : string :=
  match xpath tree path_abstract with
  | abstract_elem :: _ => Py.strip (Py.join EmptyString (itertext abstract_elem))
  | [] => EmptyString
  end.

Section Parser.

(** [etree.parse]: the file system and the XML reader.  It raises on a
    missing or malformed file and returns the root element otherwise. *)
Variable etree_parse : string -> result node.

(** The [try] block of [parse_tei]. *)
Definition parse_tei_try (tei_file : string) : result DocumentModel :=
  (tree <- etree_parse tei_file ;;
   let title_text := title_of tree in
   authors <- collect_authors [] (xpath tree path_authors) ;;
   let abstract_text := abstract_of tree in
   body_elements <- match xpath tree path_body with
                    | body :: _ => process_body_elements body
                    | [] => ok []
                    end ;;
   let references := collect_references [] (xpath tree path_bibliography) in
   ok {| title := title_text;
         authors := authors;
         abstract := abstract_text;
         body_elements := body_elements;
         references := references |})%result.

(** [parse_tei]: the value returned and the lines logged. *)
Definition parse_tei (tei_file : string) : option DocumentModel * list event :=
  match parse_tei_try tei_file with
  | inr parsed => (Some parsed, [])
  | inl e => (None, [Print ("Error parsing TEI file (" ++ tei_file ++ "): " ++ exn_msg e)])
  end.

End Parser.

(** ** The renderer *)

(** The odfpy calls of [create_odt]. *)
Inductive odf_call : Type :=
| NewDocument
| Construct (e : odf)
| AddElement (parent child : odf)
| AddText (parent : odf) (s : string)
| StylesAddElement (doc : odt) (child : odf)
| TextAddElement (doc : odt) (child : odf)
| DocSave (doc : odt) (output_file : string).

(** A run of renderer code from a document: the value or the exception,
    the document as the run left it, and what was printed and saved. *)
Record outcome (A : Type) : Type := mkOutcome {
  value : result A;
  final : odt;
  trace : list event
}.
Arguments mkOutcome {A} _ _ _.
Arguments value {A} _.
Arguments final {A} _.
Arguments trace {A} _.

Definition M (A : Type) : Type := odt -> outcome A.

Definition ret {A : Type} (a : A) : M A := fun d => mkOutcome (ok a) d [].

Definition bind {A B : Type} (m : M A) (k : A -> M B) : M B :=
  fun d =>
    let o := m d in
    match value o with
    | inl e => mkOutcome (inl e) (final o) (trace o)
    | inr a =>
        let o' := k a (final o) in
        mkOutcome (value o') (final o') (trace o ++ trace o')
    end.

Declare Scope odt_scope.
Delimit Scope odt_scope with odt.
Notation "x <- m ;; k" := (bind m (fun x => k))
  (at level 100, m at next level, right associativity) : odt_scope.
Notation "m ;; k" := (bind m (fun _ => k))
  (at level 100, right associativity) : odt_scope.

(** [try: c except Exception as e: h e] *)
Definition try_ (c : M unit) (h : exn -> M unit) : M unit :=
  fun d =>
    let o := c d in
    match value o with
    | inl e =>
        let o' := h e (final o) in
        mkOutcome (value o') (final o') (trace o ++ trace o')
    | inr _ => o
    end.

(** [for x in l: f x] *)
Fixpoint for_ {A : Type} (l : list A) (f : A -> M unit) : M unit :=
  match l with
  | [] => ret tt
  | x :: rest => (f x ;; for_ rest f)%odt
  end.

(** A loop that updates a local object. *)
Fixpoint fold_ {A B : Type} (l : list A) (f : B -> A -> M B) (b : B) : M B :=
  match l with
  | [] => ret b
  | x :: rest => (b' <- f b x ;; fold_ rest f b')%odt
  end.

Definition log (message : string) : M unit :=
  fun d => mkOutcome (ok tt) d [Print message].

Definition appendChild (parent child : odf) : odf :=
  match parent with
  | OdfElem kind args cs => OdfElem kind args (cs ++ [child])
  | OdfText s => OdfText s
  end.

(** The five styles, by name. *)
Definition title_style : odf_arg := AStyle "Title".
Definition author_style : odf_arg := AStyle "AuthorStyle".
Definition abstract_style : odf_arg := AStyle "AbstractStyle".
Definition heading_style : odf_arg := AStyle "Heading".
Definition paragraph_style : odf_arg := AStyle "BodyText".

Definition opt_arg (x : option string) : odf_arg :=
  match x with Some s => AStr s | None => ANone end.

Section Renderer.

(** Which odfpy calls raise, and what. *)
Variable raises : odf_call -> option exn.

Definition call {A : Type} (c : odf_call) (r : A) : M A :=
  fun d =>
    match raises c with
    | Some e => mkOutcome (raise e) d []
    | None => mkOutcome (ok r) d []
    end.

(** [OpenDocumentText()] *)
Definition OpenDocumentText : M unit :=
  fun d =>
    match raises NewDocument with
    | Some e => mkOutcome (raise e) d []
    | None => mkOutcome (ok tt) (mkOdt [] []) []
    end.

(** [Kind(name=value, ...)] *)
Definition construct (kind : string) (args : list (string * odf_arg)) : M odf :=
  call (Construct (OdfElem kind args [])) (OdfElem kind args []).

Definition P (args : list (string * odf_arg)) : M odf := construct "P" args.

(** [parent.addElement(child)] and [parent.addText(s)] on a local
    object; the value is the object after the call. *)
Definition addElement (parent child : odf) : M odf :=
  call (AddElement parent child) (appendChild parent child).

Definition addText (parent : odf) (s : string) : M odf :=
  call (AddText parent s) (appendChild parent (OdfText s)).

(** [doc.styles.addElement(child)] *)
Definition styles_addElement (child : odf) : M unit :=
  fun d =>
    match raises (StylesAddElement d child) with
    | Some e => mkOutcome (raise e) d []
    | None => mkOutcome (ok tt) (mkOdt (doc_styles d ++ [child]) (doc_text d)) []
    end.

(** [doc.text.addElement(child)] *)
Definition text_addElement (child : odf) : M unit :=
  fun d =>
    match raises (TextAddElement d child) with
    | Some e => mkOutcome (raise e) d []
    | None => mkOutcome (ok tt) (mkOdt (doc_styles d) (doc_text d ++ [child])) []
    end.

(** [doc.save(output_file)] *)
Definition save (output_file : string) : M unit :=
  fun d =>
    match raises (DocSave d output_file) with
    | Some e => mkOutcome (raise e) d []
    | None => mkOutcome (ok tt) d [Save output_file d]
    end.

(** [doc.text.addElement(P(text=...))] with the empty string: a blank line. *)
Definition blank_line : M unit :=
  (p <- P [("text", AStr EmptyString)] ;; text_addElement p)%odt.

(** One style definition. *)
Definition define_style (name : string) (properties : list (string * odf_arg)) : M unit :=
  (style <- construct "Style" [("name", AStr name); ("family", AStr "paragraph")] ;;
   props <- construct "TextProperties" properties ;;
   style <- addElement style props ;;
   styles_addElement style)%odt.

Definition define_styles : M unit :=
  (define_style "Title"
     [("fontsize", AStr "24pt"); ("fontweight", AStr "bold"); ("fontfamily", AStr "Arial")] ;;
   define_style "AuthorStyle"
     [("fontsize", AStr "12pt"); ("fontweight", AStr "bold"); ("fontfamily", AStr "Arial")] ;;
   define_style "AbstractStyle"
     [("fontsize", AStr "12pt"); ("fontstyle", AStr "italic"); ("fontfamily", AStr "Arial")] ;;
   define_style "Heading"
     [("fontsize", AStr "18pt"); ("fontweight", AStr "bold"); ("fontfamily", AStr "Arial")] ;;
   define_style "BodyText"
     [("fontsize", AStr "12pt"); ("fontfamily", AStr "Arial")])%odt.

(** # Add Title *)
Definition add_title (parsed_data : DocumentModel) : M unit :=
  (log "Adding title to the document" ;;
   p <- P [("stylename", title_style); ("text", opt_arg (title parsed_data))] ;;
   text_addElement p)%odt.

(** # Add Authors *)
Definition add_authors (parsed_data : DocumentModel) : M unit :=
  match authors parsed_data with
  | [] => ret tt
  | _ :: _ =>
      let authors_line := Py.join ", " (authors parsed_data) in
      (log ("Adding authors: " ++ authors_line) ;;
       p <- P [("stylename", author_style); ("text", AStr authors_line)] ;;
       text_addElement p)%odt
  end.

(** # Add Abstract *)
Definition add_abstract (parsed_data : DocumentModel) : M unit :=
  if Py.truthy (Some (abstract parsed_data)) then
    (log "Adding abstract to the document" ;;
     h <- P [("stylename", heading_style); ("text", AStr "Abstract")] ;;
     text_addElement h ;;
     p <- P [("stylename", abstract_style); ("text", AStr (abstract parsed_data))] ;;
     text_addElement p)%odt
  else ret tt.

(** One piece of paragraph content. *)
Definition add_content_piece (paragraph : odf) (content_piece : InlineSpan) : M odf :=
  match content_piece with
  | Text s => addText paragraph s
  | CitationRef ref_text target =>
      let href := ("#" ++ target)%string in
      (link <- construct "A" [("href", AStr href); ("text", AStr ref_text)] ;;
       addElement paragraph link)%odt
  end.

Definition add_cell (odt_row : odf) (cell_data : string) : M odf :=
  (odt_cell <- construct "TableCell" [] ;;
   cell_paragraph <- P [("stylename", paragraph_style); ("text", AStr cell_data)] ;;
   odt_cell <- addElement odt_cell cell_paragraph ;;
   addElement odt_row odt_cell)%odt.

Definition add_row (odt_table : odf) (row_data : list string) : M odf :=
  (odt_row <- construct "TableRow" [] ;;
   odt_row <- fold_ row_data add_cell odt_row ;;
   addElement odt_table odt_row)%odt.

(** One iteration of the loop over [body_elements]. *)
Definition add_body_element (element : Block) : M unit :=
  match element with
  | Heading heading_text =>
      (log ("Adding heading: " ++ heading_text) ;;
       h <- P [("stylename", heading_style); ("text", AStr heading_text)] ;;
       text_addElement h ;;
       blank_line)%odt
  | Paragraph content =>
      (paragraph <- P [("stylename", paragraph_style)] ;;
       paragraph <- fold_ content add_content_piece paragraph ;;
       text_addElement paragraph ;;
       blank_line)%odt
  | Table table_data =>
      (log "Adding table to the document" ;;
       match table_data with
       | Some (row :: rows) =>
           (odt_table <- construct "Table" [] ;;
            odt_table <- fold_ (row :: rows) add_row odt_table ;;
            text_addElement odt_table ;;
            blank_line)
       | _ => ret tt
       end)%odt
  end.

(** # Add Body Content *)
Definition add_body (parsed_data : DocumentModel) : M unit :=
  for_ (body_elements parsed_data) add_body_element.

(** The [try] block of the loop over the references, up to the point
    where the paragraph of the entry is in the document. *)
Definition add_reference_paragraph (ref : Reference) : M unit :=
  (log ("Adding reference: " ++ Py.prefix 30 (ref_text ref) ++ "...") ;;
   reference <- P [("stylename", paragraph_style)] ;;
   bookmark <- construct "BookmarkStart" [("name", AStr (ref_id ref))] ;;
   reference <- addElement reference bookmark ;;
   reference <- addText reference (ref_text ref ++ " bibitem") ;;
   bookmark <- construct "BookmarkEnd" [("name", AStr (ref_id ref))] ;;
   reference <- addElement reference bookmark ;;
   text_addElement reference)%odt.

(** One iteration of the loop over the references. *)
Definition add_reference (ref : Reference) : M unit :=
  try_ (add_reference_paragraph ref ;; blank_line)%odt
       (fun e => log ("Error adding reference: " ++ exn_msg e)).

Definition add_reference_list (refs : list Reference) : M unit :=
  for_ refs add_reference.

(** # Add References Section *)
Definition add_references (parsed_data : DocumentModel) : M unit :=
  match references parsed_data with
  | [] => ret tt
  | _ :: _ =>
      (log "Adding references to the document" ;;
       blank_line ;;
       h <- P [("stylename", heading_style); ("text", AStr "References")] ;;
       text_addElement h ;;
       blank_line ;;
       add_reference_list (references parsed_data))%odt
  end.

(** # Save the ODT file *)
Definition save_odt (output_file : string) : M unit :=
  (log ("Saving ODT file: " ++ output_file) ;;
   save output_file ;;
   log ("ODT file created: " ++ output_file))%odt.

(** The [try] block of [create_odt]. *)
Definition create_odt_try (parsed_data : DocumentModel) (output_file : string) : M unit :=
  (OpenDocumentText ;;
   define_styles ;;
   add_title parsed_data ;;
   add_authors parsed_data ;;
   add_abstract parsed_data ;;
   add_body parsed_data ;;
   add_references parsed_data ;;
   save_odt output_file)%odt.

(** [create_odt]: what it prints and saves. *)
Definition create_odt (parsed_data : DocumentModel) (output_file : string) : list event :=
  let o := try_ (create_odt_try parsed_data output_file)
                (fun e => log ("Error creating ODT file: " ++ exn_msg e))
                (mkOdt [] []) in
  trace o.

End Renderer.

(** ** Vocabulary of the properties *)

(** [s.startswith(c)] *)
Definition starts_with (c : ascii) (s : string) : bool :=
  match s with
  | String d _ => Ascii.eqb d c
  | EmptyString => false
  end.

(** A string of whitespace only (the empty string included). *)
Fixpoint blank (s : string) : bool :=
  match s with
  | EmptyString => true
  | String c rest => Py.isspace c && blank rest
  end.

(** The target of a citation does not begin with the fragment marker. *)
Definition span_target_ok (s : InlineSpan) : bool :=
  match s with
  | Text _ => true
  | CitationRef _ target => negb (starts_with "#" target)
  end.

Definition block_targets_ok (b : Block) : bool :=
  match b with
  | Paragraph content => forallb span_target_ok content
  | _ => true
  end.

(** A bibliography entry without an explicit identifier. *)
Definition lacks_id (ref : node) : bool :=
  match get ref xml_id with
  | None => true
  | Some _ => false
  end.

(** The identifiers the source gives explicitly, in encounter order. *)
Definition explicit_ids (bibliography : list node) : list string :=
  flat_map (fun ref => match get ref xml_id with Some i => [i] | None => [] end)
           bibliography.

(** The ids of the references whose entry lacks an identifier, in
    encounter order. *)
Definition fallback_ids (bibliography : list node) (refs : list Reference) : list string :=
  map (fun p => ref_id (snd p))
      (filter (fun p => lacks_id (fst p)) (combine bibliography refs)).

(** ["ref_k"] *)
Definition ref_k (k : nat) : string := "ref_" ++ Py.str k.

(** The references the loop appends to a list of [k] references. *)
Fixpoint references_from (k : nat) (bibliography : list node) : list Reference :=
  match bibliography with
  | [] => []
  | ref :: rest =>
      {| ref_id := get_default ref xml_id (ref_k (k + 1));
         ref_text := Py.strip (Py.join " " (itertext ref)) |}
      :: references_from (k + 1) rest
  end.

(** The first forename or the first surname of the first person name of
    an author entry has no text. *)
Definition nameless_part (author : node) : Prop :=
  exists persName, find author (tei "persName") = Some persName /\
    ((exists forename, find persName (tei "forename") = Some forename /\
                       text forename = None)
     \/ (exists surname, find persName (tei "surname") = Some surname /\
                         text surname = None)).

(** Some forename or surname child of some person name of an author
    entry has no text. *)
Definition some_part_without_text (author : node) : Prop :=
  exists persName part,
    In persName (findall author (tei "persName")) /\
    In part (findall persName (tei "forename") ++ findall persName (tei "surname")) /\
    text part = None.

(** The children named [child] of the elements named [parent] below and
    including [n], in document order: what [//parent/child] selects. *)
Fixpoint select_children (parent : QName) (child : step) (n : node) : list node :=
  let 'Node _ _ _ cs _ := n in
  flat_map (fun c => (if has_tag parent n && step_matches child c then [c] else [])
                     ++ select_children parent child c) cs.

(** The heading paragraph of the abstract. *)
Definition abstract_heading : odf :=
  OdfElem "P" [("stylename", heading_style); ("text", AStr "Abstract")] [].

(** Every element added to [doc.text] so far satisfies [R]. *)
Definition text_all (R : odf -> Prop) (d : odt) : Prop := Forall R (doc_text d).

(** [c] keeps the invariant [I] of the document, whether it returns or
    raises, and the value it returns satisfies [Q]. *)
Definition keeps {A : Type} (I : odt -> Prop) (c : M A) (Q : A -> Prop) : Prop :=
  forall d, I d -> I (final (c d)) /\ forall a, value (c d) = ok a -> Q a.

(** How the run of [c] from [d] ends: with a value and a document that
    satisfy [Qok], or with an exception and a document that satisfies
    [Qerr]. *)
Definition ends {A : Type} (c : M A) (d : odt)
  (Qok : A -> odt -> Prop) (Qerr : odt -> Prop) : Prop :=
  match value (c d) with
  | inr a => Qok a (final (c d))
  | inl _ => Qerr (final (c d))
  end.

(** An element built by [Kind(name=value, ...)] and extended since. *)
Definition built (kind : string) (args : list (string * odf_arg)) (e : odf) : Prop :=
  exists cs, e = OdfElem kind args cs.

(** The paragraph and the blank line of one reference. *)
Definition reference_paragraph (ref : Reference) : odf :=
  OdfElem "P" [("stylename", paragraph_style)]
    [OdfElem "BookmarkStart" [("name", AStr (ref_id ref))] [];
     OdfText (ref_text ref ++ " bibitem");
     OdfElem "BookmarkEnd" [("name", AStr (ref_id ref))] []].

Definition blank_paragraph : odf := OdfElem "P" [("text", AStr EmptyString)] [].

(** ** Documents used in the examples *)

Module Samples.

(** A TEI element. *)
Definition elem (name : string) (attrs : list (QName * string)) (tx : option string)
  (cs : list node) (tl : option string) : node :=
  Node (Named (tei name)) attrs tx cs tl.

(** The skeleton of a TEI document around the title statement, the
    author entries, the profile description, the body and the
    bibliography. *)
Definition tei_document (titles authors profile body bibliography : list node) : node :=
  elem "TEI" [] None
    [elem "teiHeader" [] None
       [elem "fileDesc" [] None
          [elem "titleStmt" [] None titles None;
           elem "sourceDesc" [] None
             [elem "biblStruct" [] None [elem "analytic" [] None authors None] None] None]
          None;
        elem "profileDesc" [] None profile None] None;
     elem "text" [] None
       [elem "body" [] None body None;
        elem "back" [] None
          [elem "div" [] None [elem "listBibl" [] None bibliography None] None] None]
       None]
    None.

(** [<p>See <ref type="bibr" target="#b0">Smith 2020</ref> for details.</p>] *)
Definition p_smith : node :=
  elem "p" [] (Some "See ")
    [elem "ref" [(plain "type", "bibr"); (plain "target", "#b0")]
       (Some "Smith 2020") [] (Some " for details.")]
    None.

(** [<ref type="bibr" target="##b0">Smith</ref>] inside a paragraph. *)
Definition p_double_hash : node :=
  elem "p" [] None
    [elem "ref" [(plain "type", "bibr"); (plain "target", "##b0")] (Some "Smith") [] None]
    None.

(** [<figure type="table"><head>Table 1</head></figure>]: no nested table. *)
Definition figure_without_table : node :=
  elem "figure" [(plain "type", "table")] None
    [elem "head" [] (Some "Table 1") [] None] None.

(** An author entry from a forename and a surname element. *)
Definition author_entry (names : list node) : node :=
  elem "author" [] None [elem "persName" [] None names None] None.

Definition ann_lee : node :=
  author_entry [elem "forename" [] (Some "Ann") [] None;
                elem "surname" [] (Some "Lee") [] None].

(** [<surname/>]: the surname has no text. *)
Definition no_surname_text : node :=
  author_entry [elem "forename" [] (Some "Ann") [] None;
                elem "surname" [] None [] None].

(** A second forename without text, after a first one with text. *)
Definition empty_middle_name : node :=
  author_entry [elem "forename" [(plain "type", "first")] (Some "John") [] None;
                elem "forename" [(plain "type", "middle")] None [] None;
                elem "surname" [] (Some "Doe") [] None].

(** Bibliography entries with and without [xml:id]. *)
Definition bibl (ident : option string) (txt : string) : node :=
  elem "biblStruct"
    (match ident with Some i => [(xml_id, i)] | None => [] end)
    (Some txt) [] None.

Definition main_title (txt : string) : node :=
  elem "title" [(plain "type", "main")] (Some txt) [] None.

Definition doc_smith : node :=
  tei_document [main_title "A study"; main_title "Second"] [ann_lee]
    [elem "abstract" [] (Some " ") [] None]
    [elem "div" [] None [elem "head" [] (Some "Intro") [] None; p_smith] None]
    [bibl (Some "b0") "Smith 2020"].

Definition doc_no_title : node :=
  tei_document [elem "title" [(plain "type", "sub")] (Some "A subtitle") [] None]
    [] [] [] [].

Definition doc_figure : node :=
  tei_document [main_title "T"] [] [] [figure_without_table] [].

Definition doc_mixed_ids : node :=
  tei_document [main_title "T"] [] [] []
    [bibl (Some "b0") "first"; bibl None "second"; bibl None "third"].

Definition doc_no_ids : node :=
  tei_document [main_title "T"] [] [] []
    [bibl None "first"; bibl None "second"; bibl None "third"].

Definition doc_clash : node :=
  tei_document [main_title "T"] [] [] []
    [bibl (Some "ref_2") "first"; bibl None "second"].

Definition doc_no_surname_text : node :=
  tei_document [main_title "T"] [ann_lee; no_surname_text] [] [] [].

Definition doc_empty_middle_name : node :=
  tei_document [main_title "T"] [empty_middle_name] [] [] [].

Definition doc_double_hash : node :=
  tei_document [main_title "T"] [] [] [p_double_hash] [].

(** A reader that finds the same tree under every name, and one that
    finds no readable file. *)
Definition reads (tree : node) : string -> result node := fun _ => ok tree.
Definition unreadable : string -> result node :=
  fun _ => raise (Exn "XMLSyntaxError" "Document is empty, line 1, column 1").

(** odfpy as it behaves on well-formed calls, and an odfpy that rejects
    the bookmark of the reference named [bad]. *)
Definition never_raises : odf_call -> option exn := fun _ => None.

Definition rejects_bookmark (bad : string) : odf_call -> option exn :=
  fun c =>
    match c with
    | Construct (OdfElem "BookmarkStart" [(_, AStr name)] _) =>
        if String.eqb name bad
        then Some (Exn "ValueError" "invalid bookmark name")
        else None
    | _ => None
    end.

Definition model_empty_abstract : DocumentModel :=
  {| title := Some "T"; authors := ["Ann Lee"]; abstract := EmptyString;
     body_elements := [Heading "Intro"; Paragraph [Text "Body."]];
     references := [mkReference "b0" "Smith 2020"] |}.

Definition three_references : list Reference :=
  [mkReference "b0" "Smith 2020"; mkReference "bad" "Jones 2021";
   mkReference "b2" "Lee 2022"].

Definition model_mixed_ids : DocumentModel :=
  {| title := Some "T"; authors := []; abstract := EmptyString; body_elements := [];
     references := [mkReference "b0" "first"; mkReference "ref_2" "second";
                    mkReference "ref_3" "third"] |}.

Definition model_smith : DocumentModel :=
  {| title := Some "A study"; authors := ["Ann Lee"]; abstract := EmptyString;
     body_elements :=
       [Heading "Intro";
        Paragraph [Text "See "; CitationRef "Smith 2020" "b0"; Text " for details."]];
     references := [mkReference "b0" "Smith 2020"] |}.

End Samples.

(** ** Vocabulary of the further properties *)

(** The text a piece of paragraph content carries. *)
Definition span_text (s : InlineSpan) : string :=
  match s with
  | Text t => t
  | CitationRef t _ => t
  end.

(** The text of a paragraph content, pieces joined without separator. *)
Definition content_text (content : list InlineSpan) : string :=
  Py.join EmptyString (map span_text content).

(** A string begins, or ends, with a whitespace character. *)
Definition leading_space (s : string) : bool :=
  match s with
  | String c _ => Py.isspace c
  | EmptyString => false
  end.

Fixpoint trailing_space (s : string) : bool :=
  match s with
  | EmptyString => false
  | String c EmptyString => Py.isspace c
  | String _ rest => trailing_space rest
  end.

Definition trimmed (s : string) : Prop :=
  leading_space s = false /\ trailing_space s = false.

(** The items of a list that are not [None]. *)
Definition texts (l : list (option string)) : list string :=
  flat_map (fun o => match o with Some s => [s] | None => [] end) l.

(** The name of an author entry whose name parts all have text. *)
Definition author_name (author : node) : string :=
  Py.join " " (texts (name_parts author)).

Definition nonempty (s : string) : bool :=
  match s with
  | EmptyString => false
  | String _ _ => true
  end.

(** An element with the given local name, in any namespace. *)
Definition is_named (name : string) (n : node) : bool :=
  match tag n with
  | Named q => String.eqb (localname q) name
  | Special => false
  end.

(** An in-text citation: [tag == 'ref' and child.get('type') == 'bibr']. *)
Definition is_citation (n : node) : bool :=
  is_named "ref" n && opt_is (get n (plain "type")) "bibr".

Definition is_element (n : node) : bool :=
  match tag n with
  | Named _ => true
  | Special => false
  end.

(** [reads n c]: the loops of [recurse], started at [n], reach [c] as a
    loop variable, given that no earlier iteration raised. *)
Inductive reads : node -> node -> Prop :=
| reads_child (n c : node) : In c (children n) -> reads n c
| reads_inner (n k c : node) :
    In k (children n) -> is_element k = true -> is_citation k = false ->
    reads k c -> reads n c.

(** [visits parent c]: the loops of [process_body_elements] and of
    [get_paragraph_content], started at [parent], reach [c] as a loop
    variable, given that no earlier iteration raised. *)
Inductive visits : node -> node -> Prop :=
| visits_child (parent c : node) : In c (children parent) -> visits parent c
| visits_div (parent d c : node) :
    In d (children parent) -> is_named "div" d = true -> visits d c ->
    visits parent c
| visits_p (parent p c : node) :
    In p (children parent) -> is_named "p" p = true -> reads p c ->
    visits parent c.

(** A body element that [process_body_elements] passes over. *)
Definition passed_over (elem : node) : bool :=
  is_element elem
  && negb (is_named "head" elem) && negb (is_named "p" elem)
  && negb (is_named "div" elem)
  && negb (is_named "figure" elem && opt_is (get elem (plain "type")) "table").

(** The strings of a block that the parser strips are trimmed. *)
Definition block_trimmed (b : Block) : Prop :=
  match b with
  | Heading h => trimmed h
  | Paragraph _ => True
  | Table (Some rows) => forall row cell, In row rows -> In cell row -> trimmed cell
  | Table None => True
  end.

(** *** The document the rendering rules describe

    The definitions [spec_...] follow the rendering rules of the
    specification (4.2, rules 1 to 6), not the code: they say which
    elements the finished document holds. *)

(** Rule 1: the five named paragraph styles. *)
Definition spec_style (name : string) (properties : list (string * odf_arg)) : odf :=
  OdfElem "Style" [("name", AStr name); ("family", AStr "paragraph")]
    [OdfElem "TextProperties" properties []].

Definition spec_styles : list odf :=
  [spec_style "Title"
     [("fontsize", AStr "24pt"); ("fontweight", AStr "bold"); ("fontfamily", AStr "Arial")];
   spec_style "AuthorStyle"
     [("fontsize", AStr "12pt"); ("fontweight", AStr "bold"); ("fontfamily", AStr "Arial")];
   spec_style "AbstractStyle"
     [("fontsize", AStr "12pt"); ("fontstyle", AStr "italic"); ("fontfamily", AStr "Arial")];
   spec_style "Heading"
     [("fontsize", AStr "18pt"); ("fontweight", AStr "bold"); ("fontfamily", AStr "Arial")];
   spec_style "BodyText"
     [("fontsize", AStr "12pt"); ("fontfamily", AStr "Arial")]].

(** A paragraph in a named style with a text. *)
Definition styled (style : odf_arg) (text : odf_arg) : odf :=
  OdfElem "P" [("stylename", style); ("text", text)] [].

(** Rule 5, Paragraph: literal text, or a hyperlink to ["#" + target]. *)
Definition spec_piece (s : InlineSpan) : odf :=
  match s with
  | Text t => OdfText t
  | CitationRef t target =>
      OdfElem "A" [("href", AStr ("#" ++ target)); ("text", AStr t)] []
  end.

(** Rule 5, Table: one cell per string, one row per row array. *)
Definition spec_cell (cell_data : string) : odf :=
  OdfElem "TableCell" [] [styled paragraph_style (AStr cell_data)].

Definition spec_row (row_data : list string) : odf :=
  OdfElem "TableRow" [] (map spec_cell row_data).

(** Rule 5: the elements of one block. *)
Definition spec_block (b : Block) : list odf :=
  match b with
  | Heading h => [styled heading_style (AStr h); blank_paragraph]
  | Paragraph content =>
      [OdfElem "P" [("stylename", paragraph_style)] (map spec_piece content);
       blank_paragraph]
  | Table (Some (row :: rows)) =>
      [OdfElem "Table" [] (map spec_row (row :: rows)); blank_paragraph]
  | Table _ => []
  end.

(** Rule 6: the references section. *)
Definition spec_references (refs : list Reference) : list odf :=
  match refs with
  | [] => []
  | _ :: _ =>
      [blank_paragraph; styled heading_style (AStr "References"); blank_paragraph]
      ++ flat_map (fun r => [reference_paragraph r; blank_paragraph]) refs
  end.

(** Rules 2 to 6, in their fixed order. *)
Definition spec_text (m : DocumentModel) : list odf :=
  [styled title_style (opt_arg (title m))]
  ++ (match authors m with
      | [] => []
      | _ :: _ => [styled author_style (AStr (Py.join ", " (authors m)))]
      end)
  ++ (match abstract m with
      | EmptyString => []
      | String _ _ => [abstract_heading; styled abstract_style (AStr (abstract m))]
      end)
  ++ flat_map spec_block (body_elements m)
  ++ spec_references (references m).

(** [d] with more elements at the end of [doc.text]. *)
Definition extend (d : odt) (more : list odf) : odt :=
  mkOdt (doc_styles d) (doc_text d ++ more).

(** *** What a run prints and saves *)

Definition is_print (ev : event) : bool :=
  match ev with
  | Print _ => true
  | Save _ _ => false
  end.

(** [c] saves nothing. *)
Definition silent {A : Type} (c : M A) : Prop :=
  forall d, forallb is_print (trace (c d)) = true.

(** [c] saves once, the document it ends with, under [output_file], with
    one log line after it, and only when it returns. *)
Definition saves_last (output_file : string) (c : M unit) : Prop :=
  forall d,
    match value (c d) with
    | inr _ =>
        exists lines,
          forallb is_print lines = true /\
          trace (c d) = lines ++ [Save output_file (final (c d));
                                  Print ("ODT file created: " ++ output_file)]
    | inl _ => forallb is_print (trace (c d)) = true
    end.

(** No document: the condition on a run that cannot end that way. *)
Definition never (d : odt) : Prop := False.

(** ** The sweep over the folders

    [find_pdfs], [convert_pdf_to_tei] and [process_pdfs_to_odt].  The
    file system is the list of the regular files with their contents,
    and, apart, the documents [doc.save] has written.  The extraction
    service, the XML reader and the failures of [open] and [write] are
    parameters. *)

Module Sweep.

(** A [pathlib.Path]: the folders it lies in, outermost first, and its
    name. *)
Record Path : Type := mkPath { folders : list string; name : string }.

Fixpoint list_eqb (a b : list string) : bool :=
  match a, b with
  | [], [] => true
  | x :: a', y :: b' => String.eqb x y && list_eqb a' b'
  | _, _ => false
  end.

Definition Path_eqb (a b : Path) : bool :=
  list_eqb (folders a) (folders b) && String.eqb (name a) (name b).

(** [str(path)] *)
Definition str_path (p : Path) : string := Py.join "/" (folders p ++ [name p]).

(** [name.rfind('.')] *)
Fixpoint rfind_dot (s : string) : option nat :=
  match s with
  | EmptyString => None
  | String c rest =>
      match rfind_dot rest with
      | Some i => Some (S i)
      | None => if Ascii.eqb c "." then Some 0 else None
      end
  end.

(** [path.stem]: the name up to its last dot, unless that dot is the
    first or the last character. *)
Definition stem (n : string) : string :=
  match rfind_dot n with
  | Some i =>
      if ((0 <? i) && (i <? String.length n - 1))%nat then substring 0 i n else n
  | None => n
  end.

(** The name matches the pattern ["*" + suffix]. *)
Definition ends_with (suffix s : string) : bool :=
  ((String.length suffix <=? String.length s)%nat
   && String.eqb (substring (String.length s - String.length suffix)
                            (String.length suffix) s) suffix).

(** [a] is [b] or a folder above [b]. *)
Fixpoint is_prefix (a b : list string) : bool :=
  match a, b with
  | [], _ => true
  | x :: a', y :: b' => String.eqb x y && is_prefix a' b'
  | _ :: _, [] => false
  end.

Record world : Type := mkWorld {
  files : list (Path * string);
  documents : list (Path * odt)
}.

Fixpoint lookup {V : Type} (p : Path) (l : list (Path * V)) : option V :=
  match l with
  | [] => None
  | (k, v) :: rest => if Path_eqb k p then Some v else lookup p rest
  end.

(** Writing a file: its content is replaced, or the file is new. *)
Fixpoint store {V : Type} (p : Path) (v : V) (l : list (Path * V)) : list (Path * V) :=
  match l with
  | [] => [(p, v)]
  | (k, old) :: rest =>
      if Path_eqb k p then (k, v) :: rest else (k, old) :: store p v rest
  end.

(** [path.exists()] *)
Definition exists_ (w : world) (p : Path) : bool :=
  match lookup p (files w), lookup p (documents w) with
  | None, None => false
  | _, _ => true
  end.

Definition write_text (w : world) (p : Path) (data : string) : world :=
  mkWorld (store p data (files w)) (documents w).

Definition write_document (w : world) (p : Path) (doc : odt) : world :=
  mkWorld (files w) (store p doc (documents w)).

(** [folder.rglob("*" + suffix)] and [folder.glob("*" + suffix)], over
    the files that were not written by [doc.save]. *)
Definition rglob (folder : list string) (suffix : string) (w : world) : list Path :=
  filter (fun p => is_prefix folder (folders p) && ends_with suffix (name p))
         (map fst (files w)).

Definition glob (folder : list string) (suffix : string) (w : world) : list Path :=
  filter (fun p => list_eqb (folders p) folder && ends_with suffix (name p))
         (map fst (files w)).

(** What the sweep does to the outside, besides the files it writes:
    what the parser and the renderer print, and the requests to the
    extraction service. *)
Inductive effect : Type :=
| Out (ev : event)
| Request (pdf_path : Path).

Inductive io_call : Type :=
| OpenRead (p : Path)
| OpenWrite (p : Path)
| WriteText (p : Path) (data : string).

(** The documents [create_odt] saved, written to [output_file]. *)
Fixpoint save_documents (output_file : Path) (events : list event) (w : world) : world :=
  match events with
  | [] => w
  | Print _ :: rest => save_documents output_file rest w
  | Save _ doc :: rest => save_documents output_file rest (write_document w output_file doc)
  end.

Section Folders.

(** [HOME_FOLDER] *)
Variable home : list string.
(** Which [open] and [write] calls raise. *)
Variable io_raises : io_call -> option exn.
(** The extraction service: the response text for the bytes of a PDF,
    or the exception of a failed or refused request. *)
Variable grobid : Path -> string -> result string.
(** [etree.parse] on a file with a given content. *)
Variable xml_of : Path -> string -> result node.
(** Which odfpy calls raise. *)
Variable raises : odf_call -> option exn.

Definition SOURCE_FOLDER : list string := home ++ ["source"].
Definition TEI_FOLDER : list string := home ++ ["tei"].
Definition OUTPUT_FOLDER : list string := home ++ ["output"].

Definition find_pdfs (directory : list string) (w : world) : list Path :=
  rglob directory ".pdf" w.

(** [open(path, "rb")] and reading the file. *)
Definition open_read (w : world) (p : Path) : result string :=
  match lookup p (files w) with
  | None => raise (Exn "FileNotFoundError" "No such file or directory")
  | Some data =>
      match io_raises (OpenRead p) with
      | Some e => raise e
      | None => ok data
      end
  end.

(** [convert_pdf_to_tei]: the value returned, the files afterwards and
    the effects.  The request counts as made even when it raises;
    [open(tei_output_path, "w")] creates the file empty, and a [write]
    that raises leaves it so. *)
Definition convert_pdf_to_tei (pdf_path tei_output_path : Path) (w : world)
  : option Path * world * list effect :=
  let failed (e : exn) (w' : world) (before : list effect) :=
    (None, w',
     before ++ [Out (Print ("Error converting PDF to TEI (" ++ str_path pdf_path
                            ++ "): " ++ exn_msg e))]) in
  match open_read w pdf_path with
  | inl e => failed e w []
  | inr pdf_file =>
      match grobid pdf_path pdf_file with
      | inl e => failed e w [Request pdf_path]
      | inr tei_content =>
          match io_raises (OpenWrite tei_output_path) with
          | Some e => failed e w [Request pdf_path]
          | None =>
              match io_raises (WriteText tei_output_path tei_content) with
              | Some e =>
                  failed e (write_text w tei_output_path EmptyString) [Request pdf_path]
              | None =>
                  (Some tei_output_path,
                   write_text w tei_output_path tei_content,
                   [Request pdf_path;
                    Out (Print ("Converted PDF to TEI: " ++ str_path pdf_path))])
              end
          end
      end
  end.

(** [TEI_FOLDER / f"{pdf_file.stem}.tei.xml"] *)
Definition tei_path_of (pdf_file : Path) : Path :=
  mkPath TEI_FOLDER (stem (name pdf_file) ++ ".tei.xml").

(** [OUTPUT_FOLDER / f"{tei_file.stem}.odt"] *)
Definition odt_path_of (tei_file : Path) : Path :=
  mkPath OUTPUT_FOLDER (stem (name tei_file) ++ ".odt").

(** One iteration of the first loop of [process_pdfs_to_odt]. *)
Definition convert_one (pdf_file : Path) (w : world) : world * list effect :=
  let tei_file := tei_path_of pdf_file in
  if exists_ w tei_file
  then (w, [Out (Print ("TEI file already exists for " ++ name pdf_file
                        ++ ", skipping conversion."))])
  else
    let '(_, w', effects) := convert_pdf_to_tei pdf_file tei_file w in
    (w', effects).

Fixpoint convert_all (pdf_files : list Path) (w : world) : world * list effect :=
  match pdf_files with
  | [] => (w, [])
  | pdf_file :: rest =>
      let '(w1, e1) := convert_one pdf_file w in
      let '(w2, e2) := convert_all rest w1 in
      (w2, e1 ++ e2)
  end.

(** [etree.parse(tei_file)] in the world [w]. *)
Definition read_xml (w : world) (tei_file : Path) : result node :=
  match lookup tei_file (files w) with
  | None => raise (Exn "OSError" "Error reading file: failed to load external entity")
  | Some data => xml_of tei_file data
  end.

(** One iteration of the second loop of [process_pdfs_to_odt]. *)
Definition render_one (tei_file : Path) (w : world) : world * list effect :=
  let '(parsed_data, printed) :=
    parse_tei (fun _ => read_xml w tei_file) (str_path tei_file) in
  match parsed_data with
  | None => (w, map Out printed)
  | Some parsed =>
      let output_file := odt_path_of tei_file in
      if exists_ w output_file
      then (w, map Out printed
               ++ [Out (Print ("ODT file already exists for " ++ name tei_file
                               ++ ", skipping ODT creation."))])
      else
        let events := create_odt raises parsed (str_path output_file) in
        (save_documents output_file events w, map Out printed ++ map Out events)
  end.

Fixpoint render_all (tei_files : list Path) (w : world) : world * list effect :=
  match tei_files with
  | [] => (w, [])
  | tei_file :: rest =>
      let '(w1, e1) := render_one tei_file w in
      let '(w2, e2) := render_all rest w1 in
      (w2, e1 ++ e2)
  end.

Definition process_pdfs_to_odt (w : world) : world * list effect :=
  let pdf_files := find_pdfs SOURCE_FOLDER w in
  let '(w1, e1) := convert_all pdf_files w in
  let '(w2, e2) := render_all (glob TEI_FOLDER ".tei.xml" w1) w1 in
  (w2,
   Out (Print ("Found " ++ Py.str (List.length pdf_files)
               ++ " PDF files in source folder."))
   :: e1 ++ e2).

End Folders.

(** A file that is there keeps its content. *)
Definition kept (w w' : world) : Prop :=
  (forall p data, lookup p (files w) = Some data -> lookup p (files w') = Some data) /\
  (forall p doc, lookup p (documents w) = Some doc -> lookup p (documents w') = Some doc).

Definition is_output (ef : effect) : bool :=
  match ef with
  | Out (Print _) => true
  | _ => false
  end.

End Sweep.

(** ** Further documents and models used in the examples *)

Module Cases.

(** An odfpy that rejects the construction of a blank line. *)
Definition rejects_blank : odf_call -> option exn :=
  fun c =>
    match c with
    | Construct (OdfElem "P" [("text", AStr EmptyString)] []) =>
        Some (Exn "ValueError" "blank line refused")
    | _ => None
    end.

(** A model without authors and without abstract. *)
Definition model_anonymous : DocumentModel :=
  {| title := Some "T"; authors := []; abstract := EmptyString;
     body_elements := [Paragraph [Text "Body."]];
     references := [] |}.

(** A model with a heading, a cited paragraph, a table and a reference. *)
Definition model_full : DocumentModel :=
  {| title := Some "A study"; authors := ["Ann Lee"; "John Doe"];
     abstract := "Short.";
     body_elements :=
       [Heading "Intro";
        Paragraph [Text "See "; CitationRef "Smith 2020" "b0"; Text "."];
        Table (Some [["a"; "b"]; ["c"; "d"]])];
     references := [mkReference "b0" "Smith 2020"] |}.

End Cases.

Module SweepCases.

Definition home : list string := [EmptyString; "srv"].

Definition a_pdf : Sweep.Path := Sweep.mkPath (home ++ ["source"]) "a.pdf".
Definition b_pdf : Sweep.Path := Sweep.mkPath (home ++ ["source"; "sub"]) "b.pdf".
Definition a_tei : Sweep.Path := Sweep.mkPath (home ++ ["tei"]) "a.tei.xml".
Definition b_tei : Sweep.Path := Sweep.mkPath (home ++ ["tei"]) "b.tei.xml".
Definition a_odt : Sweep.Path := Sweep.mkPath (home ++ ["output"]) "a.tei.odt".
Definition b_odt : Sweep.Path := Sweep.mkPath (home ++ ["output"]) "b.tei.odt".

(** Two PDFs, the second one already extracted. *)
Definition fresh : Sweep.world :=
  Sweep.mkWorld [(a_pdf, "A"); (b_pdf, "B"); (b_tei, "<b/>")] [].

(** Every PDF extracted and every TEI file rendered. *)
Definition done : Sweep.world :=
  Sweep.mkWorld [(a_pdf, "A"); (a_tei, "<a/>"); (a_odt, "PK")] [].

(** A service that answers for the content "A" only. *)
Definition grobid : Sweep.Path -> string -> result string :=
  fun _ data =>
    if String.eqb data "A" then ok "<a/>"
    else raise (Exn "HTTPError" "500 Server Error").

(** A reader that accepts the content "<a/>" only. *)
Definition xml_of : Sweep.Path -> string -> result node :=
  fun _ data =>
    if String.eqb data "<a/>" then ok Samples.doc_smith
    else raise (Exn "XMLSyntaxError" "Document is empty, line 1, column 1").

Definition io_ok : Sweep.io_call -> option exn := fun _ => None.

End SweepCases.

(** ** Facts about the Python helpers *)

Lemma str_inj (a b : nat) : Py.str a = Py.str b -> a = b.
Proof.
  unfold Py.str. intros H.
  apply Unsigned.to_uint_inj.
  assert (E : Some (Nat.to_uint a) = Some (Nat.to_uint b)).
  { rewrite <- (NilEmpty.usu (Nat.to_uint a)), <- (NilEmpty.usu (Nat.to_uint b)).
    now rewrite H. }
  now injection E.
Qed.

Lemma ref_k_inj (a b : nat) : ref_k a = ref_k b -> a = b.
Proof.
  unfold ref_k. simpl. intros H. apply str_inj. now injection H.
Qed.

Lemma lstrip_char_starts (c : ascii) (s : string) :
  starts_with c (Py.lstrip_char c s) = false.
Proof.
  induction s as [|d rest IH]; simpl.
  - reflexivity.
  - destruct (Ascii.eqb d c) eqn:E.
    + exact IH.
    + simpl. exact E.
Qed.

Lemma lstrip_ws_blank (s : string) : blank s = true -> Py.lstrip_ws s = EmptyString.
Proof.
  induction s as [|c rest IH]; simpl.
  - reflexivity.
  - intros H. apply andb_true_iff in H. destruct H as [Hc Hr].
    rewrite Hc. now apply IH.
Qed.

Lemma strip_blank (s : string) : blank s = true -> Py.strip s = EmptyString.
Proof.
  intros H. unfold Py.strip. now rewrite (lstrip_ws_blank s H).
Qed.

Lemma all_str_None (l : list (option string)) : In None l -> Py.all_str l = None.
Proof.
  induction l as [|x rest IH]; simpl.
  - intros [].
  - intros [H|H].
    + now subst.
    + destruct x as [s|]; [|reflexivity]. now rewrite (IH H).
Qed.

(** ** Facts about loops that may raise *)

Lemma rflat_map_app {A B : Type} (f : A -> result (list B)) (l1 l2 : list A)
  (r1 r2 : list B) :
  rflat_map f l1 = ok r1 -> rflat_map f l2 = ok r2 ->
  rflat_map f (l1 ++ l2) = ok (r1 ++ r2).
Proof.
  revert r1. induction l1 as [|a rest IH]; simpl; intros r1 H1 H2.
  - injection H1 as <-. exact H2.
  - destruct (f a) as [e|x]; simpl in *; [discriminate|].
    destruct (rflat_map f rest) as [e|y] eqn:E; simpl in *; [discriminate|].
    injection H1 as <-.
    rewrite (IH y eq_refl H2). simpl. now rewrite app_assoc.
Qed.

Lemma rflat_map_Forall {A B : Type} (Q : B -> Prop) (f : A -> result (list B))
  (l : list A) :
  Forall (fun a => forall x, f a = ok x -> Forall Q x) l ->
  forall r, rflat_map f l = ok r -> Forall Q r.
Proof.
  induction 1 as [|a rest Ha _ IH]; simpl; intros r Hr.
  - injection Hr as <-. constructor.
  - destruct (f a) as [e|x] eqn:Ea; simpl in Hr; [discriminate|].
    destruct (rflat_map f rest) as [e|y]; simpl in Hr; [discriminate|].
    injection Hr as <-. apply Forall_app. split; [now apply Ha | now apply IH].
Qed.

(** Induction over a tree: a property of a node follows from the
    property of its children. *)
Lemma node_children_ind (Q : node -> Prop) :
  (forall t a tx cs tl, Forall Q cs -> Q (Node t a tx cs tl)) ->
  forall n, Q n.
Proof.
  intros step. fix IH 1. intros [t a tx cs tl].
  apply step. induction cs as [|c rest IHrest].
  - constructor.
  - constructor; [apply IH | exact IHrest].
Qed.

(** ** The loops of the parser, unfolded once *)

Lemma recurse_eq (n : node) :
  recurse n = (below <- rflat_map recurse_child (children n) ;;
               ok (text_piece (text n) ++ below))%result.
Proof. destruct n; reflexivity. Qed.

Lemma process_body_elements_eq (parent : node) :
  process_body_elements parent = rflat_map process_body_element (children parent).
Proof. destruct parent; reflexivity. Qed.

(** What a successful parse returned, field by field. *)
Lemma parse_tei_Some (etree_parse : string -> result node) (tei_file : string)
  (m : DocumentModel) :
  fst (parse_tei etree_parse tei_file) = Some m ->
  exists tree,
    etree_parse tei_file = ok tree /\
    title m = title_of tree /\
    collect_authors [] (xpath tree path_authors) = ok (authors m) /\
    abstract m = abstract_of tree /\
    match xpath tree path_body with
    | body :: _ => process_body_elements body
    | [] => ok []
    end = ok (body_elements m) /\
    references m = collect_references [] (xpath tree path_bibliography).
Proof.
  unfold parse_tei, parse_tei_try.
  destruct (etree_parse tei_file) as [e|tree] eqn:Et; simpl; [discriminate|].
  destruct (collect_authors [] (xpath tree path_authors)) as [e|au] eqn:Ea;
    simpl; [discriminate|].
  destruct (match xpath tree path_body with
            | body :: _ => process_body_elements body
            | [] => ok []
            end) as [e|bs] eqn:Eb; simpl; [discriminate|].
  intros H. injection H as <-. exists tree. simpl.
  repeat split; solve [reflexivity | assumption].
Qed.

Lemma parse_tei_raises (etree_parse : string -> result node) (tei_file : string)
  (e : exn) :
  parse_tei_try etree_parse tei_file = raise e ->
  parse_tei etree_parse tei_file =
  (None, [Print ("Error parsing TEI file (" ++ tei_file ++ "): " ++ exn_msg e)]).
Proof.
  unfold parse_tei. intros H. now rewrite H.
Qed.

(** ** XPath: [//parent/child] selects the matching children of the
    elements named [parent] *)

Lemma flat_map_ext_Forall {A B : Type} (f g : A -> list B) (l : list A) :
  Forall (fun a => f a = g a) l -> flat_map f l = flat_map g l.
Proof.
  induction 1 as [|a rest Ha _ IH]; simpl.
  - reflexivity.
  - now rewrite Ha, IH.
Qed.

Lemma xpath_walk_parent_child (parent : QName) (child : step) :
  step_axis child = Child ->
  let top := mkStep Descendant parent None in
  forall n,
    xpath_walk [[top; child]] n = select_children parent child n /\
    xpath_walk [[top; child]; [child]] n =
    (if step_matches child n then [n] else []) ++ select_children parent child n.
Proof.
  intros Hax top.
  assert (Hbelow : forall n, pending_below [[top; child]] n =
                             if has_tag parent n then [[top; child]; [child]]
                             else [[top; child]]).
  { intros n. unfold pending_below, top, step_matches. simpl.
    rewrite andb_true_r. now destruct (has_tag parent n). }
  assert (Hbelow' : forall n, pending_below [[top; child]; [child]] n =
                              pending_below [[top; child]] n).
  { intros n. unfold pending_below, is_descendant_step. simpl. rewrite Hax.
    destruct (step_matches child n); simpl; now rewrite !app_nil_r. }
  apply node_children_ind. intros t a tx cs tl Hcs.
  assert (Hrec : flat_map (xpath_walk (pending_below [[top; child]] (Node t a tx cs tl))) cs
                 = select_children parent child (Node t a tx cs tl)).
  { rewrite Hbelow. simpl select_children.
    apply flat_map_ext_Forall.
    eapply Forall_impl; [|exact Hcs]. intros c [H0 H1].
    destruct (has_tag parent (Node t a tx cs tl)); simpl.
    - exact H1.
    - exact H0. }
  split.
  - change (xpath_walk [[top; child]] (Node t a tx cs tl))
      with ((if selected_here [[top; child]] (Node t a tx cs tl)
             then [Node t a tx cs tl] else [])
            ++ flat_map (xpath_walk (pending_below [[top; child]] (Node t a tx cs tl))) cs).
    rewrite Hrec. reflexivity.
  - change (xpath_walk [[top; child]; [child]] (Node t a tx cs tl))
      with ((if selected_here [[top; child]; [child]] (Node t a tx cs tl)
             then [Node t a tx cs tl] else [])
            ++ flat_map (xpath_walk (pending_below [[top; child]; [child]]
                                       (Node t a tx cs tl))) cs).
    rewrite Hbelow', Hrec. unfold selected_here. simpl. now rewrite orb_false_r.
Qed.

Lemma xpath_parent_child (parent : QName) (child : step) (root : node) :
  step_axis child = Child ->
  xpath root [mkStep Descendant parent None; child] = select_children parent child root.
Proof.
  intros Hax. unfold xpath. now apply xpath_walk_parent_child.
Qed.

(** ** The parser: paragraphs, tables, title, failure *)

(** C4: the paragraph
    [<p>See <ref type="bibr" target="#b0">Smith 2020</ref> for details.</p>]
    parses to a Paragraph block whose content is exactly the three spans
    Text("See "), CitationRef("Smith 2020", "b0"), Text(" for details."),
    in that order. *)
Theorem C4_smith_paragraph :
  get_paragraph_content Samples.p_smith
  = ok [Text "See "; CitationRef "Smith 2020" "b0"; Text " for details."]
  /\ process_body_element Samples.p_smith
     = ok [Paragraph [Text "See "; CitationRef "Smith 2020" "b0"; Text " for details."]]
  /\ option_map body_elements
       (fst (parse_tei (Samples.reads Samples.doc_smith) "smith.tei.xml"))
     = Some [Heading "Intro";
             Paragraph [Text "See "; CitationRef "Smith 2020" "b0"; Text " for details."]].
Proof.
  repeat split; reflexivity.
Qed.

(** C5: when the try block of the parse raises, whatever the exception,
    [parse_tei] returns None (no document model, whole or partial), the
    exception goes no further than a logged line. *)
Theorem C5_failure_is_None (etree_parse : string -> result node) (tei_file : string)
  (e : exn) :
  parse_tei_try etree_parse tei_file = raise e ->
  fst (parse_tei etree_parse tei_file) = None /\
  snd (parse_tei etree_parse tei_file)
  = [Print ("Error parsing TEI file (" ++ tei_file ++ "): " ++ exn_msg e)].
Proof.
  intros H. now rewrite (parse_tei_raises _ _ _ H).
Qed.

Lemma C5_failure_is_None_witness :
  fst (parse_tei Samples.unreadable "missing.tei.xml") = None /\
  snd (parse_tei Samples.unreadable "missing.tei.xml")
  = [Print "Error parsing TEI file (missing.tei.xml): Document is empty, line 1, column 1"].
Proof.
  apply (C5_failure_is_None Samples.unreadable "missing.tei.xml"
           (Exn "XMLSyntaxError" "Document is empty, line 1, column 1")).
  reflexivity.
Defined.

(** C7: the title of the document model is the text of the first
    main-title element of a title statement, in document order, and the
    literal "N/A" when there is none. *)
Theorem C7_title (etree_parse : string -> result node) (tei_file : string)
  (m : DocumentModel) :
  fst (parse_tei etree_parse tei_file) = Some m ->
  exists tree,
    etree_parse tei_file = ok tree /\
    title m = match select_children (tei "titleStmt")
                      (mkStep Child (tei "title") (Some (plain "type", "main"))) tree with
              | first :: _ => text first
              | [] => Some "N/A"
              end.
Proof.
  intros H. destruct (parse_tei_Some _ _ _ H) as (tree & Ht & Htitle & _).
  exists tree. split; [exact Ht|].
  rewrite Htitle. unfold title_of, path_title.
  now rewrite xpath_parent_child.
Qed.

Lemma C7_title_witness :
  exists tree,
    Samples.reads Samples.doc_no_title "notitle.tei.xml" = ok tree /\
    Some "N/A" = match select_children (tei "titleStmt")
                      (mkStep Child (tei "title") (Some (plain "type", "main"))) tree with
                 | first :: _ => text first
                 | [] => Some "N/A"
                 end.
Proof.
  apply (C7_title (Samples.reads Samples.doc_no_title) "notitle.tei.xml"
           (mkDocumentModel (Some "N/A") [] EmptyString [] [])).
  reflexivity.
Defined.

(** The claim C1 fails: a table-typed figure without a nested table,
    alone in the body, leaves a Table block in [body_elements]. *)
Lemma C1_counterexample :
  get Samples.figure_without_table (plain "type") = Some "table" /\
  find Samples.figure_without_table (tei "table") = None /\
  exists m,
    fst (parse_tei (Samples.reads Samples.doc_figure) "figure.tei.xml") = Some m /\
    body_elements m = [Table None] /\
    existsb is_table (body_elements m) = true.
Proof.
  repeat split. eexists. repeat split.
Qed.

(** C1, amended: a table-typed figure without a nested table raises no
    error and contributes exactly one Table block, whose content is None,
    at its place among the blocks of its siblings; for such a block the
    renderer logs a line and adds nothing to the document. *)
Theorem C1_figure_without_table (raises : odf_call -> option exn)
  (fig : node) (q : QName) (pre post : list node) (bs_pre bs_post : list Block)
  (t : etag) (a : list (QName * string)) (tx tl : option string) (d : odt) :
  tag fig = Named q -> localname q = "figure" ->
  get fig (plain "type") = Some "table" ->
  find fig (tei "table") = None ->
  rflat_map process_body_element pre = ok bs_pre ->
  rflat_map process_body_element post = ok bs_post ->
  process_body_element fig = ok [Table None] /\
  process_body_elements (Node t a tx (pre ++ fig :: post) tl)
  = ok (bs_pre ++ Table None :: bs_post) /\
  add_body_element raises (Table None) d
  = mkOutcome (ok tt) d [Print "Adding table to the document"].
Proof.
  intros Htag Hname Htype Hfind Hpre Hpost.
  assert (Hfig : process_body_element fig = ok [Table None]).
  { unfold process_body_element, QName_localname, parse_table.
    rewrite Htag, Hname, Htype, Hfind. reflexivity. }
  split; [exact Hfig|]. split.
  - rewrite process_body_elements_eq. simpl children.
    apply rflat_map_app; [exact Hpre|].
    simpl. rewrite Hfig, Hpost. reflexivity.
  - reflexivity.
Qed.

Lemma C1_figure_without_table_witness :
  process_body_element Samples.figure_without_table = ok [Table None] /\
  process_body_elements
    (Samples.elem "body" [] None
       ([Samples.elem "head" [] (Some "Results") [] None]
        ++ Samples.figure_without_table :: [Samples.p_smith]) None)
  = ok ([Heading "Results"] ++ Table None ::
        [Paragraph [Text "See "; CitationRef "Smith 2020" "b0"; Text " for details."]]) /\
  add_body_element Samples.never_raises (Table None) (mkOdt [] [])
  = mkOutcome (ok tt) (mkOdt [] []) [Print "Adding table to the document"].
Proof.
  apply (C1_figure_without_table Samples.never_raises Samples.figure_without_table
           (tei "figure")); reflexivity.
Defined.

(** ** Citation targets *)

Lemma text_piece_targets (x : option string) :
  Forall (fun s => span_target_ok s = true) (text_piece x).
Proof.
  unfold text_piece. destruct x as [s|]; [|constructor].
  destruct (Py.truthy (Some s)); repeat constructor.
Qed.

Lemma citation_target (child : node) : span_target_ok (citation child) = true.
Proof.
  unfold citation. simpl. now rewrite lstrip_char_starts.
Qed.

Lemma recurse_targets (n : node) :
  forall content, recurse n = ok content ->
                  Forall (fun s => span_target_ok s = true) content.
Proof.
  induction n as [t a tx cs tl IH] using node_children_ind.
  intros content. rewrite recurse_eq. simpl children. simpl text.
  destruct (rflat_map recurse_child cs) as [e|below] eqn:E; simpl; [discriminate|].
  intros H. injection H as <-.
  apply Forall_app. split; [apply text_piece_targets|].
  apply (rflat_map_Forall _ recurse_child cs); [|exact E].
  eapply Forall_impl; [|exact IH]. intros c Hc x.
  unfold recurse_child.
  destruct (QName_localname c) as [e|name]; simpl; [discriminate|].
  destruct (String.eqb name "ref" && opt_is (get c (plain "type")) "bibr").
  - intros H. injection H as <-.
    constructor; [apply citation_target | apply text_piece_targets].
  - destruct (recurse c) as [e|inner] eqn:Ec; simpl; [discriminate|].
    intros H. injection H as <-.
    apply Forall_app. split; [now apply Hc | apply text_piece_targets].
Qed.

Lemma process_body_elements_targets (parent : node) :
  forall bs, process_body_elements parent = ok bs ->
             Forall (fun b => block_targets_ok b = true) bs.
Proof.
  induction parent as [t a tx cs tl IH] using node_children_ind.
  intros bs. rewrite process_body_elements_eq. simpl children.
  apply rflat_map_Forall.
  eapply Forall_impl; [|exact IH]. intros c Hc x.
  unfold process_body_element.
  destruct (QName_localname c) as [e|name]; simpl; [discriminate|].
  destruct (String.eqb name "head").
  { intros H. injection H as <-. repeat constructor. }
  destruct (String.eqb name "p").
  { unfold get_paragraph_content.
    destruct (recurse c) as [e|content] eqn:Ec; simpl; [discriminate|].
    intros H. injection H as <-. constructor; [|constructor].
    simpl. apply forallb_forall. apply Forall_forall.
    now apply (recurse_targets c). }
  destruct (String.eqb name "div").
  { apply Hc. }
  destruct (String.eqb name "figure" && opt_is (get c (plain "type")) "table");
    intros H; injection H as <-; repeat constructor.
Qed.

(** C10: in every document model the parser produces, no citation target
    begins with '#'; every leading '#' of the target attribute is
    stripped, so that "##b0" yields "b0". *)
Theorem C10_targets_without_hash (etree_parse : string -> result node)
  (tei_file : string) (m : DocumentModel) :
  fst (parse_tei etree_parse tei_file) = Some m ->
  (forall content ref_text target,
      In (Paragraph content) (body_elements m) ->
      In (CitationRef ref_text target) content ->
      starts_with "#" target = false) /\
  process_body_element Samples.p_double_hash = ok [Paragraph [CitationRef "Smith" "b0"]].
Proof.
  intros H. split; [|reflexivity].
  destruct (parse_tei_Some _ _ _ H) as (tree & _ & _ & _ & _ & Hbody & _).
  assert (Hall : Forall (fun b => block_targets_ok b = true) (body_elements m)).
  { destruct (xpath tree path_body) as [|body rest].
    - injection Hbody as <-. constructor.
    - now apply (process_body_elements_targets body). }
  intros content ref_text target Hin Hspan.
  rewrite Forall_forall in Hall. specialize (Hall _ Hin). simpl in Hall.
  rewrite forallb_forall in Hall. specialize (Hall _ Hspan). simpl in Hall.
  now apply negb_true_iff in Hall.
Qed.

Lemma C10_targets_without_hash_witness :
  (forall content ref_text target,
      In (Paragraph content) [Paragraph [CitationRef "Smith" "b0"]] ->
      In (CitationRef ref_text target) content ->
      starts_with "#" target = false) /\
  process_body_element Samples.p_double_hash = ok [Paragraph [CitationRef "Smith" "b0"]].
Proof.
  apply (C10_targets_without_hash (Samples.reads Samples.doc_double_hash)
           "hash.tei.xml"
           (mkDocumentModel (Some "T") [] EmptyString [Paragraph [CitationRef "Smith" "b0"]] [])).
  reflexivity.
Defined.

(** ** Author names *)

Lemma collect_authors_raises (l : list node) :
  forall acc author,
    In author l -> Py.all_str (name_parts author) = None ->
    collect_authors acc l = raise Py.TypeError_join.
Proof.
  induction l as [|a rest IH]; intros acc author Hin Hnone.
  - destruct Hin.
  - simpl. unfold Py.join_items. destruct Hin as [->|Hin].
    + now rewrite Hnone.
    + destruct (Py.all_str (name_parts a)); simpl.
      * now apply (IH _ author).
      * reflexivity.
Qed.

Lemma nameless_part_all_str (author : node) :
  nameless_part author -> Py.all_str (name_parts author) = None.
Proof.
  intros (persName & Hp & Hpart). unfold name_parts. rewrite Hp.
  apply all_str_None. apply in_or_app.
  destruct Hpart as [(forename & Hf & Ht)|(surname & Hs & Ht)].
  - left. rewrite Hf, Ht. now left.
  - right. rewrite Hs, Ht. now left.
Qed.

(** The claim C9 fails: a second forename without text, after a first
    one with text, does not make the parse fail. *)
Lemma C9_counterexample :
  In Samples.empty_middle_name (xpath Samples.doc_empty_middle_name path_authors) /\
  some_part_without_text Samples.empty_middle_name /\
  exists m,
    fst (parse_tei (Samples.reads Samples.doc_empty_middle_name) "names.tei.xml") = Some m /\
    authors m = ["John Doe"].
Proof.
  split; [now left|]. split.
  - exists (Samples.elem "persName" [] None
              [Samples.elem "forename" [(plain "type", "first")] (Some "John") [] None;
               Samples.elem "forename" [(plain "type", "middle")] None [] None;
               Samples.elem "surname" [] (Some "Doe") [] None] None).
    exists (Samples.elem "forename" [(plain "type", "middle")] None [] None).
    split; [now left|]. split; [right; now left | reflexivity].
  - eexists. split; reflexivity.
Qed.

(** C9, amended: if, for some author entry, the first forename child or
    the first surname child of its first person-name child has no text,
    the author is not merely skipped: the name-joining step raises, the
    handler of the parse catches it, and the result for the whole
    document is None. *)
Theorem C9_nameless_author_fails (etree_parse : string -> result node)
  (tei_file : string) (tree author : node) :
  etree_parse tei_file = ok tree ->
  In author (xpath tree path_authors) ->
  nameless_part author ->
  parse_tei_try etree_parse tei_file = raise Py.TypeError_join /\
  fst (parse_tei etree_parse tei_file) = None.
Proof.
  intros Ht Hin Hpart.
  assert (Htry : parse_tei_try etree_parse tei_file = raise Py.TypeError_join).
  { unfold parse_tei_try. rewrite Ht. simpl.
    now rewrite (collect_authors_raises _ [] author Hin (nameless_part_all_str _ Hpart)). }
  split; [exact Htry|]. now rewrite (parse_tei_raises _ _ _ Htry).
Qed.

Lemma C9_nameless_author_fails_witness :
  parse_tei_try (Samples.reads Samples.doc_no_surname_text) "names.tei.xml"
  = raise Py.TypeError_join /\
  fst (parse_tei (Samples.reads Samples.doc_no_surname_text) "names.tei.xml") = None.
Proof.
  apply (C9_nameless_author_fails (Samples.reads Samples.doc_no_surname_text)
           "names.tei.xml" Samples.doc_no_surname_text Samples.no_surname_text).
  - reflexivity.
  - right. now left.
  - exists (Samples.elem "persName" [] None
              [Samples.elem "forename" [] (Some "Ann") [] None;
               Samples.elem "surname" [] None [] None] None).
    split; [reflexivity|]. right.
    exists (Samples.elem "surname" [] None [] None). split; reflexivity.
Defined.

(** ** The ids of the references *)

Lemma collect_references_from (bibliography : list node) :
  forall acc,
    collect_references acc bibliography
    = acc ++ references_from (List.length acc) bibliography.
Proof.
  induction bibliography as [|ref rest IH]; intros acc; simpl.
  - now rewrite app_nil_r.
  - rewrite IH, length_app, <- app_assoc. reflexivity.
Qed.

Lemma parse_tei_references (etree_parse : string -> result node) (tei_file : string)
  (tree : node) (m : DocumentModel) :
  etree_parse tei_file = ok tree ->
  fst (parse_tei etree_parse tei_file) = Some m ->
  references m = references_from 0 (xpath tree path_bibliography).
Proof.
  intros Ht H. destruct (parse_tei_Some _ _ _ H) as (tree' & Ht' & _ & _ & _ & _ & Hr).
  rewrite Ht in Ht'. injection Ht' as <-.
  rewrite Hr. apply (collect_references_from _ []).
Qed.

Lemma get_default_lacks (ref : node) (default : string) :
  lacks_id ref = true -> get_default ref xml_id default = default.
Proof.
  unfold lacks_id, get_default. now destruct (get ref xml_id).
Qed.

Lemma references_from_length (l : list node) :
  forall k, List.length (references_from k l) = List.length l.
Proof.
  induction l as [|r rest IH]; intros k; simpl; [reflexivity|].
  now rewrite IH.
Qed.

Lemma references_from_nth (l : list node) :
  forall k i ref,
    nth_error l i = Some ref ->
    nth_error (map ref_id (references_from k l)) i
    = Some (get_default ref xml_id (ref_k (k + i + 1))).
Proof.
  induction l as [|r rest IH]; intros k i ref Hn.
  - destruct i; discriminate.
  - destruct i as [|i]; simpl in *.
    + injection Hn as <-. now rewrite Nat.add_0_r.
    + rewrite (IH (k + 1) i ref Hn).
      now replace (k + 1 + i + 1) with (k + S i + 1) by lia.
Qed.

Lemma fallback_ids_cons (ref : node) (rest : list node) (k : nat) :
  fallback_ids (ref :: rest) (references_from k (ref :: rest))
  = (if lacks_id ref then [ref_k (k + 1)] else [])
    ++ fallback_ids rest (references_from (k + 1) rest).
Proof.
  unfold fallback_ids. simpl.
  destruct (lacks_id ref) eqn:E; simpl; [|reflexivity].
  now rewrite (get_default_lacks _ _ E).
Qed.

Lemma fallback_ids_above (l : list node) :
  forall k x, In x (fallback_ids l (references_from k l)) ->
              exists j, k < j /\ x = ref_k j.
Proof.
  induction l as [|ref rest IH]; intros k x Hin.
  - destruct Hin.
  - rewrite fallback_ids_cons in Hin. apply in_app_or in Hin.
    destruct Hin as [Hin|Hin].
    + destruct (lacks_id ref); [|destruct Hin].
      destruct Hin as [<-|[]]. exists (k + 1). split; [lia|reflexivity].
    + destruct (IH _ _ Hin) as (j & Hj & ->). exists j. split; [lia|reflexivity].
Qed.

Lemma fallback_ids_NoDup (l : list node) :
  forall k, NoDup (fallback_ids l (references_from k l)).
Proof.
  induction l as [|ref rest IH]; intros k.
  - constructor.
  - rewrite fallback_ids_cons. destruct (lacks_id ref); simpl; [|apply IH].
    constructor; [|apply IH].
    intros Hin. destruct (fallback_ids_above _ _ _ Hin) as (j & Hj & Heq).
    apply ref_k_inj in Heq. lia.
Qed.

Lemma fallback_ids_all (l : list node) :
  forall k, (forall ref, In ref l -> lacks_id ref = true) ->
            fallback_ids l (references_from k l) = map ref_k (seq (k + 1) (List.length l)).
Proof.
  induction l as [|ref rest IH]; intros k Hall.
  - reflexivity.
  - rewrite fallback_ids_cons, (Hall ref (or_introl eq_refl)). simpl.
    rewrite IH by (intros r Hr; apply Hall; now right).
    now replace (k + 1 + 1) with (S (k + 1)) by lia.
Qed.

(** The claim C2 fails: after an entry with an explicit id, the entries
    without one get "ref_2" and "ref_3", not "ref_1" and "ref_2". *)
Lemma C2_counterexample :
  exists m,
    fst (parse_tei (Samples.reads Samples.doc_mixed_ids) "mixed.tei.xml") = Some m /\
    fallback_ids (xpath Samples.doc_mixed_ids path_bibliography) (references m)
    = ["ref_2"; "ref_3"] /\
    fallback_ids (xpath Samples.doc_mixed_ids path_bibliography) (references m)
    <> map ref_k (seq 1 2).
Proof.
  eexists. split; [reflexivity|]. split; [reflexivity|].
  vm_compute. discriminate.
Qed.

(** C2, amended: the ids assigned to the bibliography entries that lack
    an explicit identifier are pairwise distinct, and the id of such an
    entry is "ref_" followed by its position, counted from 1, among all
    the bibliography entries of the document, those with an explicit id
    included; when no entry has an explicit id, they are exactly "ref_1",
    "ref_2", ... in encounter order. *)
Theorem C2_fallback_ids (etree_parse : string -> result node) (tei_file : string)
  (tree : node) (m : DocumentModel) :
  etree_parse tei_file = ok tree ->
  fst (parse_tei etree_parse tei_file) = Some m ->
  let bibliography := xpath tree path_bibliography in
  NoDup (fallback_ids bibliography (references m)) /\
  (forall i ref,
      nth_error bibliography i = Some ref -> lacks_id ref = true ->
      nth_error (map ref_id (references m)) i = Some (ref_k (i + 1))) /\
  ((forall ref, In ref bibliography -> lacks_id ref = true) ->
   map ref_id (references m) = map ref_k (seq 1 (List.length bibliography)) /\
   fallback_ids bibliography (references m) = map ref_k (seq 1 (List.length bibliography))).
Proof.
  intros Ht H bibliography.
  rewrite (parse_tei_references _ _ _ _ Ht H). fold bibliography.
  split; [apply fallback_ids_NoDup|]. split.
  - intros i ref Hn Hl.
    rewrite (references_from_nth _ 0 i ref Hn). now rewrite (get_default_lacks _ _ Hl).
  - intros Hall. split; [|now apply (fallback_ids_all _ 0)].
    apply nth_error_ext. intros i.
    destruct (nth_error bibliography i) as [ref|] eqn:En.
    + rewrite (references_from_nth _ 0 i ref En).
      rewrite (get_default_lacks _ _ (Hall ref (nth_error_In _ _ En))).
      assert (Hi : i < List.length bibliography)
        by (apply nth_error_Some; congruence).
      rewrite nth_error_map, nth_error_seq.
      apply Nat.ltb_lt in Hi. rewrite Hi. simpl. f_equal. f_equal. lia.
    + apply nth_error_None in En.
      transitivity (@None string); [|symmetry]; apply nth_error_None;
        rewrite length_map.
      * now rewrite references_from_length.
      * now rewrite length_seq.
Qed.

Lemma C2_fallback_ids_witness :
  let bibliography := xpath Samples.doc_mixed_ids path_bibliography in
  NoDup (fallback_ids bibliography (references Samples.model_mixed_ids)) /\
  (forall i ref,
      nth_error bibliography i = Some ref -> lacks_id ref = true ->
      nth_error (map ref_id (references Samples.model_mixed_ids)) i
      = Some (ref_k (i + 1))) /\
  ((forall ref, In ref bibliography -> lacks_id ref = true) ->
   map ref_id (references Samples.model_mixed_ids)
   = map ref_k (seq 1 (List.length bibliography)) /\
   fallback_ids bibliography (references Samples.model_mixed_ids)
   = map ref_k (seq 1 (List.length bibliography))).
Proof.
  apply (C2_fallback_ids (Samples.reads Samples.doc_mixed_ids) "mixed.tei.xml"
           Samples.doc_mixed_ids Samples.model_mixed_ids); reflexivity.
Defined.

Lemma ids_from_in (l : list node) :
  forall k x,
    In x (map ref_id (references_from k l)) ->
    In x (explicit_ids l) \/
    exists i ref, nth_error l i = Some ref /\ lacks_id ref = true /\
                  x = ref_k (k + i + 1).
Proof.
  induction l as [|r rest IH]; intros k x Hin.
  - destruct Hin.
  - simpl in Hin. destruct Hin as [Hx|Hin].
    + unfold explicit_ids, get_default in *. simpl.
      destruct (get r xml_id) as [v|] eqn:E.
      * left. left. exact Hx.
      * right. exists 0, r. split; [reflexivity|]. split.
        -- unfold lacks_id. now rewrite E.
        -- rewrite Nat.add_0_r. now symmetry.
    + destruct (IH _ _ Hin) as [He|(i & ref & Hn & Hl & ->)].
      * left. unfold explicit_ids in *. simpl. apply in_or_app. now right.
      * right. exists (S i), ref. split; [exact Hn|]. split; [exact Hl|].
        f_equal. lia.
Qed.

Lemma ids_from_NoDup (l : list node) :
  forall k,
    NoDup (explicit_ids l) ->
    (forall i ref, nth_error l i = Some ref -> lacks_id ref = true ->
                   ~ In (ref_k (k + i + 1)) (explicit_ids l)) ->
    NoDup (map ref_id (references_from k l)).
Proof.
  induction l as [|r rest IH]; intros k Hnd Hfresh.
  - constructor.
  - assert (Hrest : NoDup (map ref_id (references_from (k + 1) rest))).
    { apply IH.
      - unfold explicit_ids in *. simpl in Hnd. now apply NoDup_app_remove_l in Hnd.
      - intros i ref Hn Hl Hin. apply (Hfresh (S i) ref Hn Hl).
        replace (k + S i + 1) with (k + 1 + i + 1) by lia.
        unfold explicit_ids in *. simpl. apply in_or_app. now right. }
    simpl. constructor; [|exact Hrest].
    intros Hin. apply ids_from_in in Hin.
    unfold get_default in Hin. unfold explicit_ids in Hnd, Hfresh. simpl in Hnd, Hfresh.
    destruct (get r xml_id) as [v|] eqn:E.
    + simpl in Hnd, Hfresh. inversion Hnd as [|? ? Hnotin _]; subst.
      destruct Hin as [He|(i & ref & Hn & Hl & Hv)].
      * now apply Hnotin.
      * apply (Hfresh (S i) ref Hn Hl). left.
        rewrite Hv. f_equal. lia.
    + simpl in Hnd, Hfresh.
      destruct Hin as [He|(i & ref & Hn & Hl & Hv)].
      * apply (Hfresh 0 r eq_refl).
        -- unfold lacks_id. now rewrite E.
        -- now rewrite Nat.add_0_r.
      * apply ref_k_inj in Hv. lia.
Qed.

(** The claim C3 fails: an explicit id "ref_2" on the first entry and no
    id on the second give the id "ref_2" twice. *)
Lemma C3_counterexample :
  exists m,
    fst (parse_tei (Samples.reads Samples.doc_clash) "clash.tei.xml") = Some m /\
    explicit_ids (xpath Samples.doc_clash path_bibliography) = ["ref_2"] /\
    map ref_id (references m) = ["ref_2"; "ref_2"] /\
    ~ NoDup (map ref_id (references m)).
Proof.
  eexists. split; [reflexivity|]. split; [reflexivity|]. split; [reflexivity|].
  intros H. inversion H as [|? ? Hnotin _]; subst. apply Hnotin. now left.
Qed.

(** C3, amended: the ids of the references of a document model are
    pairwise distinct whenever the explicit ids of the source are pairwise
    distinct and none of them is the fallback id "ref_k" of an entry at
    position k (counted from 1) that lacks an explicit id; explicit and
    fallback ids may occur together. *)
Theorem C3_reference_ids_distinct (etree_parse : string -> result node)
  (tei_file : string) (tree : node) (m : DocumentModel) :
  etree_parse tei_file = ok tree ->
  fst (parse_tei etree_parse tei_file) = Some m ->
  NoDup (explicit_ids (xpath tree path_bibliography)) ->
  (forall i ref,
      nth_error (xpath tree path_bibliography) i = Some ref -> lacks_id ref = true ->
      ~ In (ref_k (i + 1)) (explicit_ids (xpath tree path_bibliography))) ->
  NoDup (map ref_id (references m)).
Proof.
  intros Ht H Hnd Hfresh.
  rewrite (parse_tei_references _ _ _ _ Ht H).
  apply ids_from_NoDup; assumption.
Qed.

Lemma C3_reference_ids_distinct_witness :
  NoDup (map ref_id (references Samples.model_mixed_ids)).
Proof.
  apply (C3_reference_ids_distinct (Samples.reads Samples.doc_mixed_ids)
           "mixed.tei.xml" Samples.doc_mixed_ids Samples.model_mixed_ids).
  - reflexivity.
  - reflexivity.
  - vm_compute. constructor; [intros [] | constructor].
  - intros i ref Hn _ Hin.
    destruct i as [|[|[|i]]].
    + vm_compute in Hin. destruct Hin as [Hin|[]]. discriminate.
    + vm_compute in Hin. destruct Hin as [Hin|[]]. discriminate.
    + vm_compute in Hin. destruct Hin as [Hin|[]]. discriminate.
    + simpl in Hn. destruct i; discriminate.
Defined.

(** ** The renderer: what a run adds to the document *)

Section Keeps.
Variable raises : odf_call -> option exn.
Variable I : odt -> Prop.

Lemma keeps_ret {A : Type} (Q : A -> Prop) (a : A) : Q a -> keeps I (ret a) Q.
Proof.
  intros Ha d Hd. simpl. split; [exact Hd|]. intros b Hb. now injection Hb as <-.
Qed.

Lemma keeps_bind {A B : Type} (m : M A) (k : A -> M B) (Q1 : A -> Prop) (Q2 : B -> Prop) :
  keeps I m Q1 -> (forall a, Q1 a -> keeps I (k a) Q2) -> keeps I (bind m k) Q2.
Proof.
  intros Hm Hk d Hd. unfold bind.
  destruct (Hm d Hd) as [Hf Hv].
  destruct (value (m d)) as [e|a] eqn:E; simpl.
  - split; [exact Hf|discriminate].
  - apply (Hk a (Hv a eq_refl) _ Hf).
Qed.

Lemma keeps_weaken {A : Type} (c : M A) (Q Q' : A -> Prop) :
  keeps I c Q -> (forall a, Q a -> Q' a) -> keeps I c Q'.
Proof.
  intros Hc Hq d Hd. destruct (Hc d Hd) as [Hf Hv]. split; [exact Hf|].
  intros a Ha. apply Hq, Hv, Ha.
Qed.

Lemma keeps_log (s : string) : keeps I (log s) (fun _ => True).
Proof. intros d Hd. simpl. now split. Qed.

Lemma keeps_call {A : Type} (c : odf_call) (r : A) :
  keeps I (call raises c r) (fun a => a = r).
Proof.
  intros d Hd. unfold call. destruct (raises c); simpl.
  - split; [exact Hd|discriminate].
  - split; [exact Hd|]. intros a Ha. now injection Ha as <-.
Qed.

Lemma keeps_try (c : M unit) (h : exn -> M unit) (Q Q' : unit -> Prop) :
  keeps I c Q -> (forall e, keeps I (h e) Q') -> keeps I (try_ c h) (fun _ => True).
Proof.
  intros Hc Hh d Hd. unfold try_. destruct (Hc d Hd) as [Hf _].
  destruct (value (c d)) as [e|[]]; simpl.
  - split; [|trivial]. apply (Hh e _ Hf).
  - split; [exact Hf|trivial].
Qed.

Lemma keeps_for {A : Type} (l : list A) (f : A -> M unit) :
  (forall x, In x l -> keeps I (f x) (fun _ => True)) ->
  keeps I (for_ l f) (fun _ => True).
Proof.
  induction l as [|x rest IH]; intros Hf; simpl.
  - now apply keeps_ret.
  - eapply keeps_bind.
    + apply Hf. now left.
    + intros _ _. apply IH. intros y Hy. apply Hf. now right.
Qed.

Lemma keeps_fold {A B : Type} (l : list A) (f : B -> A -> M B) (Q : B -> Prop) :
  (forall b x, Q b -> keeps I (f b x) Q) ->
  forall b, Q b -> keeps I (fold_ l f b) Q.
Proof.
  intros Hf. induction l as [|x rest IH]; intros b Hb; simpl.
  - now apply keeps_ret.
  - eapply keeps_bind; [now apply Hf|]. intros b' Hb'. now apply IH.
Qed.

End Keeps.

Section Emitted.
Variable raises : odf_call -> option exn.
Variable R : odf -> Prop.

Lemma keeps_text_addElement (child : odf) :
  R child -> keeps (text_all R) (text_addElement raises child) (fun _ => True).
Proof.
  intros Hc d Hd. unfold text_addElement.
  destruct (raises (TextAddElement d child)); simpl.
  - now split.
  - split; [|trivial]. unfold text_all. simpl. apply Forall_app. split; [exact Hd|].
    now constructor.
Qed.

Lemma keeps_styles_addElement (child : odf) :
  keeps (text_all R) (styles_addElement raises child) (fun _ => True).
Proof.
  intros d Hd. unfold styles_addElement.
  destruct (raises (StylesAddElement d child)); simpl; now split.
Qed.

Lemma keeps_OpenDocumentText :
  keeps (text_all R) (OpenDocumentText raises) (fun _ => True).
Proof.
  intros d Hd. unfold OpenDocumentText.
  destruct (raises NewDocument); simpl; split; trivial. constructor.
Qed.

Lemma keeps_save (output_file : string) :
  keeps (text_all R) (save raises output_file) (fun _ => True).
Proof.
  intros d Hd. unfold save.
  destruct (raises (DocSave d output_file)); simpl; now split.
Qed.

Lemma keeps_construct (I : odt -> Prop) (kind : string) (args : list (string * odf_arg)) :
  keeps I (construct raises kind args) (built kind args).
Proof.
  eapply keeps_weaken; [apply keeps_call|]. intros a ->. now exists [].
Qed.

Lemma keeps_construct_eq (I : odt -> Prop) (kind : string) (args : list (string * odf_arg)) :
  keeps I (construct raises kind args) (fun e => e = OdfElem kind args []).
Proof. apply keeps_call. Qed.

Lemma keeps_addElement (I : odt -> Prop) (kind : string) (args : list (string * odf_arg))
  (parent child : odf) :
  built kind args parent ->
  keeps I (addElement raises parent child) (built kind args).
Proof.
  intros [cs ->]. eapply keeps_weaken; [apply keeps_call|].
  intros a ->. now exists (cs ++ [child]).
Qed.

Lemma keeps_addText (I : odt -> Prop) (kind : string) (args : list (string * odf_arg))
  (parent : odf) (s : string) :
  built kind args parent ->
  keeps I (addText raises parent s) (built kind args).
Proof.
  intros [cs ->]. eapply keeps_weaken; [apply keeps_call|].
  intros a ->. now exists (cs ++ [OdfText s]).
Qed.

(** [doc.text.addElement(P(...))] *)
Lemma keeps_add_P (args : list (string * odf_arg)) :
  R (OdfElem "P" args []) ->
  keeps (text_all R) (p <- P raises args ;; text_addElement raises p)%odt (fun _ => True).
Proof.
  intros Hr. eapply keeps_bind; [apply keeps_construct_eq|].
  intros a ->. now apply keeps_text_addElement.
Qed.

Lemma keeps_blank_line :
  R blank_paragraph -> keeps (text_all R) (blank_line raises) (fun _ => True).
Proof. apply keeps_add_P. Qed.

Lemma keeps_define_style (name : string) (properties : list (string * odf_arg)) :
  keeps (text_all R) (define_style raises name properties) (fun _ => True).
Proof.
  unfold define_style.
  eapply keeps_bind; [apply keeps_construct|]. intros style Hs.
  eapply keeps_bind; [apply keeps_construct|]. intros props _.
  eapply keeps_bind; [apply (keeps_addElement _ _ _ _ _ Hs)|]. intros style' _.
  apply keeps_styles_addElement.
Qed.

Lemma keeps_define_styles : keeps (text_all R) (define_styles raises) (fun _ => True).
Proof.
  unfold define_styles.
  repeat (eapply keeps_bind; [apply keeps_define_style|]; intros _ _).
  apply keeps_define_style.
Qed.

Lemma keeps_add_cell (I : odt -> Prop) (odt_row : odf) (cell_data : string) :
  built "TableRow" [] odt_row ->
  keeps I (add_cell raises odt_row cell_data) (built "TableRow" []).
Proof.
  intros Hrow. unfold add_cell.
  eapply keeps_bind; [apply keeps_construct|]. intros cell Hc.
  eapply keeps_bind; [apply keeps_construct|]. intros p _.
  eapply keeps_bind; [apply (keeps_addElement _ _ _ _ _ Hc)|]. intros cell' _.
  now apply keeps_addElement.
Qed.

Lemma keeps_add_row (I : odt -> Prop) (odt_table : odf) (row_data : list string) :
  built "Table" [] odt_table ->
  keeps I (add_row raises odt_table row_data) (built "Table" []).
Proof.
  intros Ht. unfold add_row.
  eapply keeps_bind; [apply keeps_construct|]. intros row Hrow.
  eapply keeps_bind.
  { apply keeps_fold; [|exact Hrow]. intros b x Hb. now apply keeps_add_cell. }
  intros row' _. now apply keeps_addElement.
Qed.

Lemma keeps_add_content_piece (I : odt -> Prop) (paragraph : odf) (piece : InlineSpan) :
  built "P" [("stylename", paragraph_style)] paragraph ->
  keeps I (add_content_piece raises paragraph piece)
        (built "P" [("stylename", paragraph_style)]).
Proof.
  intros Hp. destruct piece as [s|ref_text target]; simpl.
  - now apply keeps_addText.
  - eapply keeps_bind; [apply keeps_construct|]. intros link _.
    now apply keeps_addElement.
Qed.

Section Document.
Variable parsed_data : DocumentModel.
Hypothesis R_blank : R blank_paragraph.
Hypothesis R_body_paragraph :
  forall e, built "P" [("stylename", paragraph_style)] e -> R e.
Hypothesis R_table : forall e, built "Table" [] e -> R e.

Lemma keeps_add_body_element (element : Block) :
  (forall h, element = Heading h ->
             R (OdfElem "P" [("stylename", heading_style); ("text", AStr h)] [])) ->
  keeps (text_all R) (add_body_element raises element) (fun _ => True).
Proof.
  intros Hh. destruct element as [h|content|table_data]; unfold add_body_element.
  - eapply keeps_bind; [apply keeps_log|]. intros _ _.
    eapply keeps_bind; [apply keeps_construct_eq|]. intros p ->.
    eapply keeps_bind; [apply keeps_text_addElement; now apply Hh|]. intros _ _.
    now apply keeps_blank_line.
  - eapply keeps_bind; [apply keeps_construct|]. intros p Hp.
    eapply keeps_bind.
    { apply keeps_fold; [|exact Hp]. intros b x Hb. now apply keeps_add_content_piece. }
    intros p' Hp'.
    eapply keeps_bind; [apply keeps_text_addElement; now apply R_body_paragraph|].
    intros _ _. now apply keeps_blank_line.
  - eapply keeps_bind; [apply keeps_log|]. intros _ _.
    destruct table_data as [[|row rows]|]; try now apply keeps_ret.
    eapply keeps_bind; [apply keeps_construct|]. intros tb Htb.
    eapply keeps_bind.
    { apply keeps_fold; [|exact Htb]. intros b x Hb. now apply keeps_add_row. }
    intros tb' Htb'.
    eapply keeps_bind; [apply keeps_text_addElement; now apply R_table|].
    intros _ _. now apply keeps_blank_line.
Qed.

Lemma keeps_add_reference (ref : Reference) :
  keeps (text_all R) (add_reference raises ref) (fun _ => True).
Proof.
  unfold add_reference. eapply keeps_try with (Q' := fun _ => True);
    [|intros e; apply keeps_log].
  eapply keeps_bind; [|intros _ _; now apply keeps_blank_line].
  unfold add_reference_paragraph.
  eapply keeps_bind; [apply keeps_log|]. intros _ _.
  eapply keeps_bind; [apply keeps_construct|]. intros p Hp.
  eapply keeps_bind; [apply keeps_construct|]. intros b _.
  eapply keeps_bind; [apply (keeps_addElement _ _ _ _ _ Hp)|]. intros p1 Hp1.
  eapply keeps_bind; [apply (keeps_addText _ _ _ _ _ Hp1)|]. intros p2 Hp2.
  eapply keeps_bind; [apply keeps_construct|]. intros b' _.
  eapply keeps_bind; [apply (keeps_addElement _ _ _ _ _ Hp2)|]. intros p3 Hp3.
  apply keeps_text_addElement. now apply R_body_paragraph.
Qed.

Lemma keeps_seq (I : odt -> Prop) (m k : M unit) :
  keeps I m (fun _ => True) -> keeps I k (fun _ => True) ->
  keeps I (m ;; k)%odt (fun _ => True).
Proof.
  intros Hm Hk. eapply keeps_bind; [exact Hm|]. intros _ _. exact Hk.
Qed.

Lemma keeps_add_title :
  R (OdfElem "P" [("stylename", title_style); ("text", opt_arg (title parsed_data))] []) ->
  keeps (text_all R) (add_title raises parsed_data) (fun _ => True).
Proof.
  intros Hr. unfold add_title. apply keeps_seq; [apply keeps_log|].
  now apply keeps_add_P.
Qed.

Lemma keeps_add_authors :
  R (OdfElem "P" [("stylename", author_style);
                  ("text", AStr (Py.join ", " (authors parsed_data)))] []) ->
  keeps (text_all R) (add_authors raises parsed_data) (fun _ => True).
Proof.
  intros Hr. unfold add_authors. destruct (authors parsed_data) as [|a l].
  - now apply keeps_ret.
  - apply keeps_seq; [apply keeps_log|]. now apply keeps_add_P.
Qed.

Lemma keeps_add_abstract :
  (Py.truthy (Some (abstract parsed_data)) = true ->
   R abstract_heading /\
   R (OdfElem "P" [("stylename", abstract_style);
                   ("text", AStr (abstract parsed_data))] [])) ->
  keeps (text_all R) (add_abstract raises parsed_data) (fun _ => True).
Proof.
  intros Hr. unfold add_abstract.
  destruct (Py.truthy (Some (abstract parsed_data))); [|now apply keeps_ret].
  destruct (Hr eq_refl) as [Hh Hp].
  apply keeps_seq; [apply keeps_log|].
  eapply keeps_bind; [apply keeps_construct_eq|]. intros h ->.
  apply keeps_seq; [now apply keeps_text_addElement|].
  now apply keeps_add_P.
Qed.

Lemma keeps_add_body :
  (forall h, In (Heading h) (body_elements parsed_data) ->
             R (OdfElem "P" [("stylename", heading_style); ("text", AStr h)] [])) ->
  keeps (text_all R) (add_body raises parsed_data) (fun _ => True).
Proof.
  intros Hr. unfold add_body. apply keeps_for. intros x Hx.
  apply keeps_add_body_element. intros h ->. now apply Hr.
Qed.

Lemma keeps_add_references :
  R (OdfElem "P" [("stylename", heading_style); ("text", AStr "References")] []) ->
  keeps (text_all R) (add_references raises parsed_data) (fun _ => True).
Proof.
  intros Hr. unfold add_references. destruct (references parsed_data) as [|r l].
  - now apply keeps_ret.
  - apply keeps_seq; [apply keeps_log|].
    apply keeps_seq; [now apply keeps_blank_line|].
    eapply keeps_bind; [apply keeps_construct_eq|]. intros h ->.
    apply keeps_seq; [now apply keeps_text_addElement|].
    apply keeps_seq; [now apply keeps_blank_line|].
    unfold add_reference_list. apply keeps_for. intros x _. apply keeps_add_reference.
Qed.

Lemma keeps_create_odt_try (output_file : string) :
  R (OdfElem "P" [("stylename", title_style); ("text", opt_arg (title parsed_data))] []) ->
  R (OdfElem "P" [("stylename", author_style);
                  ("text", AStr (Py.join ", " (authors parsed_data)))] []) ->
  (Py.truthy (Some (abstract parsed_data)) = true ->
   R abstract_heading /\
   R (OdfElem "P" [("stylename", abstract_style);
                   ("text", AStr (abstract parsed_data))] [])) ->
  (forall h, In (Heading h) (body_elements parsed_data) ->
             R (OdfElem "P" [("stylename", heading_style); ("text", AStr h)] [])) ->
  R (OdfElem "P" [("stylename", heading_style); ("text", AStr "References")] []) ->
  keeps (text_all R) (create_odt_try raises parsed_data output_file) (fun _ => True).
Proof.
  intros Ht Ha Hab Hh Hr. unfold create_odt_try.
  apply keeps_seq; [apply keeps_OpenDocumentText|].
  apply keeps_seq; [apply keeps_define_styles|].
  apply keeps_seq; [now apply keeps_add_title|].
  apply keeps_seq; [now apply keeps_add_authors|].
  apply keeps_seq; [now apply keeps_add_abstract|].
  apply keeps_seq; [now apply keeps_add_body|].
  apply keeps_seq; [now apply keeps_add_references|].
  unfold save_odt.
  apply keeps_seq; [apply keeps_log|].
  apply keeps_seq; [apply keeps_save|].
  apply keeps_log.
Qed.

End Document.
End Emitted.

Section References.
Variable raises : odf_call -> option exn.

Lemma ends_bind {A B : Type} (m : M A) (k : A -> M B) (d : odt)
  (Q1 : A -> odt -> Prop) (Q2 : B -> odt -> Prop) (Qerr : odt -> Prop) :
  ends m d Q1 Qerr ->
  (forall a d', Q1 a d' -> ends (k a) d' Q2 Qerr) ->
  ends (bind m k) d Q2 Qerr.
Proof.
  unfold ends, bind. intros Hm Hk.
  destruct (value (m d)) as [e|a]; simpl.
  - exact Hm.
  - apply (Hk a _ Hm).
Qed.

Lemma ends_log (s : string) (d : odt) (Qerr : odt -> Prop) :
  ends (log s) d (fun _ d' => d' = d) Qerr.
Proof. reflexivity. Qed.

Lemma ends_call {A : Type} (c : odf_call) (r : A) (d : odt) :
  ends (call raises c r) d (fun a d' => a = r /\ d' = d) (fun d' => d' = d).
Proof.
  unfold ends, call. destruct (raises c); simpl; [reflexivity|now split].
Qed.

Lemma ends_text_addElement (child : odf) (d : odt) :
  ends (text_addElement raises child) d
       (fun _ d' => d' = mkOdt (doc_styles d) (doc_text d ++ [child]))
       (fun d' => d' = d).
Proof.
  unfold ends, text_addElement.
  destruct (raises (TextAddElement d child)); reflexivity.
Qed.

Lemma add_reference_paragraph_ends (ref : Reference) (d : odt) :
  ends (add_reference_paragraph raises ref) d
       (fun _ d' => d' = mkOdt (doc_styles d) (doc_text d ++ [reference_paragraph ref]))
       (fun d' => d' = d).
Proof.
  unfold add_reference_paragraph, P, construct, addElement, addText.
  eapply ends_bind; [apply ends_log|]. intros _ d0 ->.
  eapply ends_bind; [apply ends_call|]. intros p d0 [-> ->].
  eapply ends_bind; [apply ends_call|]. intros b d0 [-> ->].
  eapply ends_bind; [apply ends_call|]. intros p d0 [-> ->].
  eapply ends_bind; [apply ends_call|]. intros p d0 [-> ->].
  eapply ends_bind; [apply ends_call|]. intros b d0 [-> ->].
  eapply ends_bind; [apply ends_call|]. intros p d0 [-> ->].
  apply ends_text_addElement.
Qed.

Lemma blank_line_ends (d : odt) :
  ends (blank_line raises) d
       (fun _ d' => d' = mkOdt (doc_styles d) (doc_text d ++ [blank_paragraph]))
       (fun d' => d' = d).
Proof.
  unfold blank_line, P, construct.
  eapply ends_bind; [apply ends_call|]. intros p d0 [-> ->].
  apply ends_text_addElement.
Qed.

Lemma add_reference_paragraph_outcome (ref : Reference) (d : odt) :
  (value (add_reference_paragraph raises ref d) = ok tt /\
   final (add_reference_paragraph raises ref d)
   = mkOdt (doc_styles d) (doc_text d ++ [reference_paragraph ref]))
  \/ (exists e, value (add_reference_paragraph raises ref d) = raise e /\
                final (add_reference_paragraph raises ref d) = d).
Proof.
  pose proof (add_reference_paragraph_ends ref d) as H. unfold ends in H.
  destruct (value (add_reference_paragraph raises ref d)) as [e|[]].
  - right. exists e. now split.
  - left. now split.
Qed.

Lemma blank_line_outcome (d : odt) :
  (value (blank_line raises d) = ok tt /\
   final (blank_line raises d) = mkOdt (doc_styles d) (doc_text d ++ [blank_paragraph]))
  \/ (exists e, value (blank_line raises d) = raise e /\ final (blank_line raises d) = d).
Proof.
  pose proof (blank_line_ends d) as H. unfold ends in H.
  destruct (value (blank_line raises d)) as [e|[]].
  - right. exists e. now split.
  - left. now split.
Qed.

Lemma bind_raise {A B : Type} (m : M A) (k : A -> M B) (d : odt) (e : exn) :
  value (m d) = raise e ->
  bind m k d = mkOutcome (raise e) (final (m d)) (trace (m d)).
Proof.
  intros H. unfold bind. cbv zeta. now rewrite H.
Qed.

Lemma bind_ok {A B : Type} (m : M A) (k : A -> M B) (d : odt) (a : A) :
  value (m d) = ok a ->
  bind m k d = mkOutcome (value (k a (final (m d)))) (final (k a (final (m d))))
                         (trace (m d) ++ trace (k a (final (m d)))).
Proof.
  intros H. unfold bind. cbv zeta. now rewrite H.
Qed.

Lemma try_raise (c : M unit) (h : exn -> M unit) (d : odt) (e : exn) :
  value (c d) = raise e ->
  try_ c h d = mkOutcome (value (h e (final (c d)))) (final (h e (final (c d))))
                         (trace (c d) ++ trace (h e (final (c d)))).
Proof.
  intros H. unfold try_. cbv zeta. now rewrite H.
Qed.

Lemma try_ok (c : M unit) (h : exn -> M unit) (d : odt) :
  value (c d) = ok tt -> try_ c h d = c d.
Proof.
  intros H. unfold try_. cbv zeta. now rewrite H.
Qed.

(** The [try] block of one reference ends in one of three ways. *)
Lemma reference_block_outcome (ref : Reference) (d : odt) :
  let block := (add_reference_paragraph raises ref ;; blank_line raises)%odt in
  (value (block d) = ok tt /\
   final (block d)
   = mkOdt (doc_styles d) (doc_text d ++ [reference_paragraph ref; blank_paragraph]))
  \/ (exists e, value (block d) = raise e /\
                value (add_reference_paragraph raises ref d) = ok tt /\
                final (block d)
                = mkOdt (doc_styles d) (doc_text d ++ [reference_paragraph ref]))
  \/ (exists e, value (block d) = raise e /\
                value (add_reference_paragraph raises ref d) = raise e /\
                final (block d) = d /\
                trace (block d) = trace (add_reference_paragraph raises ref d)).
Proof.
  intros block. unfold block.
  destruct (add_reference_paragraph_outcome ref d) as [[Hv Hf]|(e & Hv & Hf)].
  - rewrite (bind_ok _ _ _ _ Hv). cbn [value final trace]. rewrite Hf.
    destruct (blank_line_outcome
                (mkOdt (doc_styles d) (doc_text d ++ [reference_paragraph ref])))
      as [[Hv' Hf']|(e & Hv' & Hf')]; rewrite Hv', Hf'.
    + left. split; [reflexivity|]. cbn [doc_styles doc_text].
      now rewrite <- app_assoc.
    + right. left. exists e. split; [reflexivity|]. split; [exact Hv|reflexivity].
  - right. right. exists e. rewrite (bind_raise _ _ _ _ Hv). cbn [value final trace].
    repeat split; assumption.
Qed.

Lemma add_reference_returns (ref : Reference) (d : odt) :
  value (add_reference raises ref d) = ok tt.
Proof.
  unfold add_reference.
  destruct (value ((add_reference_paragraph raises ref;; blank_line raises)%odt d))
    as [e|[]] eqn:E.
  - now rewrite (try_raise _ _ _ _ E).
  - now rewrite (try_ok _ _ _ E).
Qed.

Lemma add_reference_list_cons (ref : Reference) (rest : list Reference) (d : odt) :
  add_reference_list raises (ref :: rest) d
  = mkOutcome (value (add_reference_list raises rest (final (add_reference raises ref d))))
              (final (add_reference_list raises rest (final (add_reference raises ref d))))
              (trace (add_reference raises ref d)
               ++ trace (add_reference_list raises rest (final (add_reference raises ref d)))).
Proof.
  change (add_reference_list raises (ref :: rest))
    with (add_reference raises ref ;; add_reference_list raises rest)%odt.
  exact (bind_ok (add_reference raises ref) (fun _ => add_reference_list raises rest)
                 d tt (add_reference_returns ref d)).
Qed.

Lemma add_reference_list_returns (refs : list Reference) :
  forall d, value (add_reference_list raises refs d) = ok tt.
Proof.
  induction refs as [|ref rest IH]; intros d.
  - reflexivity.
  - rewrite add_reference_list_cons. apply IH.
Qed.

Lemma add_reference_list_app (l1 l2 : list Reference) :
  forall d,
    final (add_reference_list raises (l1 ++ l2) d)
    = final (add_reference_list raises l2 (final (add_reference_list raises l1 d))) /\
    trace (add_reference_list raises (l1 ++ l2) d)
    = trace (add_reference_list raises l1 d)
      ++ trace (add_reference_list raises l2 (final (add_reference_list raises l1 d))).
Proof.
  induction l1 as [|ref rest IH]; intros d.
  - split; reflexivity.
  - rewrite <- app_comm_cons, !add_reference_list_cons. cbn [value final trace].
    destruct (IH (final (add_reference raises ref d))) as [Hf Ht].
    split; [exact Hf|]. now rewrite Ht, app_assoc.
Qed.

(** A reference whose paragraph fails leaves the document as it was. *)
Lemma add_reference_fails (ref : Reference) (d : odt) (e : exn) :
  value (add_reference_paragraph raises ref d) = raise e ->
  final (add_reference raises ref d) = d /\
  trace (add_reference raises ref d)
  = trace (add_reference_paragraph raises ref d)
    ++ [Print ("Error adding reference: " ++ exn_msg e)].
Proof.
  intros He. unfold add_reference.
  destruct (reference_block_outcome ref d)
    as [[Hv _]|[(e' & _ & Hv & _)|(e' & Hv & Hv' & Hf & Ht)]].
  - rewrite (bind_raise _ _ _ _ He) in Hv. discriminate.
  - rewrite Hv in He. discriminate.
  - rewrite He in Hv'. injection Hv' as <-.
    rewrite (try_raise _ _ _ _ Hv). cbn [value final trace log].
    rewrite Hf, Ht. now split.
Qed.

(** A reference for which nothing raises adds its paragraph and a blank line. *)
Lemma add_reference_succeeds (ref : Reference) (d : odt) :
  value ((add_reference_paragraph raises ref ;; blank_line raises)%odt d) = ok tt ->
  doc_text (final (add_reference raises ref d))
  = doc_text d ++ [reference_paragraph ref; blank_paragraph].
Proof.
  intros Hv. unfold add_reference. rewrite (try_ok _ _ _ Hv).
  destruct (reference_block_outcome ref d)
    as [[_ Hf]|[(e & Hv' & _)|(e & Hv' & _)]].
  - now rewrite Hf.
  - rewrite Hv in Hv'. discriminate.
  - rewrite Hv in Hv'. discriminate.
Qed.

Lemma add_reference_grows (ref : Reference) (d : odt) :
  exists more, doc_text (final (add_reference raises ref d)) = doc_text d ++ more.
Proof.
  unfold add_reference.
  destruct (reference_block_outcome ref d)
    as [[Hv Hf]|[(e & Hv & _ & Hf)|(e & Hv & _ & Hf & _)]].
  - rewrite (try_ok _ _ _ Hv), Hf. now eexists.
  - rewrite (try_raise _ _ _ _ Hv). cbn [value final trace log]. rewrite Hf. now eexists.
  - rewrite (try_raise _ _ _ _ Hv). cbn [value final trace log]. rewrite Hf.
    exists []. now rewrite app_nil_r.
Qed.

Lemma add_reference_list_grows (refs : list Reference) :
  forall d, exists more,
    doc_text (final (add_reference_list raises refs d)) = doc_text d ++ more.
Proof.
  induction refs as [|ref rest IH]; intros d.
  - exists []. cbn. now rewrite app_nil_r.
  - rewrite add_reference_list_cons. cbn [value final trace].
    destruct (add_reference_grows ref d) as [m1 H1].
    destruct (IH (final (add_reference raises ref d))) as [m2 H2].
    exists (m1 ++ m2). now rewrite H2, H1, app_assoc.
Qed.

Lemma add_reference_list_adds (later : Reference) (refs : list Reference) :
  In later refs ->
  (forall d, value ((add_reference_paragraph raises later ;; blank_line raises)%odt d)
             = ok tt) ->
  forall d, In (reference_paragraph later)
               (doc_text (final (add_reference_list raises refs d))).
Proof.
  intros Hin Hok. induction refs as [|ref rest IH]; intros d; [destruct Hin|].
  rewrite add_reference_list_cons. cbn [value final trace].
  destruct Hin as [->|Hin].
  - destruct (add_reference_list_grows rest (final (add_reference raises later d)))
      as [more Hmore].
    rewrite Hmore, (add_reference_succeeds later d (Hok d)).
    apply in_or_app. left. apply in_or_app. right. now left.
  - now apply IH.
Qed.

End References.

(** ** The renderer: abstract and references *)

(** C8: when the abstract element is empty (its flattened text is empty
    or whitespace only) or there is no abstract element, the abstract of
    the document model is the empty string; rendering a model with an
    empty abstract, the abstract step adds and logs nothing, and an
    "Abstract" heading paragraph is in the document only if the body
    itself has a heading with that text. *)
Theorem C8_empty_abstract (etree_parse : string -> result node)
  (raises : odf_call -> option exn) (tei_file output_file : string)
  (tree : node) (m : DocumentModel) :
  etree_parse tei_file = ok tree ->
  fst (parse_tei etree_parse tei_file) = Some m ->
  (forall abstract_elem rest,
      select_children (tei "profileDesc") (mkStep Child (tei "abstract") None) tree
      = abstract_elem :: rest ->
      blank (Py.join EmptyString (itertext abstract_elem)) = true) ->
  abstract m = EmptyString /\
  (forall d, add_abstract raises m d = mkOutcome (ok tt) d []) /\
  (In abstract_heading
      (doc_text (final (create_odt_try raises m output_file (mkOdt [] [])))) ->
   In (Heading "Abstract") (body_elements m)).
Proof.
  intros Ht H Hblank.
  assert (Habs : abstract m = EmptyString).
  { destruct (parse_tei_Some _ _ _ H) as (tree' & Ht' & _ & _ & Ha & _).
    rewrite Ht in Ht'. injection Ht' as <-.
    rewrite Ha. unfold abstract_of, path_abstract.
    rewrite xpath_parent_child by reflexivity.
    destruct (select_children (tei "profileDesc") (mkStep Child (tei "abstract") None) tree)
      as [|abstract_elem rest] eqn:E; [reflexivity|].
    apply strip_blank. now apply (Hblank abstract_elem rest). }
  split; [exact Habs|]. split.
  - intros d. unfold add_abstract. now rewrite Habs.
  - pose (R := fun e => e = abstract_heading -> In (Heading "Abstract") (body_elements m)).
    assert (Hk : keeps (text_all R) (create_odt_try raises m output_file) (fun _ => True)).
    { apply keeps_create_odt_try; unfold R, abstract_heading.
      - discriminate.
      - intros e [cs ->]. discriminate.
      - intros e [cs ->]. discriminate.
      - discriminate.
      - discriminate.
      - rewrite Habs. discriminate.
      - intros h Hin Heq. injection Heq as ->. exact Hin.
      - discriminate. }
    destruct (Hk (mkOdt [] [])) as [Hall _]; [constructor|].
    unfold text_all in Hall. rewrite Forall_forall in Hall.
    intros Hin. now apply (Hall _ Hin).
Qed.

Lemma C8_empty_abstract_witness :
  abstract Samples.model_smith = EmptyString /\
  (forall d, add_abstract Samples.never_raises Samples.model_smith d
             = mkOutcome (ok tt) d []) /\
  (In abstract_heading
      (doc_text (final (create_odt_try Samples.never_raises Samples.model_smith
                          "smith.odt" (mkOdt [] [])))) ->
   In (Heading "Abstract") (body_elements Samples.model_smith)).
Proof.
  apply (C8_empty_abstract (Samples.reads Samples.doc_smith) Samples.never_raises
           "smith.tei.xml" "smith.odt" Samples.doc_smith Samples.model_smith).
  - reflexivity.
  - reflexivity.
  - intros abstract_elem rest E. vm_compute in E. injection E as <- _. reflexivity.
Defined.

(** C6: when adding the paragraph of one reference raises, the exception
    is caught and logged, the loop over the references returns normally,
    the document ends up as if that reference had not been in the list,
    and every later reference for which nothing raises has its paragraph
    in the document. *)
Theorem C6_failed_reference_skipped (raises : odf_call -> option exn)
  (before after : list Reference) (ref : Reference) (d : odt) (e : exn) :
  value (add_reference_paragraph raises ref (final (add_reference_list raises before d)))
  = raise e ->
  value (add_reference_list raises (before ++ ref :: after) d) = ok tt /\
  final (add_reference_list raises (before ++ ref :: after) d)
  = final (add_reference_list raises (before ++ after) d) /\
  In (Print ("Error adding reference: " ++ exn_msg e))
     (trace (add_reference_list raises (before ++ ref :: after) d)) /\
  (forall later,
      In later after ->
      (forall d', value ((add_reference_paragraph raises later ;; blank_line raises)%odt d')
                  = ok tt) ->
      In (reference_paragraph later)
         (doc_text (final (add_reference_list raises (before ++ ref :: after) d)))).
Proof.
  intros He.
  set (d1 := final (add_reference_list raises before d)) in *.
  destruct (add_reference_fails raises ref d1 e He) as [Hf Ht].
  assert (Hfinal : final (add_reference_list raises (before ++ ref :: after) d)
                   = final (add_reference_list raises after d1)).
  { destruct (add_reference_list_app raises before (ref :: after) d) as [-> _].
    fold d1. rewrite add_reference_list_cons. cbn [value final trace].
    now rewrite Hf. }
  split; [apply add_reference_list_returns|]. split; [|split].
  - rewrite Hfinal.
    destruct (add_reference_list_app raises before after d) as [-> _]. reflexivity.
  - destruct (add_reference_list_app raises before (ref :: after) d) as [_ ->].
    fold d1. apply in_or_app. right.
    rewrite add_reference_list_cons. cbn [value final trace].
    apply in_or_app. left. rewrite Ht. apply in_or_app. right. now left.
  - intros later Hin Hok. rewrite Hfinal.
    now apply add_reference_list_adds.
Qed.

Lemma C6_failed_reference_skipped_witness :
  value (add_reference_list (Samples.rejects_bookmark "bad")
           ([mkReference "b0" "Smith 2020"]
            ++ mkReference "bad" "Jones 2021" :: [mkReference "b2" "Lee 2022"])
           (mkOdt [] [])) = ok tt /\
  final (add_reference_list (Samples.rejects_bookmark "bad")
           ([mkReference "b0" "Smith 2020"]
            ++ mkReference "bad" "Jones 2021" :: [mkReference "b2" "Lee 2022"])
           (mkOdt [] []))
  = final (add_reference_list (Samples.rejects_bookmark "bad")
             ([mkReference "b0" "Smith 2020"] ++ [mkReference "b2" "Lee 2022"])
             (mkOdt [] [])) /\
  In (Print ("Error adding reference: "
             ++ exn_msg (Exn "ValueError" "invalid bookmark name")))
     (trace (add_reference_list (Samples.rejects_bookmark "bad")
               ([mkReference "b0" "Smith 2020"]
                ++ mkReference "bad" "Jones 2021" :: [mkReference "b2" "Lee 2022"])
               (mkOdt [] []))) /\
  (forall later,
      In later [mkReference "b2" "Lee 2022"] ->
      (forall d', value ((add_reference_paragraph (Samples.rejects_bookmark "bad") later ;;
                          blank_line (Samples.rejects_bookmark "bad"))%odt d') = ok tt) ->
      In (reference_paragraph later)
         (doc_text (final (add_reference_list (Samples.rejects_bookmark "bad")
                             ([mkReference "b0" "Smith 2020"]
                              ++ mkReference "bad" "Jones 2021"
                                 :: [mkReference "b2" "Lee 2022"])
                             (mkOdt [] []))))).
Proof.
  apply (C6_failed_reference_skipped (Samples.rejects_bookmark "bad")
           [mkReference "b0" "Smith 2020"] [mkReference "b2" "Lee 2022"]
           (mkReference "bad" "Jones 2021") (mkOdt [] [])
           (Exn "ValueError" "invalid bookmark name")).
  reflexivity.
Defined.

(** ** Further properties of the parser *)

Lemma string_app_nil_r (s : string) : (s ++ EmptyString)%string = s.
Proof.
  induction s as [|c rest IH]; simpl; [reflexivity|now rewrite IH].
Qed.

Lemma string_app_assoc (a b c : string) :
  ((a ++ b) ++ c)%string = (a ++ (b ++ c))%string.
Proof.
  induction a as [|x rest IH]; simpl; [reflexivity|now rewrite IH].
Qed.

Lemma join_empty_cons (s : string) (l : list string) :
  Py.join EmptyString (s :: l) = (s ++ Py.join EmptyString l)%string.
Proof.
  destruct l as [|t rest]; simpl; [now rewrite string_app_nil_r|reflexivity].
Qed.

Lemma join_empty_app (l1 l2 : list string) :
  Py.join EmptyString (l1 ++ l2)
  = (Py.join EmptyString l1 ++ Py.join EmptyString l2)%string.
Proof.
  induction l1 as [|s rest IH].
  - reflexivity.
  - rewrite <- app_comm_cons, !join_empty_cons, IH. now rewrite string_app_assoc.
Qed.

Lemma content_text_app (c1 c2 : list InlineSpan) :
  content_text (c1 ++ c2) = (content_text c1 ++ content_text c2)%string.
Proof.
  unfold content_text. now rewrite map_app, join_empty_app.
Qed.

Lemma text_piece_text (x : option string) :
  content_text (text_piece x)
  = Py.join EmptyString (match x with Some s => [s] | None => [] end).
Proof.
  destruct x as [[|c rest]|]; reflexivity.
Qed.

Lemma recurse_text (n : node) :
  is_element n = true ->
  forall content, recurse n = ok content ->
                  content_text content = Py.join EmptyString (itertext n).
Proof.
  induction n as [t a tx cs tl IH] using node_children_ind.
  intros Hel content. rewrite recurse_eq. simpl children. simpl text.
  destruct (rflat_map recurse_child cs) as [e|below] eqn:E; simpl; [discriminate|].
  intros H. injection H as <-.
  rewrite content_text_app, text_piece_text.
  unfold is_element in Hel. simpl in Hel. destruct t as [q|]; [|discriminate].
  change (itertext (Node (Named q) a tx cs tl))
    with ((match tx with Some s => [s] | None => [] end)
          ++ flat_map (fun c => itertext c
                                ++ match tail c with Some s => [s] | None => [] end) cs).
  rewrite join_empty_app. f_equal.
  clear Hel. revert below E.
  induction IH as [|c rest Hc _ IHrest]; intros below E; simpl in E.
  - injection E as <-. reflexivity.
  - destruct (recurse_child c) as [e|x] eqn:Ec; simpl in E; [discriminate|].
    destruct (rflat_map recurse_child rest) as [e|y]; simpl in E; [discriminate|].
    injection E as <-. simpl flat_map.
    rewrite content_text_app, !join_empty_app, (IHrest y eq_refl).
    f_equal.
    unfold recurse_child, QName_localname in Ec.
    assert (Hcel : is_element c = true).
    { unfold is_element. destruct (tag c); [reflexivity|discriminate]. }
    destruct (tag c) as [qc|]; [|discriminate].
    cbn [rbind ok] in Ec.
    destruct (String.eqb (localname qc) "ref" && opt_is (get c (plain "type")) "bibr").
    + injection Ec as <-.
      change (content_text (citation c :: text_piece (tail c)))
        with (content_text ([citation c] ++ text_piece (tail c))).
      rewrite content_text_app, text_piece_text. now f_equal.
    + destruct (recurse c) as [e|inner] eqn:Er; cbn [rbind ok] in Ec; [discriminate|].
      injection Ec as <-.
      rewrite content_text_app, text_piece_text. f_equal.
      now apply Hc.
Qed.

(** X1: the content of a paragraph keeps all the text of the element:
    the texts of its pieces, joined, are the flattened text of the
    paragraph element. *)
Theorem X1_paragraph_text_kept (paragraph_elem : node) (content : list InlineSpan) :
  is_element paragraph_elem = true ->
  get_paragraph_content paragraph_elem = ok content ->
  content_text content = Py.join EmptyString (itertext paragraph_elem).
Proof.
  intros Hel H. now apply (recurse_text paragraph_elem).
Qed.

Lemma X1_paragraph_text_kept_witness :
  content_text [Text "See "; CitationRef "Smith 2020" "b0"; Text " for details."]
  = Py.join EmptyString (itertext Samples.p_smith).
Proof.
  apply (X1_paragraph_text_kept Samples.p_smith); reflexivity.
Defined.

Lemma recurse_texts_nonempty (n : node) :
  forall content, recurse n = ok content ->
                  Forall (fun s => forall t, s = Text t -> t <> EmptyString) content.
Proof.
  assert (Hpiece : forall x, Forall (fun s => forall t, s = Text t -> t <> EmptyString)
                                    (text_piece x)).
  { intros [[|c rest]|]; simpl; constructor; [|constructor].
    intros t Ht. injection Ht as <-. discriminate. }
  induction n as [t a tx cs tl IH] using node_children_ind.
  intros content. rewrite recurse_eq. simpl children. simpl text.
  destruct (rflat_map recurse_child cs) as [e|below] eqn:E; simpl; [discriminate|].
  intros H. injection H as <-.
  apply Forall_app. split; [apply Hpiece|].
  apply (rflat_map_Forall _ recurse_child cs); [|exact E].
  eapply Forall_impl; [|exact IH]. intros c Hc x.
  unfold recurse_child.
  destruct (QName_localname c) as [e|name]; simpl; [discriminate|].
  destruct (String.eqb name "ref" && opt_is (get c (plain "type")) "bibr").
  - intros H. injection H as <-.
    constructor; [intros t0 Ht; discriminate Ht | apply Hpiece].
  - destruct (recurse c) as [e|inner] eqn:Ec; simpl; [discriminate|].
    intros H. injection H as <-.
    apply Forall_app. split; [now apply Hc | apply Hpiece].
Qed.

(** X2: no Text piece of a paragraph content is empty: text and tail
    that are absent or empty add no piece. *)
Theorem X2_text_pieces_nonempty (paragraph_elem : node) (content : list InlineSpan)
  (t : string) :
  get_paragraph_content paragraph_elem = ok content ->
  In (Text t) content -> t <> EmptyString.
Proof.
  intros H Hin.
  pose proof (recurse_texts_nonempty paragraph_elem content H) as Hall.
  rewrite Forall_forall in Hall. now apply (Hall _ Hin).
Qed.

Lemma X2_text_pieces_nonempty_witness : "See " <> EmptyString.
Proof.
  apply (X2_text_pieces_nonempty Samples.p_smith
           [Text "See "; CitationRef "Smith 2020" "b0"; Text " for details."]).
  - reflexivity.
  - now left.
Defined.

(** *** Stripped strings *)

Lemma lstrip_ws_leading (s : string) : leading_space (Py.lstrip_ws s) = false.
Proof.
  induction s as [|c rest IH]; simpl; [reflexivity|].
  destruct (Py.isspace c) eqn:E; [exact IH|]. simpl. exact E.
Qed.

Lemma rstrip_ws_trailing (s : string) : trailing_space (Py.rstrip_ws s) = false.
Proof.
  induction s as [|c rest IH]; simpl; [reflexivity|].
  destruct (Py.rstrip_ws rest) as [|d r].
  - destruct (Py.isspace c) eqn:E; simpl; [reflexivity|exact E].
  - exact IH.
Qed.

Lemma rstrip_ws_leading (s : string) :
  leading_space s = false -> leading_space (Py.rstrip_ws s) = false.
Proof.
  destruct s as [|c rest]; simpl; [reflexivity|]. intros Hc.
  destruct (Py.rstrip_ws rest) as [|d r]; [rewrite Hc|]; simpl; exact Hc.
Qed.

Lemma strip_trimmed (s : string) : trimmed (Py.strip s).
Proof.
  unfold Py.strip. split.
  - apply rstrip_ws_leading, lstrip_ws_leading.
  - apply rstrip_ws_trailing.
Qed.

Lemma parse_table_trimmed (figure_elem : node) : block_trimmed (Table (parse_table figure_elem)).
Proof.
  unfold parse_table. destruct (find figure_elem (tei "table")) as [table_elem|]; simpl;
    [|trivial].
  intros row cell Hrow Hcell.
  apply in_map_iff in Hrow. destruct Hrow as (r & <- & _).
  apply in_map_iff in Hcell. destruct Hcell as (c & <- & _).
  apply strip_trimmed.
Qed.

Lemma process_body_elements_trimmed (parent : node) :
  forall bs, process_body_elements parent = ok bs -> Forall block_trimmed bs.
Proof.
  induction parent as [t a tx cs tl IH] using node_children_ind.
  intros bs. rewrite process_body_elements_eq. simpl children.
  apply rflat_map_Forall.
  eapply Forall_impl; [|exact IH]. intros c Hc x.
  unfold process_body_element.
  destruct (QName_localname c) as [e|name]; simpl; [discriminate|].
  destruct (String.eqb name "head").
  { intros H. injection H as <-. constructor; [apply strip_trimmed|constructor]. }
  destruct (String.eqb name "p").
  { destruct (get_paragraph_content c) as [e|content]; simpl; [discriminate|].
    intros H. injection H as <-. repeat constructor. }
  destruct (String.eqb name "div").
  { apply Hc. }
  destruct (String.eqb name "figure" && opt_is (get c (plain "type")) "table");
    intros H; injection H as <-; constructor.
  - apply parse_table_trimmed.
  - constructor.
Qed.

Lemma references_from_trimmed (l : list node) :
  forall k, Forall (fun r => trimmed (ref_text r)) (references_from k l).
Proof.
  induction l as [|ref rest IH]; intros k; simpl; constructor.
  - apply strip_trimmed.
  - apply IH.
Qed.

(** X3: in a document model the abstract, every heading text, every
    table cell and every reference text neither begins nor ends with
    whitespace. *)
Theorem X3_fields_trimmed (etree_parse : string -> result node) (tei_file : string)
  (m : DocumentModel) :
  fst (parse_tei etree_parse tei_file) = Some m ->
  trimmed (abstract m) /\
  (forall h, In (Heading h) (body_elements m) -> trimmed h) /\
  (forall rows row cell,
      In (Table (Some rows)) (body_elements m) -> In row rows -> In cell row ->
      trimmed cell) /\
  (forall r, In r (references m) -> trimmed (ref_text r)).
Proof.
  intros H. destruct (parse_tei_Some _ _ _ H) as (tree & Ht & _ & _ & Ha & Hb & Hr).
  assert (Hall : Forall block_trimmed (body_elements m)).
  { destruct (xpath tree path_body) as [|body rest].
    - injection Hb as <-. constructor.
    - now apply (process_body_elements_trimmed body). }
  rewrite Forall_forall in Hall.
  split; [|split; [|split]].
  - rewrite Ha. unfold abstract_of.
    destruct (xpath tree path_abstract); [now split | apply strip_trimmed].
  - intros h Hin. apply (Hall _ Hin).
  - intros rows row cell Hin. apply (Hall _ Hin).
  - intros r Hin. rewrite Hr, (collect_references_from _ []) in Hin. simpl in Hin.
    pose proof (references_from_trimmed (xpath tree path_bibliography) 0) as Hf.
    rewrite Forall_forall in Hf. now apply Hf.
Qed.

Lemma X3_fields_trimmed_witness :
  trimmed (abstract Samples.model_smith) /\
  (forall h, In (Heading h) (body_elements Samples.model_smith) -> trimmed h) /\
  (forall rows row cell,
      In (Table (Some rows)) (body_elements Samples.model_smith) -> In row rows ->
      In cell row -> trimmed cell) /\
  (forall r, In r (references Samples.model_smith) -> trimmed (ref_text r)).
Proof.
  apply (X3_fields_trimmed (Samples.reads Samples.doc_smith) "smith.tei.xml"
           Samples.model_smith).
  reflexivity.
Defined.

(** *** Authors *)

Lemma all_str_texts (l : list (option string)) (ss : list string) :
  Py.all_str l = Some ss -> ss = texts l.
Proof.
  revert ss. induction l as [|[s|] rest IH]; simpl; intros ss H.
  - now injection H as <-.
  - destruct (Py.all_str rest) as [ss'|]; [|discriminate].
    injection H as <-. now rewrite (IH ss' eq_refl).
  - discriminate.
Qed.

Lemma all_str_None_inv (l : list (option string)) :
  Py.all_str l = None -> In None l.
Proof.
  induction l as [|[s|] rest IH]; simpl; intros H.
  - discriminate.
  - right. apply IH. now destruct (Py.all_str rest).
  - now left.
Qed.

Lemma truthy_nonempty (s : string) : Py.truthy (Some s) = nonempty s.
Proof. now destruct s. Qed.

Lemma collect_authors_ok (l : list node) :
  forall acc r,
    collect_authors acc l = ok r ->
    r = acc ++ filter nonempty (map author_name l).
Proof.
  induction l as [|a rest IH]; intros acc r; cbn [collect_authors map filter].
  - intros H. injection H as <-. now rewrite app_nil_r.
  - unfold Py.join_items.
    destruct (Py.all_str (name_parts a)) as [ss|] eqn:E; cbn [rbind ok raise];
      [|discriminate].
    intros H. apply IH in H. rewrite H.
    change (author_name a) with (Py.join " " (texts (name_parts a))).
    rewrite <- (all_str_texts _ _ E), truthy_nonempty.
    destruct (nonempty (Py.join " " ss)); [|reflexivity].
    now rewrite <- app_assoc.
Qed.

(** X4: the authors of a document model are the names of the author
    entries in source order, each the forename and the surname that are
    present joined by one space, without the entries whose name comes out
    empty; no author is the empty string. *)
Theorem X4_authors (etree_parse : string -> result node) (tei_file : string)
  (tree : node) (m : DocumentModel) :
  etree_parse tei_file = ok tree ->
  fst (parse_tei etree_parse tei_file) = Some m ->
  authors m = filter nonempty (map author_name (xpath tree path_authors)) /\
  ~ In EmptyString (authors m).
Proof.
  intros Ht H. destruct (parse_tei_Some _ _ _ H) as (tree' & Ht' & _ & Ha & _).
  rewrite Ht in Ht'. injection Ht' as <-.
  apply collect_authors_ok in Ha. simpl in Ha.
  split; [exact Ha|].
  rewrite Ha. intros Hin. apply filter_In in Hin. destruct Hin as [_ Hne]. discriminate.
Qed.

Lemma X4_authors_witness :
  authors Samples.model_smith
  = filter nonempty (map author_name (xpath Samples.doc_smith path_authors)) /\
  ~ In EmptyString (authors Samples.model_smith).
Proof.
  apply (X4_authors (Samples.reads Samples.doc_smith) "smith.tei.xml"); reflexivity.
Defined.

(** *** The walk over the body *)

Lemma rflat_map_app_eq {A B : Type} (f : A -> result (list B)) (l1 l2 : list A) :
  rflat_map f (l1 ++ l2)
  = (x <- rflat_map f l1 ;; y <- rflat_map f l2 ;; ok (x ++ y))%result.
Proof.
  induction l1 as [|a rest IH]; simpl.
  - destruct (rflat_map f l2); reflexivity.
  - destruct (f a) as [e|x]; simpl; [reflexivity|].
    rewrite IH.
    destruct (rflat_map f rest) as [e|y]; simpl; [reflexivity|].
    destruct (rflat_map f l2) as [e|z]; simpl; [reflexivity|].
    now rewrite app_assoc.
Qed.

Lemma is_named_localname (name : string) (n : node) :
  is_named name n = true -> QName_localname n = ok name.
Proof.
  unfold is_named, QName_localname. destruct (tag n) as [q|]; [|discriminate].
  intros H. apply String.eqb_eq in H. now rewrite H.
Qed.

Lemma process_body_element_div (d : node) :
  is_named "div" d = true ->
  process_body_element d = rflat_map process_body_element (children d).
Proof.
  intros H. unfold process_body_element.
  rewrite (is_named_localname _ _ H). simpl.
  apply process_body_elements_eq.
Qed.

(** X5: a div is transparent: the blocks of a parent are the same, and
    so is a failure, when a div among its children is replaced by the
    children of the div. *)
Theorem X5_div_transparent (d : node) (pre post : list node)
  (t : etag) (a : list (QName * string)) (tx tl : option string) :
  is_named "div" d = true ->
  process_body_elements (Node t a tx (pre ++ d :: post) tl)
  = process_body_elements (Node t a tx (pre ++ children d ++ post) tl).
Proof.
  intros Hd. rewrite !process_body_elements_eq. simpl children.
  rewrite !rflat_map_app_eq. simpl rflat_map at 2.
  rewrite (process_body_element_div d Hd).
  destruct (rflat_map process_body_element pre) as [e|x]; simpl; [reflexivity|].
  destruct (rflat_map process_body_element (children d)) as [e|y]; simpl; [reflexivity|].
  reflexivity.
Qed.

Lemma X5_div_transparent_witness :
  process_body_elements
    (Samples.elem "body" [] None
       ([Samples.figure_without_table]
        ++ Samples.elem "div" [] None
             [Samples.elem "head" [] (Some "Intro") [] None; Samples.p_smith] None
           :: [Samples.p_double_hash]) None)
  = process_body_elements
      (Samples.elem "body" [] None
         ([Samples.figure_without_table]
          ++ children (Samples.elem "div" [] None
                         [Samples.elem "head" [] (Some "Intro") [] None; Samples.p_smith]
                         None)
          ++ [Samples.p_double_hash]) None).
Proof.
  apply (X5_div_transparent
           (Samples.elem "div" [] None
              [Samples.elem "head" [] (Some "Intro") [] None; Samples.p_smith] None)).
  reflexivity.
Defined.

Lemma process_body_element_passed_over (elem : node) :
  passed_over elem = true -> process_body_element elem = ok [].
Proof.
  unfold passed_over, is_element, is_named, process_body_element, QName_localname.
  destruct (tag elem) as [q|]; simpl; [|discriminate].
  destruct (String.eqb (localname q) "head"); simpl; [discriminate|].
  destruct (String.eqb (localname q) "p"); simpl; [discriminate|].
  destruct (String.eqb (localname q) "div"); simpl; [discriminate|].
  destruct (String.eqb (localname q) "figure" && opt_is (get elem (plain "type")) "table");
    simpl; [discriminate|reflexivity].
Qed.

(** X6: an element of the body that is none of head, p, div and
    table-typed figure is passed over whatever it contains: the blocks of
    its parent, or its failure, are the same as without the element. *)
Theorem X6_other_elements_passed_over (elem : node) (pre post : list node)
  (t : etag) (a : list (QName * string)) (tx tl : option string) :
  passed_over elem = true ->
  process_body_elements (Node t a tx (pre ++ elem :: post) tl)
  = process_body_elements (Node t a tx (pre ++ post) tl).
Proof.
  intros He. rewrite !process_body_elements_eq. simpl children.
  rewrite !rflat_map_app_eq. simpl rflat_map at 2.
  rewrite (process_body_element_passed_over elem He). simpl.
  destruct (rflat_map process_body_element pre) as [e|x]; simpl; [reflexivity|].
  destruct (rflat_map process_body_element post) as [e|y]; reflexivity.
Qed.

Lemma X6_other_elements_passed_over_witness :
  process_body_elements
    (Samples.elem "body" [] None
       ([Samples.p_smith]
        ++ Samples.elem "note" [] None [Node Special [] (Some "a comment") [] None] None
           :: [Samples.p_double_hash]) None)
  = process_body_elements
      (Samples.elem "body" [] None ([Samples.p_smith] ++ [Samples.p_double_hash]) None).
Proof.
  apply (X6_other_elements_passed_over
           (Samples.elem "note" [] None [Node Special [] (Some "a comment") [] None] None)).
  reflexivity.
Defined.

(** *** When the parse fails *)

Lemma rflat_map_raises {A B : Type} (f : A -> result (list B)) (l : list A)
  (a : A) (e : exn) :
  In a l -> f a = raise e -> exists e', rflat_map f l = raise e'.
Proof.
  induction l as [|b rest IH]; intros Hin Hf; [destruct Hin|].
  simpl. destruct Hin as [->|Hin].
  - rewrite Hf. now exists e.
  - destruct (f b) as [e0|x]; simpl; [now exists e0|].
    destruct (IH Hin Hf) as [e' ->]. now exists e'.
Qed.

Lemma rflat_map_raise_inv {A B : Type} (f : A -> result (list B)) (l : list A)
  (e : exn) :
  rflat_map f l = raise e -> exists a, In a l /\ f a = raise e.
Proof.
  induction l as [|b rest IH]; simpl; intros H; [discriminate|].
  destruct (f b) as [e0|x] eqn:Eb; simpl in H.
  - injection H as ->. exists b. split; [now left|exact Eb].
  - destruct (rflat_map f rest) as [e1|y]; simpl in H; [|discriminate].
    injection H as ->. destruct (IH eq_refl) as (a & Hin & Ha).
    exists a. split; [now right|exact Ha].
Qed.

Lemma recurse_child_special (c : node) :
  tag c = Special -> recurse_child c = raise ValueError_tag.
Proof.
  intros H. unfold recurse_child, QName_localname. now rewrite H.
Qed.

Lemma recurse_child_inner (c : node) :
  is_element c = true -> is_citation c = false ->
  recurse_child c = (inner <- recurse c ;; ok (inner ++ text_piece (tail c)))%result.
Proof.
  unfold is_element, is_citation, is_named, recurse_child, QName_localname.
  destruct (tag c) as [q|]; [|discriminate]. intros _ H. simpl. now rewrite H.
Qed.

Lemma recurse_child_raise_inv (c : node) (e : exn) :
  recurse_child c = raise e ->
  tag c = Special \/
  (is_element c = true /\ is_citation c = false /\ recurse c = raise e).
Proof.
  unfold is_element, is_citation, is_named, recurse_child, QName_localname.
  destruct (tag c) as [q|]; [|now left]. simpl.
  destruct (String.eqb (localname q) "ref" && opt_is (get c (plain "type")) "bibr");
    [discriminate|].
  destruct (recurse c) as [e'|inner]; simpl; [|discriminate].
  intros H. injection H as ->. right. repeat split.
Qed.

Lemma recurse_raises (n c : node) :
  reads n c -> tag c = Special -> exists e, recurse n = raise e.
Proof.
  intros Hr Hs. induction Hr as [n c Hin|n k c Hin Hel Hcit _ IH].
  - destruct (rflat_map_raises recurse_child (children n) c _ Hin
                (recurse_child_special c Hs)) as [e He].
    exists e. now rewrite recurse_eq, He.
  - destruct (IH Hs) as [e He].
    assert (Hk : recurse_child k = raise e).
    { now rewrite (recurse_child_inner k Hel Hcit), He. }
    destruct (rflat_map_raises recurse_child (children n) k _ Hin Hk) as [e' He'].
    exists e'. now rewrite recurse_eq, He'.
Qed.

Lemma recurse_raise_inv (n : node) :
  forall e, recurse n = raise e -> exists c, reads n c /\ tag c = Special.
Proof.
  induction n as [t a tx cs tl IH] using node_children_ind.
  intros e. rewrite recurse_eq. simpl children.
  destruct (rflat_map recurse_child cs) as [e'|below] eqn:E; simpl; [|discriminate].
  intros _. destruct (rflat_map_raise_inv _ _ _ E) as (k & Hin & Hk).
  destruct (recurse_child_raise_inv k e' Hk) as [Hs|(Hel & Hcit & Hr)].
  - exists k. split; [now apply reads_child|exact Hs].
  - rewrite Forall_forall in IH.
    destruct (IH k Hin e' Hr) as (c & Hc & Hs).
    exists c. split; [|exact Hs]. now apply (reads_inner _ k).
Qed.

Lemma process_body_element_special (c : node) :
  tag c = Special -> process_body_element c = raise ValueError_tag.
Proof.
  intros H. unfold process_body_element, QName_localname. now rewrite H.
Qed.

Lemma process_body_element_p (p : node) :
  is_named "p" p = true ->
  process_body_element p
  = (paragraph_content <- get_paragraph_content p ;;
     ok [Paragraph paragraph_content])%result.
Proof.
  intros H. unfold process_body_element. now rewrite (is_named_localname _ _ H).
Qed.

Lemma process_body_element_raise_inv (c : node) (e : exn) :
  process_body_element c = raise e ->
  tag c = Special \/
  (is_named "p" c = true /\ recurse c = raise e) \/
  (is_named "div" c = true /\ process_body_elements c = raise e).
Proof.
  unfold is_named, process_body_element, QName_localname, get_paragraph_content.
  destruct (tag c) as [q|]; [|now left]. simpl.
  destruct (String.eqb (localname q) "head"); [discriminate|].
  destruct (String.eqb (localname q) "p").
  { destruct (recurse c) as [e'|content]; simpl; [|discriminate].
    intros H. injection H as ->. right. left. now split. }
  destruct (String.eqb (localname q) "div").
  { intros H. right. right. now split. }
  destruct (String.eqb (localname q) "figure" && opt_is (get c (plain "type")) "table");
    discriminate.
Qed.

Lemma process_body_elements_raises (parent c : node) :
  visits parent c -> tag c = Special -> exists e, process_body_elements parent = raise e.
Proof.
  intros Hv Hs.
  induction Hv as [parent c Hin|parent d c Hin Hd _ IH|parent p c Hin Hp Hr];
    rewrite process_body_elements_eq.
  - apply (rflat_map_raises _ _ c ValueError_tag Hin).
    now apply process_body_element_special.
  - destruct (IH Hs) as [e He].
    apply (rflat_map_raises _ _ d e Hin).
    now rewrite (process_body_element_div d Hd), <- process_body_elements_eq.
  - destruct (recurse_raises p c Hr Hs) as [e He].
    apply (rflat_map_raises _ _ p e Hin).
    rewrite (process_body_element_p p Hp). unfold get_paragraph_content. now rewrite He.
Qed.

Lemma process_body_elements_raise_inv (parent : node) :
  forall e, process_body_elements parent = raise e ->
            exists c, visits parent c /\ tag c = Special.
Proof.
  induction parent as [t a tx cs tl IH] using node_children_ind.
  intros e. rewrite process_body_elements_eq. simpl children. intros E.
  destruct (rflat_map_raise_inv _ _ _ E) as (k & Hin & Hk).
  destruct (process_body_element_raise_inv k e Hk) as [Hs|[[Hp Hr]|[Hd Hr]]].
  - exists k. split; [now apply visits_child|exact Hs].
  - destruct (recurse_raise_inv k e Hr) as (c & Hc & Hs).
    exists c. split; [|exact Hs]. now apply (visits_p _ k).
  - rewrite Forall_forall in IH.
    destruct (IH k Hin e Hr) as (c & Hc & Hs).
    exists c. split; [|exact Hs]. now apply (visits_div _ k).
Qed.

Lemma collect_authors_raise_inv (l : list node) :
  forall acc e, collect_authors acc l = raise e ->
                exists author, In author l /\ In None (name_parts author).
Proof.
  induction l as [|a rest IH]; intros acc e; cbn [collect_authors]; [discriminate|].
  unfold Py.join_items.
  destruct (Py.all_str (name_parts a)) as [ss|] eqn:E; cbn [rbind ok raise].
  - intros H. destruct (IH _ _ H) as (author & Hin & Hn).
    exists author. split; [now right|exact Hn].
  - intros _. exists a. split; [now left|now apply all_str_None_inv].
Qed.

(** X7: the parse of a document fails (returns None) exactly when the
    file cannot be read as XML, or an author entry has a name part
    without text, or a comment or processing instruction lies where the
    walk over the first body looks: among the children of the body, of a
    div it enters, or of a paragraph and its non-citation descendants. *)
Theorem X7_parse_fails_iff (etree_parse : string -> result node) (tei_file : string) :
  fst (parse_tei etree_parse tei_file) = None <->
  ((exists e, etree_parse tei_file = raise e) \/
   exists tree,
     etree_parse tei_file = ok tree /\
     ((exists author, In author (xpath tree path_authors) /\ In None (name_parts author)) \/
      (exists body rest c,
          xpath tree path_body = body :: rest /\ visits body c /\ tag c = Special))).
Proof.
  unfold parse_tei, parse_tei_try. split.
  - destruct (etree_parse tei_file) as [e|tree]; simpl; [intros _; left; now exists e|].
    intros H. right. exists tree. split; [reflexivity|].
    destruct (collect_authors [] (xpath tree path_authors)) as [e|au] eqn:Ea; simpl in H.
    + left. apply (collect_authors_raise_inv _ _ _ Ea).
    + right. destruct (xpath tree path_body) as [|body rest]; simpl in H; [discriminate|].
      destruct (process_body_elements body) as [e|bs] eqn:Eb; simpl in H; [|discriminate].
      destruct (process_body_elements_raise_inv body e Eb) as (c & Hv & Hs).
      now exists body, rest, c.
  - intros [[e He]|(tree & Ht & [(author & Hin & Hn)|(body & rest & c & Hb & Hv & Hs)])].
    + now rewrite He.
    + rewrite Ht. simpl.
      now rewrite (collect_authors_raises _ [] author Hin (all_str_None _ Hn)).
    + rewrite Ht. simpl.
      destruct (collect_authors [] (xpath tree path_authors)) as [e|au]; simpl;
        [reflexivity|].
      rewrite Hb. destruct (process_body_elements_raises body c Hv Hs) as [e ->].
      reflexivity.
Qed.

(** *** References and citations *)

Lemma references_from_nth_full (l : list node) :
  forall k i ref,
    nth_error l i = Some ref ->
    nth_error (references_from k l) i
    = Some {| ref_id := get_default ref xml_id (ref_k (k + i + 1));
              ref_text := Py.strip (Py.join " " (itertext ref)) |}.
Proof.
  induction l as [|r rest IH]; intros k i ref Hn.
  - destruct i; discriminate.
  - destruct i as [|i]; simpl in *.
    + injection Hn as <-. now rewrite Nat.add_0_r.
    + rewrite (IH (k + 1) i ref Hn).
      now replace (k + 1 + i + 1) with (k + S i + 1) by lia.
Qed.

(** X8: the references of a document model match the bibliography
    entries one to one and in order: there are as many, the text of each
    is the text of its entry flattened with single spaces and stripped,
    and an explicit id is kept as it is written. *)
Theorem X8_references_by_position (etree_parse : string -> result node)
  (tei_file : string) (tree : node) (m : DocumentModel) :
  etree_parse tei_file = ok tree ->
  fst (parse_tei etree_parse tei_file) = Some m ->
  List.length (references m) = List.length (xpath tree path_bibliography) /\
  forall i ref,
    nth_error (xpath tree path_bibliography) i = Some ref ->
    exists r,
      nth_error (references m) i = Some r /\
      ref_text r = Py.strip (Py.join " " (itertext ref)) /\
      forall x, get ref xml_id = Some x -> ref_id r = x.
Proof.
  intros Ht H. rewrite (parse_tei_references _ _ _ _ Ht H).
  split; [apply references_from_length|].
  intros i ref Hn. eexists. split; [apply (references_from_nth_full _ 0 i ref Hn)|].
  split; [reflexivity|]. simpl. intros x Hx. unfold get_default. now rewrite Hx.
Qed.

Lemma X8_references_by_position_witness :
  List.length (references Samples.model_mixed_ids)
  = List.length (xpath Samples.doc_mixed_ids path_bibliography) /\
  forall i ref,
    nth_error (xpath Samples.doc_mixed_ids path_bibliography) i = Some ref ->
    exists r,
      nth_error (references Samples.model_mixed_ids) i = Some r /\
      ref_text r = Py.strip (Py.join " " (itertext ref)) /\
      forall x, get ref xml_id = Some x -> ref_id r = x.
Proof.
  apply (X8_references_by_position (Samples.reads Samples.doc_mixed_ids) "mixed.tei.xml");
    reflexivity.
Defined.

Lemma lstrip_char_id (c : ascii) (s : string) :
  starts_with c s = false -> Py.lstrip_char c s = s.
Proof.
  destruct s as [|d rest]; simpl; [reflexivity|]. now intros ->.
Qed.

(** X9: the fragment marker round-trips: a citation whose target
    attribute is "#" followed by an identifier is parsed to that
    identifier, and the hyperlink rendered for it points to the attribute
    value as it was written. *)
Theorem X9_fragment_round_trip (raises : odf_call -> option exn)
  (child : node) (ident : string) (paragraph e : odf) (d : odt) :
  get child (plain "target") = Some (String "#" ident) ->
  starts_with "#" ident = false ->
  value (add_content_piece raises paragraph (citation child) d) = ok e ->
  citation child = CitationRef (Py.join EmptyString (itertext child)) ident /\
  e = appendChild paragraph
        (OdfElem "A" [("href", AStr (String "#" ident));
                      ("text", AStr (Py.join EmptyString (itertext child)))] []).
Proof.
  intros Hget Hid.
  assert (Hc : citation child = CitationRef (Py.join EmptyString (itertext child)) ident).
  { unfold citation, get_default. rewrite Hget. simpl.
    now rewrite (lstrip_char_id _ _ Hid). }
  rewrite Hc. intros Hv. split; [reflexivity|].
  revert Hv. unfold add_content_piece, bind, construct, addElement, call.
  cbv zeta.
  unfold ok, raise.
  do 2 (match goal with
        | |- context [raises ?c] =>
            destruct (raises c); cbn [value final trace]; [discriminate|]
        end).
  intros H. now injection H as <-.
Qed.

Lemma X9_fragment_round_trip_witness :
  citation (Samples.elem "ref" [(plain "type", "bibr"); (plain "target", "#b0")]
              (Some "Smith 2020") [] (Some " for details."))
  = CitationRef
      (Py.join EmptyString
         (itertext (Samples.elem "ref" [(plain "type", "bibr"); (plain "target", "#b0")]
                      (Some "Smith 2020") [] (Some " for details."))))
      "b0" /\
  OdfElem "P" [("stylename", paragraph_style)]
    [OdfElem "A" [("href", AStr "#b0"); ("text", AStr "Smith 2020")] []]
  = appendChild (OdfElem "P" [("stylename", paragraph_style)] [])
      (OdfElem "A"
         [("href", AStr (String "#" "b0"));
          ("text",
           AStr (Py.join EmptyString
                   (itertext (Samples.elem "ref"
                                [(plain "type", "bibr"); (plain "target", "#b0")]
                                (Some "Smith 2020") [] (Some " for details.")))))] []).
Proof.
  apply (X9_fragment_round_trip Samples.never_raises
           (Samples.elem "ref" [(plain "type", "bibr"); (plain "target", "#b0")]
              (Some "Smith 2020") [] (Some " for details."))
           "b0" (OdfElem "P" [("stylename", paragraph_style)] []) _ (mkOdt [] []));
    reflexivity.
Defined.

(** ** Further properties of the renderer *)

(** *** What is printed and what is saved *)

Section Silent.
Variable raises : odf_call -> option exn.

Lemma silent_ret {A : Type} (a : A) : silent (ret a).
Proof. intros d. reflexivity. Qed.

Lemma silent_bind {A B : Type} (m : M A) (k : A -> M B) :
  silent m -> (forall a, silent (k a)) -> silent (bind m k).
Proof.
  intros Hm Hk d. unfold bind. cbv zeta.
  destruct (value (m d)) as [e|a]; cbn [trace].
  - apply Hm.
  - rewrite forallb_app, Hm, Hk. reflexivity.
Qed.

Lemma silent_seq (m k : M unit) : silent m -> silent k -> silent (m ;; k)%odt.
Proof. intros Hm Hk. apply silent_bind; [exact Hm|intros _; exact Hk]. Qed.

Lemma silent_log (s : string) : silent (log s).
Proof. intros d. reflexivity. Qed.

Lemma silent_call {A : Type} (c : odf_call) (r : A) : silent (call raises c r).
Proof. intros d. unfold call. now destruct (raises c). Qed.

Lemma silent_text_addElement (child : odf) : silent (text_addElement raises child).
Proof. intros d. unfold text_addElement. now destruct (raises _). Qed.

Lemma silent_styles_addElement (child : odf) : silent (styles_addElement raises child).
Proof. intros d. unfold styles_addElement. now destruct (raises _). Qed.

Lemma silent_OpenDocumentText : silent (OpenDocumentText raises).
Proof. intros d. unfold OpenDocumentText. now destruct (raises _). Qed.

Lemma silent_try (c : M unit) (h : exn -> M unit) :
  silent c -> (forall e, silent (h e)) -> silent (try_ c h).
Proof.
  intros Hc Hh d. unfold try_. cbv zeta.
  destruct (value (c d)) as [e|u]; cbn [trace].
  - rewrite forallb_app, Hc, Hh. reflexivity.
  - apply Hc.
Qed.

Lemma silent_for {A : Type} (l : list A) (f : A -> M unit) :
  (forall x, silent (f x)) -> silent (for_ l f).
Proof.
  intros Hf. induction l as [|x rest IH]; simpl.
  - apply silent_ret.
  - apply silent_seq; [apply Hf|exact IH].
Qed.

Lemma silent_fold {A B : Type} (l : list A) (f : B -> A -> M B) :
  (forall b x, silent (f b x)) -> forall b, silent (fold_ l f b).
Proof.
  intros Hf. induction l as [|x rest IH]; intros b; simpl.
  - apply silent_ret.
  - apply silent_bind; [apply Hf|exact IH].
Qed.

Lemma silent_add_P (args : list (string * odf_arg)) :
  silent (p <- P raises args ;; text_addElement raises p)%odt.
Proof.
  apply silent_bind; [apply silent_call|intros p; apply silent_text_addElement].
Qed.

Lemma silent_define_style (name : string) (properties : list (string * odf_arg)) :
  silent (define_style raises name properties).
Proof.
  unfold define_style.
  apply silent_bind; [apply silent_call|]. intros style.
  apply silent_bind; [apply silent_call|]. intros props.
  apply silent_bind; [apply silent_call|]. intros style'.
  apply silent_styles_addElement.
Qed.

Lemma silent_define_styles : silent (define_styles raises).
Proof.
  unfold define_styles.
  repeat (apply silent_seq; [apply silent_define_style|]).
  apply silent_define_style.
Qed.

Lemma silent_add_title (m : DocumentModel) : silent (add_title raises m).
Proof.
  unfold add_title. apply silent_seq; [apply silent_log|apply silent_add_P].
Qed.

Lemma silent_add_authors (m : DocumentModel) : silent (add_authors raises m).
Proof.
  unfold add_authors. destruct (authors m); [apply silent_ret|].
  apply silent_seq; [apply silent_log|apply silent_add_P].
Qed.

Lemma silent_add_abstract (m : DocumentModel) : silent (add_abstract raises m).
Proof.
  unfold add_abstract. destruct (Py.truthy (Some (abstract m))); [|apply silent_ret].
  apply silent_seq; [apply silent_log|].
  apply silent_bind; [apply silent_call|]. intros h.
  apply silent_seq; [apply silent_text_addElement|apply silent_add_P].
Qed.

Lemma silent_add_cell (odt_row : odf) (cell_data : string) :
  silent (add_cell raises odt_row cell_data).
Proof.
  unfold add_cell.
  apply silent_bind; [apply silent_call|]. intros cell.
  apply silent_bind; [apply silent_call|]. intros p.
  apply silent_bind; [apply silent_call|]. intros cell'.
  apply silent_call.
Qed.

Lemma silent_add_row (odt_table : odf) (row_data : list string) :
  silent (add_row raises odt_table row_data).
Proof.
  unfold add_row.
  apply silent_bind; [apply silent_call|]. intros row.
  apply silent_bind; [apply silent_fold; apply silent_add_cell|]. intros row'.
  apply silent_call.
Qed.

Lemma silent_add_content_piece (paragraph : odf) (piece : InlineSpan) :
  silent (add_content_piece raises paragraph piece).
Proof.
  destruct piece as [s|t target]; simpl.
  - apply silent_call.
  - apply silent_bind; [apply silent_call|]. intros link. apply silent_call.
Qed.

Lemma silent_add_body_element (element : Block) : silent (add_body_element raises element).
Proof.
  destruct element as [h|content|table_data]; unfold add_body_element.
  - apply silent_seq; [apply silent_log|].
    apply silent_bind; [apply silent_call|]. intros p.
    apply silent_seq; [apply silent_text_addElement|apply silent_add_P].
  - apply silent_bind; [apply silent_call|]. intros p.
    apply silent_bind; [apply silent_fold; apply silent_add_content_piece|]. intros p'.
    apply silent_seq; [apply silent_text_addElement|apply silent_add_P].
  - apply silent_seq; [apply silent_log|].
    destruct table_data as [[|row rows]|]; try apply silent_ret.
    apply silent_bind; [apply silent_call|]. intros tb.
    apply silent_bind; [apply silent_fold; apply silent_add_row|]. intros tb'.
    apply silent_seq; [apply silent_text_addElement|apply silent_add_P].
Qed.

Lemma silent_add_reference (ref : Reference) : silent (add_reference raises ref).
Proof.
  unfold add_reference. apply silent_try; [|intros e; apply silent_log].
  apply silent_seq; [|apply silent_add_P].
  unfold add_reference_paragraph.
  apply silent_seq; [apply silent_log|].
  repeat (apply silent_bind; [apply silent_call|]; intros ?).
  apply silent_text_addElement.
Qed.

Lemma silent_add_references (m : DocumentModel) : silent (add_references raises m).
Proof.
  unfold add_references. destruct (references m); [apply silent_ret|].
  apply silent_seq; [apply silent_log|].
  apply silent_seq; [apply silent_add_P|].
  apply silent_bind; [apply silent_call|]. intros h.
  apply silent_seq; [apply silent_text_addElement|].
  apply silent_seq; [apply silent_add_P|].
  apply silent_for. apply silent_add_reference.
Qed.

Lemma saves_last_seq (output_file : string) (m k : M unit) :
  silent m -> saves_last output_file k -> saves_last output_file (m ;; k)%odt.
Proof.
  intros Hm Hk d. unfold bind. cbv zeta.
  destruct (value (m d)) as [e|u]; cbn [value final trace].
  - apply Hm.
  - specialize (Hk (final (m d))).
    destruct (value (k (final (m d)))) as [e|u'].
    + rewrite forallb_app, Hm, Hk. reflexivity.
    + destruct Hk as (lines & Hl & Ht). exists (trace (m d) ++ lines). split.
      * rewrite forallb_app, Hm, Hl. reflexivity.
      * rewrite Ht. now rewrite app_assoc.
Qed.

Lemma saves_last_save_odt (output_file : string) :
  saves_last output_file (save_odt raises output_file).
Proof.
  intros d. unfold save_odt, bind, log, save. cbv zeta. cbn [value final trace].
  destruct (raises (DocSave d output_file)); cbn [value final trace app].
  - reflexivity.
  - exists [Print ("Saving ODT file: " ++ output_file)]. split; reflexivity.
Qed.

Lemma saves_last_create_odt_try (m : DocumentModel) (output_file : string) :
  saves_last output_file (create_odt_try raises m output_file).
Proof.
  unfold create_odt_try.
  apply saves_last_seq; [apply silent_OpenDocumentText|].
  apply saves_last_seq; [apply silent_define_styles|].
  apply saves_last_seq; [apply silent_add_title|].
  apply saves_last_seq; [apply silent_add_authors|].
  apply saves_last_seq; [apply silent_add_abstract|].
  apply saves_last_seq; [apply silent_for; apply silent_add_body_element|].
  apply saves_last_seq; [apply silent_add_references|].
  apply saves_last_save_odt.
Qed.

Lemma create_odt_events (m : DocumentModel) (output_file : string) :
  match value (create_odt_try raises m output_file (mkOdt [] [])) with
  | inr _ =>
      exists lines,
        forallb is_print lines = true /\
        create_odt raises m output_file
        = lines ++ [Save output_file
                      (final (create_odt_try raises m output_file (mkOdt [] [])));
                    Print ("ODT file created: " ++ output_file)]
  | inl e =>
      exists lines,
        forallb is_print lines = true /\
        create_odt raises m output_file
        = lines ++ [Print ("Error creating ODT file: " ++ exn_msg e)]
  end.
Proof.
  pose proof (saves_last_create_odt_try m output_file (mkOdt [] [])) as H.
  unfold create_odt, try_. cbv zeta.
  destruct (value (create_odt_try raises m output_file (mkOdt [] []))) as [e|u].
  - exists (trace (create_odt_try raises m output_file (mkOdt [] []))).
    split; [exact H|reflexivity].
  - exact H.
Qed.

End Silent.

(** X10: [create_odt] saves at most once, and only a finished document:
    when every step of the rendering returned, the events end with the
    save of the document as it then stands, under the output name,
    followed by one log line; when a step raised, nothing is saved and
    the events end with the logged error. *)
Theorem X10_saved_only_when_finished (raises : odf_call -> option exn)
  (m : DocumentModel) (output_file : string) :
  match value (create_odt_try raises m output_file (mkOdt [] [])) with
  | inr _ =>
      exists lines,
        forallb is_print lines = true /\
        create_odt raises m output_file
        = lines ++ [Save output_file
                      (final (create_odt_try raises m output_file (mkOdt [] [])));
                    Print ("ODT file created: " ++ output_file)]
  | inl e =>
      exists lines,
        forallb is_print lines = true /\
        create_odt raises m output_file
        = lines ++ [Print ("Error creating ODT file: " ++ exn_msg e)]
  end.
Proof.
  apply create_odt_events.
Qed.

(** *** A run in which no odfpy call raises *)

Lemma ends_weaken {A : Type} (c : M A) (d : odt)
  (Q Q' : A -> odt -> Prop) (E E' : odt -> Prop) :
  ends c d Q E ->
  (forall a d', Q a d' -> Q' a d') -> (forall d', E d' -> E' d') ->
  ends c d Q' E'.
Proof.
  unfold ends. destruct (value (c d)); intros H Hq He; [now apply He|now apply Hq].
Qed.

Lemma extend_nil (d : odt) : extend d [] = d.
Proof. destruct d. unfold extend. simpl. now rewrite app_nil_r. Qed.

Lemma extend_extend (d : odt) (a b : list odf) :
  extend (extend d a) b = extend d (a ++ b).
Proof. unfold extend. simpl. now rewrite app_assoc. Qed.

Lemma fold_left_appendChild {A : Type} (g : A -> odf) (l : list A) :
  forall kind args cs,
    fold_left (fun p x => appendChild p (g x)) l (OdfElem kind args cs)
    = OdfElem kind args (cs ++ map g l).
Proof.
  induction l as [|x rest IH]; intros kind args cs; simpl.
  - now rewrite app_nil_r.
  - rewrite IH, <- app_assoc. reflexivity.
Qed.

Section Quiet.
Variable raises : odf_call -> option exn.
Hypothesis quiet : forall c, raises c = None.

Lemma quiet_ret {A : Type} (a : A) (d : odt) :
  ends (ret a) d (fun b d' => b = a /\ d' = d) never.
Proof. now split. Qed.

Lemma quiet_log (s : string) (d : odt) :
  ends (log s) d (fun _ d' => d' = d) never.
Proof. reflexivity. Qed.

Lemma quiet_call {A : Type} (c : odf_call) (r : A) (d : odt) :
  ends (call raises c r) d (fun a d' => a = r /\ d' = d) never.
Proof.
  unfold ends, call. rewrite quiet. now split.
Qed.

Lemma quiet_text_addElement (child : odf) (d : odt) :
  ends (text_addElement raises child) d (fun _ d' => d' = extend d [child]) never.
Proof.
  unfold ends, text_addElement. rewrite quiet. reflexivity.
Qed.

Lemma quiet_styles_addElement (child : odf) (d : odt) :
  ends (styles_addElement raises child) d
       (fun _ d' => d' = mkOdt (doc_styles d ++ [child]) (doc_text d)) never.
Proof.
  unfold ends, styles_addElement. rewrite quiet. reflexivity.
Qed.

Lemma quiet_OpenDocumentText (d : odt) :
  ends (OpenDocumentText raises) d (fun _ d' => d' = mkOdt [] []) never.
Proof.
  unfold ends, OpenDocumentText. rewrite quiet. reflexivity.
Qed.

Lemma quiet_save (output_file : string) (d : odt) :
  ends (save raises output_file) d (fun _ d' => d' = d) never.
Proof.
  unfold ends, save. rewrite quiet. reflexivity.
Qed.

Lemma quiet_add_P (args : list (string * odf_arg)) (d : odt) :
  ends (p <- P raises args ;; text_addElement raises p)%odt d
       (fun _ d' => d' = extend d [OdfElem "P" args []]) never.
Proof.
  eapply ends_bind; [apply quiet_call|]. intros p d0 [-> ->].
  apply quiet_text_addElement.
Qed.

Lemma quiet_blank_line (d : odt) :
  ends (blank_line raises) d (fun _ d' => d' = extend d [blank_paragraph]) never.
Proof. apply quiet_add_P. Qed.

Lemma quiet_for {A : Type} (f : A -> M unit) (h : A -> list odf) (l : list A) :
  (forall x d, ends (f x) d (fun _ d' => d' = extend d (h x)) never) ->
  forall d, ends (for_ l f) d (fun _ d' => d' = extend d (flat_map h l)) never.
Proof.
  intros Hf. induction l as [|x rest IH]; intros d; simpl.
  - unfold ends. simpl. now rewrite extend_nil.
  - eapply ends_bind; [apply Hf|]. intros _ d0 ->.
    eapply ends_weaken; [apply IH| |trivial].
    intros _ d' ->. apply extend_extend.
Qed.

Lemma quiet_fold {A B : Type} (f : B -> A -> M B) (g : B -> A -> B) (l : list A) :
  (forall b x d, ends (f b x) d (fun b' d' => b' = g b x /\ d' = d) never) ->
  forall b d, ends (fold_ l f b) d (fun b' d' => b' = fold_left g l b /\ d' = d) never.
Proof.
  intros Hf. induction l as [|x rest IH]; intros b d; simpl.
  - apply quiet_ret.
  - eapply ends_bind; [apply Hf|]. intros b' d0 [-> ->]. apply IH.
Qed.

Lemma quiet_define_style (name : string) (properties : list (string * odf_arg)) (d : odt) :
  ends (define_style raises name properties) d
       (fun _ d' => d' = mkOdt (doc_styles d ++ [spec_style name properties]) (doc_text d))
       never.
Proof.
  unfold define_style, construct, addElement.
  eapply ends_bind; [apply quiet_call|]. intros style d0 [-> ->].
  eapply ends_bind; [apply quiet_call|]. intros props d0 [-> ->].
  eapply ends_bind; [apply quiet_call|]. intros style d0 [-> ->].
  apply quiet_styles_addElement.
Qed.

Lemma quiet_define_styles (d : odt) :
  ends (define_styles raises) d
       (fun _ d' => d' = mkOdt (doc_styles d ++ spec_styles) (doc_text d)) never.
Proof.
  unfold define_styles.
  eapply ends_bind; [apply quiet_define_style|]. intros _ d1 ->.
  eapply ends_bind; [apply quiet_define_style|]. intros _ d2 ->.
  eapply ends_bind; [apply quiet_define_style|]. intros _ d3 ->.
  eapply ends_bind; [apply quiet_define_style|]. intros _ d4 ->.
  eapply ends_weaken; [apply quiet_define_style| |trivial].
  intros _ d' ->. simpl. now rewrite <- !app_assoc.
Qed.

Lemma quiet_add_title (m : DocumentModel) (d : odt) :
  ends (add_title raises m) d
       (fun _ d' => d' = extend d [styled title_style (opt_arg (title m))]) never.
Proof.
  unfold add_title. eapply ends_bind; [apply quiet_log|]. intros _ d0 ->.
  apply quiet_add_P.
Qed.

Lemma quiet_add_authors (m : DocumentModel) (d : odt) :
  ends (add_authors raises m) d
       (fun _ d' =>
          d' = extend d match authors m with
                        | [] => []
                        | _ :: _ =>
                            [styled author_style (AStr (Py.join ", " (authors m)))]
                        end) never.
Proof.
  unfold add_authors. destruct (authors m) as [|a l].
  - unfold ends. simpl. now rewrite extend_nil.
  - eapply ends_bind; [apply quiet_log|]. intros _ d0 ->. apply quiet_add_P.
Qed.

Lemma quiet_add_abstract (m : DocumentModel) (d : odt) :
  ends (add_abstract raises m) d
       (fun _ d' =>
          d' = extend d match abstract m with
                        | EmptyString => []
                        | String _ _ =>
                            [abstract_heading;
                             styled abstract_style (AStr (abstract m))]
                        end) never.
Proof.
  unfold add_abstract. destruct (abstract m) as [|c rest]; cbn [Py.truthy].
  - unfold ends. simpl. now rewrite extend_nil.
  - unfold P at 1. unfold construct at 1.
    eapply ends_bind; [apply quiet_log|]. intros _ d0 ->.
    eapply ends_bind; [apply quiet_call|]. intros h d0 [-> ->].
    eapply ends_bind; [apply quiet_text_addElement|]. intros _ d0 ->.
    eapply ends_weaken; [apply quiet_add_P| |trivial].
    intros _ d' ->. apply extend_extend.
Qed.

Lemma quiet_add_content_piece (paragraph : odf) (piece : InlineSpan) (d : odt) :
  ends (add_content_piece raises paragraph piece) d
       (fun p' d' => p' = appendChild paragraph (spec_piece piece) /\ d' = d) never.
Proof.
  destruct piece as [s|t target]; unfold add_content_piece, addText, construct, addElement.
  - apply quiet_call.
  - eapply ends_bind; [apply quiet_call|]. intros link d0 [-> ->]. apply quiet_call.
Qed.

Lemma quiet_add_cell (odt_row : odf) (cell_data : string) (d : odt) :
  ends (add_cell raises odt_row cell_data) d
       (fun r' d' => r' = appendChild odt_row (spec_cell cell_data) /\ d' = d) never.
Proof.
  unfold add_cell, P, construct, addElement.
  eapply ends_bind; [apply quiet_call|]. intros cell d0 [-> ->].
  eapply ends_bind; [apply quiet_call|]. intros p d0 [-> ->].
  eapply ends_bind; [apply quiet_call|]. intros cell d0 [-> ->].
  apply quiet_call.
Qed.

Lemma quiet_add_row (odt_table : odf) (row_data : list string) (d : odt) :
  ends (add_row raises odt_table row_data) d
       (fun t' d' => t' = appendChild odt_table (spec_row row_data) /\ d' = d) never.
Proof.
  unfold add_row, construct, addElement.
  eapply ends_bind; [apply quiet_call|]. intros row d0 [-> ->].
  eapply ends_bind; [apply (quiet_fold _ _ _ quiet_add_cell)|]. intros row d0 [-> ->].
  rewrite fold_left_appendChild. apply quiet_call.
Qed.

Lemma quiet_add_body_element (element : Block) (d : odt) :
  ends (add_body_element raises element) d
       (fun _ d' => d' = extend d (spec_block element)) never.
Proof.
  destruct element as [h|content|table_data]; unfold add_body_element, spec_block.
  - unfold P, construct.
    eapply ends_bind; [apply quiet_log|]. intros _ d0 ->.
    eapply ends_bind; [apply quiet_call|]. intros p d0 [-> ->].
    eapply ends_bind; [apply quiet_text_addElement|]. intros _ d0 ->.
    eapply ends_weaken; [apply quiet_blank_line| |trivial].
    intros _ d' ->. apply extend_extend.
  - unfold P, construct.
    eapply ends_bind; [apply quiet_call|]. intros p d0 [-> ->].
    eapply ends_bind; [apply (quiet_fold _ _ _ quiet_add_content_piece)|].
    intros p d0 [-> ->]. rewrite fold_left_appendChild.
    eapply ends_bind; [apply quiet_text_addElement|]. intros _ d0 ->.
    eapply ends_weaken; [apply quiet_blank_line| |trivial].
    intros _ d' ->. apply extend_extend.
  - eapply ends_bind; [apply quiet_log|]. intros _ d0 ->.
    destruct table_data as [[|row rows]|].
    + unfold ends. simpl. now rewrite extend_nil.
    + unfold construct.
      eapply ends_bind; [apply quiet_call|]. intros tb d0 [-> ->].
      eapply ends_bind; [apply (quiet_fold _ _ _ quiet_add_row)|].
      intros tb d0 [-> ->]. rewrite fold_left_appendChild.
      eapply ends_bind; [apply quiet_text_addElement|]. intros _ d0 ->.
      eapply ends_weaken; [apply quiet_blank_line| |trivial].
      intros _ d' ->. apply extend_extend.
    + unfold ends. simpl. now rewrite extend_nil.
Qed.

Lemma quiet_try (c : M unit) (h : exn -> M unit) (d : odt) (Q : unit -> odt -> Prop) :
  ends c d Q never -> ends (try_ c h) d Q never.
Proof.
  unfold ends, try_. cbv zeta. destruct (value (c d)) as [e|u] eqn:E; [intros []|].
  now rewrite E.
Qed.

Lemma quiet_add_reference (ref : Reference) (d : odt) :
  ends (add_reference raises ref) d
       (fun _ d' => d' = extend d [reference_paragraph ref; blank_paragraph]) never.
Proof.
  unfold add_reference. apply quiet_try.
  eapply ends_bind.
  - unfold add_reference_paragraph, P, construct, addElement, addText.
    eapply ends_bind; [apply quiet_log|]. intros _ d0 ->.
    eapply ends_bind; [apply quiet_call|]. intros p d0 [-> ->].
    eapply ends_bind; [apply quiet_call|]. intros b d0 [-> ->].
    eapply ends_bind; [apply quiet_call|]. intros p d0 [-> ->].
    eapply ends_bind; [apply quiet_call|]. intros p d0 [-> ->].
    eapply ends_bind; [apply quiet_call|]. intros b d0 [-> ->].
    eapply ends_bind; [apply quiet_call|]. intros p d0 [-> ->].
    apply quiet_text_addElement.
  - intros _ d0 ->. eapply ends_weaken; [apply quiet_blank_line| |trivial].
    intros _ d' ->. apply extend_extend.
Qed.

Lemma quiet_add_references (m : DocumentModel) (d : odt) :
  ends (add_references raises m) d
       (fun _ d' => d' = extend d (spec_references (references m))) never.
Proof.
  unfold add_references, spec_references. destruct (references m) as [|r l].
  - unfold ends. simpl. now rewrite extend_nil.
  - unfold P, construct.
    eapply ends_bind; [apply quiet_log|]. intros _ d0 ->.
    eapply ends_bind; [apply quiet_blank_line|]. intros _ d0 ->.
    eapply ends_bind; [apply quiet_call|]. intros h d0 [-> ->].
    eapply ends_bind; [apply quiet_text_addElement|]. intros _ d0 ->.
    eapply ends_bind; [apply quiet_blank_line|]. intros _ d0 ->.
    eapply ends_weaken;
      [apply (quiet_for _ (fun r => [reference_paragraph r; blank_paragraph]));
       apply quiet_add_reference| |trivial].
    intros _ d' ->. now rewrite !extend_extend.
Qed.

Lemma quiet_create_odt_try (m : DocumentModel) (output_file : string) (d : odt) :
  ends (create_odt_try raises m output_file) d
       (fun _ d' => d' = mkOdt spec_styles (spec_text m)) never.
Proof.
  unfold create_odt_try.
  eapply ends_bind; [apply quiet_OpenDocumentText|]. intros _ d0 ->.
  eapply ends_bind; [apply quiet_define_styles|]. intros _ d0 ->.
  eapply ends_bind; [apply quiet_add_title|]. intros _ d0 ->.
  eapply ends_bind; [apply quiet_add_authors|]. intros _ d0 ->.
  eapply ends_bind; [apply quiet_add_abstract|]. intros _ d0 ->.
  eapply ends_bind; [apply (quiet_for _ spec_block); apply quiet_add_body_element|].
  intros _ d0 ->.
  eapply ends_bind; [apply quiet_add_references|]. intros _ d0 ->.
  unfold save_odt.
  eapply ends_bind; [apply quiet_log|]. intros _ d0 ->.
  eapply ends_bind; [apply quiet_save|]. intros _ d0 ->.
  eapply ends_weaken; [apply quiet_log| |trivial].
  intros _ d' ->. rewrite !extend_extend. unfold extend, spec_text. simpl.
  reflexivity.
Qed.

Lemma quiet_create_odt_try_run (m : DocumentModel) (output_file : string) :
  value (create_odt_try raises m output_file (mkOdt [] [])) = ok tt /\
  final (create_odt_try raises m output_file (mkOdt [] []))
  = mkOdt spec_styles (spec_text m).
Proof.
  pose proof (quiet_create_odt_try m output_file (mkOdt [] [])) as H.
  unfold ends in H.
  destruct (value (create_odt_try raises m output_file (mkOdt [] []))) as [e|[]].
  - destruct H.
  - now split.
Qed.

End Quiet.

(** X11: when no odfpy call raises, the rendering returns, the document
    it builds is the one the rendering rules describe (the five styles,
    then title, authors line, abstract, blocks and references section in
    that order), and that document is what is saved, once, under the
    output name. *)
Theorem X11_renders_by_the_rules (raises : odf_call -> option exn)
  (m : DocumentModel) (output_file : string) :
  (forall c, raises c = None) ->
  value (create_odt_try raises m output_file (mkOdt [] [])) = ok tt /\
  final (create_odt_try raises m output_file (mkOdt [] []))
  = mkOdt spec_styles (spec_text m) /\
  exists lines,
    forallb is_print lines = true /\
    create_odt raises m output_file
    = lines ++ [Save output_file (mkOdt spec_styles (spec_text m));
                Print ("ODT file created: " ++ output_file)].
Proof.
  intros quiet.
  destruct (quiet_create_odt_try_run raises quiet m output_file) as [Hv Hf].
  split; [exact Hv|]. split; [exact Hf|].
  pose proof (create_odt_events raises m output_file) as H.
  rewrite Hv, Hf in H. exact H.
Qed.

Lemma X11_renders_by_the_rules_witness :
  value (create_odt_try Samples.never_raises Cases.model_full "full.odt" (mkOdt [] []))
  = ok tt /\
  final (create_odt_try Samples.never_raises Cases.model_full "full.odt" (mkOdt [] []))
  = mkOdt spec_styles (spec_text Cases.model_full) /\
  exists lines,
    forallb is_print lines = true /\
    create_odt Samples.never_raises Cases.model_full "full.odt"
    = lines ++ [Save "full.odt" (mkOdt spec_styles (spec_text Cases.model_full));
                Print ("ODT file created: " ++ "full.odt")].
Proof.
  apply (X11_renders_by_the_rules Samples.never_raises Cases.model_full "full.odt").
  reflexivity.
Defined.

Lemma spec_text_block (m : DocumentModel) (b : Block) (e : odf) :
  In b (body_elements m) -> In e (spec_block b) -> In e (spec_text m).
Proof.
  intros Hb He. unfold spec_text. rewrite !in_app_iff.
  right. right. right. left.
  apply in_flat_map. now exists b.
Qed.

Lemma spec_text_reference (m : DocumentModel) (r : Reference) :
  In r (references m) -> In (reference_paragraph r) (spec_text m).
Proof.
  intros Hr. unfold spec_text. rewrite !in_app_iff.
  right. right. right. right.
  unfold spec_references. destruct (references m) as [|r0 l]; [destruct Hr|].
  apply in_or_app. right. apply in_flat_map. exists r. split; [exact Hr|now left].
Qed.

(** X12: when no odfpy call raises, a citation whose target is the id of
    a reference of the model is linked to a bookmark that exists: the
    document has the paragraph with the hyperlink to "#" and the target,
    and the paragraph of the reference, which opens and closes a bookmark
    of that name. *)
Theorem X12_citation_meets_bookmark (raises : odf_call -> option exn)
  (m : DocumentModel) (output_file : string)
  (content : list InlineSpan) (label target : string) (r : Reference) :
  (forall c, raises c = None) ->
  In (Paragraph content) (body_elements m) ->
  In (CitationRef label target) content ->
  In r (references m) -> ref_id r = target ->
  let text := doc_text (final (create_odt_try raises m output_file (mkOdt [] []))) in
  (exists links,
      In (OdfElem "P" [("stylename", paragraph_style)] links) text /\
      In (OdfElem "A" [("href", AStr ("#" ++ target)); ("text", AStr label)] []) links)
  /\ In (OdfElem "P" [("stylename", paragraph_style)]
           [OdfElem "BookmarkStart" [("name", AStr target)] [];
            OdfText (ref_text r ++ " bibitem");
            OdfElem "BookmarkEnd" [("name", AStr target)] []]) text.
Proof.
  intros quiet Hp Hc Hr Hid text. unfold text.
  destruct (quiet_create_odt_try_run raises quiet m output_file) as [_ ->]. simpl.
  split.
  - exists (map spec_piece content). split.
    + apply (spec_text_block m (Paragraph content)); [exact Hp|now left].
    + apply (in_map spec_piece) in Hc. exact Hc.
  - rewrite <- Hid. apply (spec_text_reference m r Hr).
Qed.

Lemma X12_citation_meets_bookmark_witness :
  let text := doc_text (final (create_odt_try Samples.never_raises Cases.model_full
                                 "full.odt" (mkOdt [] []))) in
  (exists links,
      In (OdfElem "P" [("stylename", paragraph_style)] links) text /\
      In (OdfElem "A" [("href", AStr ("#" ++ "b0")); ("text", AStr "Smith 2020")] []) links)
  /\ In (OdfElem "P" [("stylename", paragraph_style)]
           [OdfElem "BookmarkStart" [("name", AStr "b0")] [];
            OdfText (ref_text (mkReference "b0" "Smith 2020") ++ " bibitem");
            OdfElem "BookmarkEnd" [("name", AStr "b0")] []]) text.
Proof.
  apply (X12_citation_meets_bookmark Samples.never_raises Cases.model_full "full.odt"
           [Text "See "; CitationRef "Smith 2020" "b0"; Text "."] "Smith 2020" "b0"
           (mkReference "b0" "Smith 2020")).
  - reflexivity.
  - right. now left.
  - right. now left.
  - now left.
  - reflexivity.
Defined.

(** *** Whatever raises *)

Section Exact.
Variable raises : odf_call -> option exn.
Variable R : odf -> Prop.

Lemma keeps_fold_exact {A B : Type} (I : odt -> Prop) (f : B -> A -> M B)
  (g : B -> A -> B) (l : list A) :
  (forall b x, keeps I (f b x) (fun b' => b' = g b x)) ->
  forall b, keeps I (fold_ l f b) (fun b' => b' = fold_left g l b).
Proof.
  intros Hf. induction l as [|x rest IH]; intros b; simpl.
  - now apply keeps_ret.
  - eapply keeps_bind; [apply Hf|]. intros b' ->. apply IH.
Qed.

Lemma keeps_add_content_piece_exact (I : odt -> Prop) (paragraph : odf)
  (piece : InlineSpan) :
  keeps I (add_content_piece raises paragraph piece)
        (fun p' => p' = appendChild paragraph (spec_piece piece)).
Proof.
  destruct piece as [s|t target]; unfold add_content_piece, addText, construct, addElement.
  - apply keeps_call.
  - eapply keeps_bind; [apply keeps_call|]. intros link ->. apply keeps_call.
Qed.

Lemma keeps_add_cell_exact (I : odt -> Prop) (odt_row : odf) (cell_data : string) :
  keeps I (add_cell raises odt_row cell_data)
        (fun r' => r' = appendChild odt_row (spec_cell cell_data)).
Proof.
  unfold add_cell, P, construct, addElement.
  eapply keeps_bind; [apply keeps_call|]. intros cell ->.
  eapply keeps_bind; [apply keeps_call|]. intros p ->.
  eapply keeps_bind; [apply keeps_call|]. intros cell ->.
  apply keeps_call.
Qed.

Lemma keeps_add_row_exact (I : odt -> Prop) (odt_table : odf) (row_data : list string) :
  keeps I (add_row raises odt_table row_data)
        (fun t' => t' = appendChild odt_table (spec_row row_data)).
Proof.
  unfold add_row, construct, addElement.
  eapply keeps_bind; [apply keeps_call|]. intros row ->.
  eapply keeps_bind; [apply (keeps_fold_exact _ _ _ _ (keeps_add_cell_exact I))|].
  intros row ->. rewrite fold_left_appendChild. apply keeps_call.
Qed.

Lemma keeps_add_body_element_exact (element : Block) :
  (forall e, In e (spec_block element) -> R e) ->
  keeps (text_all R) (add_body_element raises element) (fun _ => True).
Proof.
  intros Hr. destruct element as [h|content|table_data];
    unfold add_body_element, spec_block in *.
  - apply keeps_seq; [apply keeps_log|].
    eapply keeps_bind; [apply keeps_construct_eq|]. intros p ->.
    apply keeps_seq.
    + apply keeps_text_addElement. apply Hr. now left.
    + apply keeps_blank_line. apply Hr. right. now left.
  - unfold P, construct.
    eapply keeps_bind; [apply keeps_call|]. intros p ->.
    eapply keeps_bind;
      [apply (keeps_fold_exact _ _ _ _ (keeps_add_content_piece_exact _))|].
    intros p ->. rewrite fold_left_appendChild.
    apply keeps_seq.
    + apply keeps_text_addElement. apply Hr. now left.
    + apply keeps_blank_line. apply Hr. right. now left.
  - apply keeps_seq; [apply keeps_log|].
    destruct table_data as [[|row rows]|]; try now apply keeps_ret.
    unfold construct.
    eapply keeps_bind; [apply keeps_call|]. intros tb ->.
    eapply keeps_bind; [apply (keeps_fold_exact _ _ _ _ (keeps_add_row_exact _))|].
    intros tb ->. rewrite fold_left_appendChild.
    apply keeps_seq.
    + apply keeps_text_addElement. apply Hr. now left.
    + apply keeps_blank_line. apply Hr. right. now left.
Qed.

Lemma keeps_add_reference_exact (ref : Reference) :
  R (reference_paragraph ref) -> R blank_paragraph ->
  keeps (text_all R) (add_reference raises ref) (fun _ => True).
Proof.
  intros Hp Hb. unfold add_reference.
  eapply keeps_try with (Q' := fun _ => True); [|intros e; apply keeps_log].
  eapply keeps_bind; [|intros _ _; now apply keeps_blank_line].
  unfold add_reference_paragraph, P, construct, addElement, addText.
  eapply keeps_bind; [apply keeps_log|]. intros _ _.
  eapply keeps_bind; [apply keeps_call|]. intros p ->.
  eapply keeps_bind; [apply keeps_call|]. intros b ->.
  eapply keeps_bind; [apply keeps_call|]. intros p ->.
  eapply keeps_bind; [apply keeps_call|]. intros p ->.
  eapply keeps_bind; [apply keeps_call|]. intros b ->.
  eapply keeps_bind; [apply keeps_call|]. intros p ->.
  now apply keeps_text_addElement.
Qed.

Lemma keeps_add_authors_exact (m : DocumentModel) :
  (forall e, In e match authors m with
                  | [] => []
                  | _ :: _ => [styled author_style (AStr (Py.join ", " (authors m)))]
                  end -> R e) ->
  keeps (text_all R) (add_authors raises m) (fun _ => True).
Proof.
  intros Hr. unfold add_authors. destruct (authors m) as [|a l].
  - now apply keeps_ret.
  - apply keeps_seq; [apply keeps_log|]. apply keeps_add_P. apply Hr. now left.
Qed.

Lemma keeps_add_references_exact (m : DocumentModel) :
  (forall e, In e (spec_references (references m)) -> R e) ->
  keeps (text_all R) (add_references raises m) (fun _ => True).
Proof.
  intros Hr. unfold add_references, spec_references in *.
  destruct (references m) as [|r l].
  - now apply keeps_ret.
  - assert (Hb : R blank_paragraph) by (apply Hr; now left).
    apply keeps_seq; [apply keeps_log|].
    apply keeps_seq; [now apply keeps_blank_line|].
    eapply keeps_bind; [apply keeps_construct_eq|]. intros h ->.
    apply keeps_seq; [apply keeps_text_addElement; apply Hr; right; now left|].
    apply keeps_seq; [now apply keeps_blank_line|].
    unfold add_reference_list. apply keeps_for. intros x Hx.
    apply keeps_add_reference_exact; [|exact Hb].
    apply Hr. apply in_or_app. right. apply in_flat_map. exists x.
    split; [exact Hx|now left].
Qed.

End Exact.

Lemma create_odt_try_within (raises : odf_call -> option exn) (m : DocumentModel)
  (output_file : string) :
  keeps (text_all (fun e => In e (spec_text m)))
        (create_odt_try raises m output_file) (fun _ => True).
Proof.
  unfold create_odt_try.
  apply keeps_seq; [apply keeps_OpenDocumentText|].
  apply keeps_seq; [apply keeps_define_styles|].
  apply keeps_seq.
  { apply keeps_add_title. now left. }
  apply keeps_seq.
  { apply keeps_add_authors_exact. intros e He. unfold spec_text.
    rewrite !in_app_iff. right. now left. }
  apply keeps_seq.
  { apply keeps_add_abstract. intros Ht. unfold spec_text. rewrite !in_app_iff.
    destruct (abstract m) as [|c rest]; [discriminate|].
    split; right; right; left; [now left|right; now left]. }
  apply keeps_seq.
  { unfold add_body. apply keeps_for. intros b Hb.
    apply keeps_add_body_element_exact. intros e He.
    now apply (spec_text_block m b). }
  apply keeps_seq.
  { apply keeps_add_references_exact. intros e He. unfold spec_text.
    rewrite !in_app_iff. right. right. right. now right. }
  unfold save_odt.
  apply keeps_seq; [apply keeps_log|].
  apply keeps_seq; [apply keeps_save|].
  apply keeps_log.
Qed.

(** X13: whatever odfpy calls raise, the rendering puts nothing into the
    document but elements the rendering rules describe for the model: a
    failure leaves elements out, it never adds a foreign or a half-built
    one. *)
Theorem X13_nothing_foreign (raises : odf_call -> option exn) (m : DocumentModel)
  (output_file : string) (e : odf) :
  In e (doc_text (final (create_odt_try raises m output_file (mkOdt [] [])))) ->
  In e (spec_text m).
Proof.
  intros Hin.
  destruct (create_odt_try_within raises m output_file (mkOdt [] [])) as [Hall _].
  { constructor. }
  unfold text_all in Hall. rewrite Forall_forall in Hall. now apply Hall.
Qed.

Lemma X13_nothing_foreign_witness :
  In (styled heading_style (AStr "References")) (spec_text Samples.model_empty_abstract).
Proof.
  apply (X13_nothing_foreign (Samples.rejects_bookmark "b0") Samples.model_empty_abstract
           "o.odt").
  vm_compute. do 7 right. now left.
Defined.

(** X14: when the paragraph of a reference is added and the blank line
    after it raises, the exception is caught and logged like any other of
    that reference, and the paragraph stays in the document, without its
    blank line. *)
Theorem X14_blank_line_failure (raises : odf_call -> option exn) (ref : Reference)
  (d : odt) (e : exn) :
  value (add_reference_paragraph raises ref d) = ok tt ->
  value (blank_line raises (final (add_reference_paragraph raises ref d))) = raise e ->
  value (add_reference raises ref d) = ok tt /\
  doc_text (final (add_reference raises ref d)) = doc_text d ++ [reference_paragraph ref] /\
  In (Print ("Error adding reference: " ++ exn_msg e)) (trace (add_reference raises ref d)).
Proof.
  intros Hp Hb. split; [apply add_reference_returns|].
  assert (Hblock : value ((add_reference_paragraph raises ref ;; blank_line raises)%odt d)
                   = raise e).
  { rewrite (bind_ok _ _ _ _ Hp). exact Hb. }
  unfold add_reference. rewrite (try_raise _ _ _ _ Hblock). cbn [value final trace log].
  rewrite (bind_ok _ _ _ _ Hp). cbn [value final trace].
  destruct (add_reference_paragraph_outcome raises ref d) as [[_ Hf]|(e' & Hv & _)].
  - destruct (blank_line_outcome raises (final (add_reference_paragraph raises ref d)))
      as [[Hv' _]|(e' & _ & Hf')].
    + rewrite Hv' in Hb. discriminate.
    + rewrite Hf', Hf. split; [reflexivity|].
      apply in_or_app. right. now left.
  - rewrite Hv in Hp. discriminate.
Qed.

Lemma X14_blank_line_failure_witness :
  value (add_reference Cases.rejects_blank (mkReference "b0" "Smith 2020") (mkOdt [] []))
  = ok tt /\
  doc_text (final (add_reference Cases.rejects_blank (mkReference "b0" "Smith 2020")
                     (mkOdt [] [])))
  = doc_text (mkOdt [] []) ++ [reference_paragraph (mkReference "b0" "Smith 2020")] /\
  In (Print ("Error adding reference: "
             ++ exn_msg (Exn "ValueError" "blank line refused")))
     (trace (add_reference Cases.rejects_blank (mkReference "b0" "Smith 2020")
               (mkOdt [] []))).
Proof.
  apply (X14_blank_line_failure Cases.rejects_blank (mkReference "b0" "Smith 2020")
           (mkOdt [] []) (Exn "ValueError" "blank line refused")); reflexivity.
Defined.

(** ** The sweep over the folders *)

Module SweepFacts.
Import Sweep.

Lemma list_eqb_eq (a b : list string) : list_eqb a b = true <-> a = b.
Proof.
  revert b. induction a as [|x a' IH]; intros [|y b']; simpl; split;
    try discriminate; try reflexivity.
  - intros H. apply andb_true_iff in H. destruct H as [Hx Ha].
    apply String.eqb_eq in Hx. apply IH in Ha. now subst.
  - intros H. injection H as -> ->. rewrite String.eqb_refl. simpl. now apply IH.
Qed.

Lemma Path_eqb_eq (a b : Path) : Path_eqb a b = true <-> a = b.
Proof.
  unfold Path_eqb. destruct a as [fa na], b as [fb nb]. simpl. split.
  - intros H. apply andb_true_iff in H. destruct H as [Hf Hn].
    apply list_eqb_eq in Hf. apply String.eqb_eq in Hn. now subst.
  - intros H. injection H as -> ->. rewrite String.eqb_refl, andb_true_r.
    now apply list_eqb_eq.
Qed.

Lemma lookup_store_same {V : Type} (p : Path) (v : V) (l : list (Path * V)) :
  lookup p (store p v l) = Some v.
Proof.
  induction l as [|[k old] rest IH]; simpl.
  - now rewrite (proj2 (Path_eqb_eq p p) eq_refl).
  - destruct (Path_eqb k p) eqn:E; simpl; rewrite E; [reflexivity|exact IH].
Qed.

Lemma lookup_store_other {V : Type} (p q : Path) (v : V) (l : list (Path * V)) :
  p <> q -> lookup p (store q v l) = lookup p l.
Proof.
  intros Hne. induction l as [|[k old] rest IH]; simpl.
  - destruct (Path_eqb q p) eqn:E; [|reflexivity].
    apply Path_eqb_eq in E. now subst.
  - destruct (Path_eqb k q) eqn:Eq; simpl.
    + apply Path_eqb_eq in Eq. subst k.
      destruct (Path_eqb q p) eqn:E; [|reflexivity].
      apply Path_eqb_eq in E. now subst.
    + now rewrite IH.
Qed.

Lemma kept_refl (w : world) : kept w w.
Proof. now split. Qed.

Lemma kept_trans (w1 w2 w3 : world) : kept w1 w2 -> kept w2 w3 -> kept w1 w3.
Proof.
  intros [Hf Hd] [Hf' Hd']. split; intros p x H.
  - now apply Hf', Hf.
  - now apply Hd', Hd.
Qed.

Lemma kept_exists (w w' : world) (p : Path) :
  kept w w' -> exists_ w p = true -> exists_ w' p = true.
Proof.
  intros [Hf Hd]. unfold exists_.
  destruct (lookup p (files w)) as [data|] eqn:Ef.
  - intros _. now rewrite (Hf p data Ef).
  - destruct (lookup p (documents w)) as [doc|] eqn:Ed; [|discriminate].
    intros _. rewrite (Hd p doc Ed). now destruct (lookup p (files w')).
Qed.

Lemma exists_false (w : world) (p : Path) :
  exists_ w p = false -> lookup p (files w) = None /\ lookup p (documents w) = None.
Proof.
  unfold exists_. destruct (lookup p (files w)); [discriminate|].
  destruct (lookup p (documents w)); [discriminate|]. now split.
Qed.

Lemma kept_write_text (w : world) (q : Path) (data : string) :
  exists_ w q = false -> kept w (write_text w q data).
Proof.
  intros H. destruct (exists_false w q H) as [Hf _]. split; simpl.
  - intros p x Hp. rewrite lookup_store_other; [exact Hp|].
    intros ->. rewrite Hf in Hp. discriminate.
  - trivial.
Qed.

Lemma kept_write_document (w : world) (q : Path) (doc : odt) :
  exists_ w q = false -> kept w (write_document w q doc).
Proof.
  intros H. destruct (exists_false w q H) as [_ Hd]. split; simpl.
  - trivial.
  - intros p x Hp. rewrite lookup_store_other; [exact Hp|].
    intros ->. rewrite Hd in Hp. discriminate.
Qed.

Lemma save_documents_app (out : Path) (a b : list event) :
  forall w, save_documents out (a ++ b) w = save_documents out b (save_documents out a w).
Proof.
  induction a as [|[line|f doc] rest IH]; intros w; simpl; [reflexivity| |]; apply IH.
Qed.

Lemma save_documents_prints (out : Path) (events : list event) (w : world) :
  forallb is_print events = true -> save_documents out events w = w.
Proof.
  induction events as [|[line|f doc] rest IH]; simpl; [reflexivity| |discriminate].
  exact IH.
Qed.

Section Folders.
Variable home : list string.
Variable io_raises : io_call -> option exn.
Variable grobid : Path -> string -> result string.
Variable xml_of : Path -> string -> result node.
Variable raises : odf_call -> option exn.

(** What [create_odt] leaves in the output folder: the finished document
    or nothing. *)
Lemma save_documents_create_odt (out : Path) (parsed : DocumentModel) (w : world) :
  let run := create_odt_try raises parsed (str_path out) (mkOdt [] []) in
  save_documents out (create_odt raises parsed (str_path out)) w
  = match value run with
    | inr _ => write_document w out (final run)
    | inl _ => w
    end.
Proof.
  intros run. pose proof (create_odt_events raises parsed (str_path out)) as H.
  fold run in H. destruct (value run) as [e|u].
  - destruct H as (lines & Hl & ->). rewrite save_documents_app.
    now rewrite (save_documents_prints _ _ _ Hl).
  - destruct H as (lines & Hl & ->). rewrite save_documents_app.
    now rewrite (save_documents_prints _ _ _ Hl).
Qed.

Lemma convert_one_kept (pdf_file : Path) (w : world) :
  kept w (fst (convert_one home io_raises grobid pdf_file w)).
Proof.
  unfold convert_one.
  destruct (exists_ w (tei_path_of home pdf_file)) eqn:E; [apply kept_refl|].
  unfold convert_pdf_to_tei.
  destruct (open_read io_raises w pdf_file) as [e|data]; [apply kept_refl|].
  destruct (grobid pdf_file data) as [e|tei]; [apply kept_refl|].
  destruct (io_raises (OpenWrite _)); [apply kept_refl|].
  destruct (io_raises (WriteText _ _)); simpl; now apply kept_write_text.
Qed.

Lemma convert_all_kept (pdf_files : list Path) :
  forall w, kept w (fst (convert_all home io_raises grobid pdf_files w)).
Proof.
  induction pdf_files as [|pdf rest IH]; intros w; simpl; [apply kept_refl|].
  pose proof (convert_one_kept pdf w) as H1.
  destruct (convert_one home io_raises grobid pdf w) as [w1 e1]. simpl in H1.
  pose proof (IH w1) as H2.
  destruct (convert_all home io_raises grobid rest w1) as [w2 e2]. simpl in *.
  now apply (kept_trans w w1 w2).
Qed.

Lemma render_one_cases (tei_file : Path) (w : world) :
  fst (render_one home xml_of raises tei_file w) = w \/
  exists parsed,
    fst (parse_tei (fun _ => read_xml xml_of w tei_file) (str_path tei_file)) = Some parsed /\
    exists_ w (odt_path_of home tei_file) = false /\
    value (create_odt_try raises parsed (str_path (odt_path_of home tei_file)) (mkOdt [] []))
    = ok tt /\
    fst (render_one home xml_of raises tei_file w)
    = write_document w (odt_path_of home tei_file)
        (final (create_odt_try raises parsed (str_path (odt_path_of home tei_file))
                  (mkOdt [] []))).
Proof.
  unfold render_one.
  destruct (parse_tei (fun _ => read_xml xml_of w tei_file) (str_path tei_file))
    as [[parsed|] printed]; [|now left].
  destruct (exists_ w (odt_path_of home tei_file)) eqn:E; [now left|].
  cbn [fst]. rewrite save_documents_create_odt.
  destruct (value (create_odt_try raises parsed (str_path (odt_path_of home tei_file))
                     (mkOdt [] []))) as [e|[]] eqn:Ev; [now left|].
  right. exists parsed.
  split; [reflexivity|]. split; [first [exact E|reflexivity]|].
  split; [exact Ev|reflexivity].
Qed.

Lemma render_one_kept (tei_file : Path) (w : world) :
  kept w (fst (render_one home xml_of raises tei_file w)).
Proof.
  destruct (render_one_cases tei_file w) as [->|(parsed & _ & E & _ & ->)].
  - apply kept_refl.
  - now apply kept_write_document.
Qed.

Lemma render_one_files (tei_file : Path) (w : world) :
  files (fst (render_one home xml_of raises tei_file w)) = files w.
Proof.
  destruct (render_one_cases tei_file w) as [->|(parsed & _ & _ & _ & ->)]; reflexivity.
Qed.

Lemma render_all_kept (tei_files : list Path) :
  forall w, kept w (fst (render_all home xml_of raises tei_files w)).
Proof.
  induction tei_files as [|tei rest IH]; intros w; simpl; [apply kept_refl|].
  pose proof (render_one_kept tei w) as H1.
  destruct (render_one home xml_of raises tei w) as [w1 e1]. simpl in H1.
  pose proof (IH w1) as H2.
  destruct (render_all home xml_of raises rest w1) as [w2 e2]. simpl in *.
  now apply (kept_trans w w1 w2).
Qed.

Lemma process_world (w : world) :
  fst (process_pdfs_to_odt home io_raises grobid xml_of raises w)
  = fst (render_all home xml_of raises
           (glob (TEI_FOLDER home) ".tei.xml"
                 (fst (convert_all home io_raises grobid
                         (find_pdfs (SOURCE_FOLDER home) w) w)))
           (fst (convert_all home io_raises grobid (find_pdfs (SOURCE_FOLDER home) w) w))).
Proof.
  unfold process_pdfs_to_odt.
  destruct (convert_all home io_raises grobid (find_pdfs (SOURCE_FOLDER home) w) w)
    as [w1 e1]. simpl.
  now destruct (render_all home xml_of raises (glob (TEI_FOLDER home) ".tei.xml" w1) w1).
Qed.

Lemma process_kept (w : world) :
  kept w (fst (process_pdfs_to_odt home io_raises grobid xml_of raises w)).
Proof.
  rewrite process_world.
  eapply kept_trans; [apply convert_all_kept|apply render_all_kept].
Qed.

End Folders.

(** X15: the sweep never overwrites: a file, or a saved document, that
    is there before the sweep is there afterwards with the same content,
    whatever the service answers and whatever fails. *)
Theorem X15_nothing_overwritten (home : list string) (io_raises : io_call -> option exn)
  (grobid : Path -> string -> result string) (xml_of : Path -> string -> result node)
  (raises : odf_call -> option exn) (w : world) :
  (forall p data,
      lookup p (files w) = Some data ->
      lookup p (files (fst (process_pdfs_to_odt home io_raises grobid xml_of raises w)))
      = Some data) /\
  (forall p doc,
      lookup p (documents w) = Some doc ->
      lookup p (documents (fst (process_pdfs_to_odt home io_raises grobid xml_of raises w)))
      = Some doc).
Proof.
  apply (process_kept home io_raises grobid xml_of raises w).
Qed.

Section Requests.
Variable home : list string.
Variable io_raises : io_call -> option exn.
Variable grobid : Path -> string -> result string.
Variable xml_of : Path -> string -> result node.
Variable raises : odf_call -> option exn.

Lemma convert_one_requests (pdf_file q : Path) (w : world) :
  In (Request q) (snd (convert_one home io_raises grobid pdf_file w)) ->
  q = pdf_file /\ exists_ w (tei_path_of home pdf_file) = false.
Proof.
  unfold convert_one.
  destruct (exists_ w (tei_path_of home pdf_file)) eqn:E.
  - simpl. intros [H|[]]. discriminate.
  - unfold convert_pdf_to_tei.
    destruct (open_read io_raises w pdf_file) as [e|data].
    { simpl. intros [H|[]]. discriminate. }
    destruct (grobid pdf_file data) as [e|tei].
    { simpl. intros [H|[H|[]]]; [injection H as <-; now split|discriminate]. }
    destruct (io_raises (OpenWrite _)).
    { simpl. intros [H|[H|[]]]; [injection H as <-; now split|discriminate]. }
    destruct (io_raises (WriteText _ _)); simpl;
      intros [H|[H|[]]]; try discriminate; injection H as <-; now split.
Qed.

Lemma convert_all_requests (pdf_files : list Path) (q : Path) :
  forall w,
    exists_ w (tei_path_of home q) = true ->
    ~ In (Request q) (snd (convert_all home io_raises grobid pdf_files w)).
Proof.
  induction pdf_files as [|pdf rest IH]; intros w Hex; simpl; [intros []|].
  pose proof (convert_one_kept home io_raises grobid pdf w) as Hk.
  pose proof (convert_one_requests pdf q w) as Hq.
  destruct (convert_one home io_raises grobid pdf w) as [w1 e1]. simpl in Hk, Hq.
  pose proof (IH w1 (kept_exists _ _ _ Hk Hex)) as Hrest.
  destruct (convert_all home io_raises grobid rest w1) as [w2 e2]. simpl in *.
  intros Hin. apply in_app_or in Hin. destruct Hin as [Hin|Hin].
  - destruct (Hq Hin) as [-> Hf]. rewrite Hex in Hf. discriminate.
  - now apply Hrest.
Qed.

Lemma convert_all_documents (pdf_files : list Path) :
  forall w, documents (fst (convert_all home io_raises grobid pdf_files w)) = documents w.
Proof.
  induction pdf_files as [|pdf rest IH]; intros w; simpl; [reflexivity|].
  assert (H1 : documents (fst (convert_one home io_raises grobid pdf w)) = documents w).
  { unfold convert_one.
    destruct (exists_ w (tei_path_of home pdf)); [reflexivity|].
    unfold convert_pdf_to_tei.
    destruct (open_read io_raises w pdf) as [e|data]; [reflexivity|].
    destruct (grobid pdf data) as [e|tei]; [reflexivity|].
    destruct (io_raises (OpenWrite _)); [reflexivity|].
    destruct (io_raises (WriteText _ _)); reflexivity. }
  destruct (convert_one home io_raises grobid pdf w) as [w1 e1]. simpl in H1.
  specialize (IH w1).
  destruct (convert_all home io_raises grobid rest w1) as [w2 e2]. simpl in *.
  now rewrite IH.
Qed.

Lemma render_one_requests (tei_file q : Path) (w : world) :
  ~ In (Request q) (snd (render_one home xml_of raises tei_file w)).
Proof.
  unfold render_one.
  destruct (parse_tei (fun _ => read_xml xml_of w tei_file) (str_path tei_file))
    as [[parsed|] printed].
  - destruct (exists_ w (odt_path_of home tei_file)); simpl; intros Hin.
    + apply in_app_or in Hin. destruct Hin as [Hin|[Hin|[]]]; [|discriminate].
      apply in_map_iff in Hin. destruct Hin as (ev & H & _). discriminate.
    + apply in_app_or in Hin. destruct Hin as [Hin|Hin];
        apply in_map_iff in Hin; destruct Hin as (ev & H & _); discriminate.
  - simpl. intros Hin. apply in_map_iff in Hin. destruct Hin as (ev & H & _).
    discriminate.
Qed.

Lemma render_all_requests (tei_files : list Path) (q : Path) :
  forall w, ~ In (Request q) (snd (render_all home xml_of raises tei_files w)).
Proof.
  induction tei_files as [|tei rest IH]; intros w; simpl; [intros []|].
  pose proof (render_one_requests tei q w) as H1.
  destruct (render_one home xml_of raises tei w) as [w1 e1]. simpl in H1.
  pose proof (IH w1) as H2.
  destruct (render_all home xml_of raises rest w1) as [w2 e2]. simpl in *.
  intros Hin. apply in_app_or in Hin. destruct Hin as [Hin|Hin]; auto.
Qed.

Lemma process_effects (w : world) :
  snd (process_pdfs_to_odt home io_raises grobid xml_of raises w)
  = Out (Print ("Found " ++ Py.str (List.length (find_pdfs (SOURCE_FOLDER home) w))
                ++ " PDF files in source folder."))
    :: snd (convert_all home io_raises grobid (find_pdfs (SOURCE_FOLDER home) w) w)
    ++ snd (render_all home xml_of raises
              (glob (TEI_FOLDER home) ".tei.xml"
                    (fst (convert_all home io_raises grobid
                            (find_pdfs (SOURCE_FOLDER home) w) w)))
              (fst (convert_all home io_raises grobid
                      (find_pdfs (SOURCE_FOLDER home) w) w))).
Proof.
  unfold process_pdfs_to_odt.
  destruct (convert_all home io_raises grobid (find_pdfs (SOURCE_FOLDER home) w) w)
    as [w1 e1]. simpl.
  now destruct (render_all home xml_of raises (glob (TEI_FOLDER home) ".tei.xml" w1) w1).
Qed.

Lemma convert_all_skips (pdf_files : list Path) (w : world) :
  (forall pdf, In pdf pdf_files -> exists_ w (tei_path_of home pdf) = true) ->
  fst (convert_all home io_raises grobid pdf_files w) = w /\
  forallb is_output (snd (convert_all home io_raises grobid pdf_files w)) = true.
Proof.
  induction pdf_files as [|pdf rest IH]; intros Hall; simpl; [now split|].
  unfold convert_one. rewrite (Hall pdf (or_introl eq_refl)).
  destruct IH as [Hw He]; [intros q Hq; apply Hall; now right|].
  destruct (convert_all home io_raises grobid rest w) as [w2 e2]. simpl in *.
  now split.
Qed.

Lemma parse_tei_prints (etree_parse : string -> result node) (tei_file : string) :
  forallb is_output (map Out (snd (parse_tei etree_parse tei_file))) = true.
Proof.
  unfold parse_tei. now destruct (parse_tei_try etree_parse tei_file).
Qed.

Lemma render_all_skips (tei_files : list Path) (w : world) :
  (forall tei, In tei tei_files -> exists_ w (odt_path_of home tei) = true) ->
  fst (render_all home xml_of raises tei_files w) = w /\
  forallb is_output (snd (render_all home xml_of raises tei_files w)) = true.
Proof.
  induction tei_files as [|tei rest IH]; intros Hall; simpl; [now split|].
  unfold render_one.
  pose proof (parse_tei_prints (fun _ => read_xml xml_of w tei) (str_path tei)) as Hp.
  destruct (parse_tei (fun _ => read_xml xml_of w tei) (str_path tei))
    as [[parsed|] printed]; simpl in Hp.
  - rewrite (Hall tei (or_introl eq_refl)).
    destruct IH as [Hw He]; [intros q Hq; apply Hall; now right|].
    destruct (render_all home xml_of raises rest w) as [w2 e2]. simpl in *.
    split; [exact Hw|]. rewrite !forallb_app, Hp, He. reflexivity.
  - destruct IH as [Hw He]; [intros q Hq; apply Hall; now right|].
    destruct (render_all home xml_of raises rest w) as [w2 e2]. simpl in *.
    split; [exact Hw|]. rewrite forallb_app, Hp, He. reflexivity.
Qed.

Lemma render_all_documents (tei_files : list Path) :
  forall w p doc,
    lookup p (documents (fst (render_all home xml_of raises tei_files w))) = Some doc ->
    lookup p (documents w) = Some doc \/
    exists tei parsed,
      In tei tei_files /\ p = odt_path_of home tei /\
      fst (parse_tei (fun _ => read_xml xml_of w tei) (str_path tei)) = Some parsed /\
      value (create_odt_try raises parsed (str_path p) (mkOdt [] [])) = ok tt /\
      doc = final (create_odt_try raises parsed (str_path p) (mkOdt [] [])).
Proof.
  induction tei_files as [|tei rest IH]; intros w p doc; simpl; [now left|].
  pose proof (render_one_cases home xml_of raises tei w) as Hc.
  pose proof (render_one_files home xml_of raises tei w) as Hfiles.
  destruct (render_one home xml_of raises tei w) as [w1 e1]. simpl in Hc, Hfiles.
  specialize (IH w1 p doc).
  destruct (render_all home xml_of raises rest w1) as [w2 e2]. simpl in *.
  intros H. destruct (IH H) as [Hd|(t & parsed & Hin & Hp & Hparse & Hv & Hdoc)].
  - destruct Hc as [->|(parsed & Hparse & _ & Hv & ->)]; [now left|].
    simpl in Hd.
    destruct (Path_eqb (odt_path_of home tei) p) eqn:E.
    + apply Path_eqb_eq in E. subst p. rewrite lookup_store_same in Hd.
      injection Hd as <-. right. exists tei, parsed. repeat split; auto.
    + left. rewrite lookup_store_other in Hd; [exact Hd|].
      intros ->. rewrite (proj2 (Path_eqb_eq _ _) eq_refl) in E. discriminate.
  - right. exists t, parsed. split; [now right|]. split; [exact Hp|].
    split; [|now split].
    unfold read_xml in *. now rewrite <- Hfiles.
Qed.

End Requests.

(** X16: a PDF whose TEI file is there when the sweep starts is not
    sent to the extraction service. *)
Theorem X16_extracted_once (home : list string) (io_raises : io_call -> option exn)
  (grobid : Path -> string -> result string) (xml_of : Path -> string -> result node)
  (raises : odf_call -> option exn) (w : world) (pdf_file : Path) :
  exists_ w (tei_path_of home pdf_file) = true ->
  ~ In (Request pdf_file)
       (snd (process_pdfs_to_odt home io_raises grobid xml_of raises w)).
Proof.
  intros Hex. rewrite process_effects. intros [H|Hin]; [discriminate|].
  apply in_app_or in Hin. destruct Hin as [Hin|Hin].
  - exact (convert_all_requests home io_raises grobid _ pdf_file w Hex Hin).
  - exact (render_all_requests home xml_of raises _ pdf_file _ Hin).
Qed.

Lemma X16_extracted_once_witness :
  ~ In (Request SweepCases.b_pdf)
       (snd (process_pdfs_to_odt SweepCases.home SweepCases.io_ok SweepCases.grobid
               SweepCases.xml_of Samples.never_raises SweepCases.fresh)).
Proof.
  apply (X16_extracted_once SweepCases.home SweepCases.io_ok SweepCases.grobid
           SweepCases.xml_of Samples.never_raises SweepCases.fresh SweepCases.b_pdf).
  reflexivity.
Defined.

(** X17: when every PDF of the source folder has its TEI file and every
    TEI file has its output document, the sweep sends no request, writes
    and saves nothing, and only prints. *)
Theorem X17_second_sweep_idle (home : list string) (io_raises : io_call -> option exn)
  (grobid : Path -> string -> result string) (xml_of : Path -> string -> result node)
  (raises : odf_call -> option exn) (w : world) :
  (forall pdf, In pdf (find_pdfs (SOURCE_FOLDER home) w) ->
               exists_ w (tei_path_of home pdf) = true) ->
  (forall tei, In tei (glob (TEI_FOLDER home) ".tei.xml" w) ->
               exists_ w (odt_path_of home tei) = true) ->
  fst (process_pdfs_to_odt home io_raises grobid xml_of raises w) = w /\
  forallb is_output (snd (process_pdfs_to_odt home io_raises grobid xml_of raises w))
  = true.
Proof.
  intros Hpdf Htei.
  destruct (convert_all_skips home io_raises grobid _ w Hpdf) as [Hw1 He1].
  rewrite process_world, process_effects, Hw1.
  destruct (render_all_skips home xml_of raises _ w Htei) as [Hw2 He2].
  split; [exact Hw2|]. simpl. now rewrite forallb_app, He1, He2.
Qed.

Lemma X17_second_sweep_idle_witness :
  fst (process_pdfs_to_odt SweepCases.home SweepCases.io_ok SweepCases.grobid
         SweepCases.xml_of Samples.never_raises SweepCases.done) = SweepCases.done /\
  forallb is_output
    (snd (process_pdfs_to_odt SweepCases.home SweepCases.io_ok SweepCases.grobid
            SweepCases.xml_of Samples.never_raises SweepCases.done)) = true.
Proof.
  apply (X17_second_sweep_idle SweepCases.home SweepCases.io_ok SweepCases.grobid
           SweepCases.xml_of Samples.never_raises SweepCases.done).
  - intros pdf Hin. vm_compute in Hin. destruct Hin as [<-|[]]. reflexivity.
  - intros tei Hin. vm_compute in Hin. destruct Hin as [<-|[]]. reflexivity.
Defined.

(** X18: every document the sweep saves is the finished rendering of a
    TEI file of the TEI folder that parsed: its name is the stem of the
    TEI file with ".odt", in the output folder, and its content is the
    document the rendering of the parsed model ended with, the rendering
    having returned. *)
Theorem X18_saved_documents (home : list string) (io_raises : io_call -> option exn)
  (grobid : Path -> string -> result string) (xml_of : Path -> string -> result node)
  (raises : odf_call -> option exn) (w : world) (p : Path) (doc : odt) :
  lookup p (documents (fst (process_pdfs_to_odt home io_raises grobid xml_of raises w)))
  = Some doc ->
  lookup p (documents w) = Some doc \/
  let extracted := fst (convert_all home io_raises grobid
                          (find_pdfs (SOURCE_FOLDER home) w) w) in
  exists tei parsed,
    In tei (glob (TEI_FOLDER home) ".tei.xml" extracted) /\
    p = odt_path_of home tei /\
    fst (parse_tei (fun _ => read_xml xml_of extracted tei) (str_path tei)) = Some parsed /\
    value (create_odt_try raises parsed (str_path p) (mkOdt [] [])) = ok tt /\
    doc = final (create_odt_try raises parsed (str_path p) (mkOdt [] [])).
Proof.
  rewrite process_world. intros H.
  destruct (render_all_documents home xml_of raises _ _ p doc H) as [Hd|Hr].
  - left. now rewrite convert_all_documents in Hd.
  - right. exact Hr.
Qed.

Lemma X18_saved_documents_witness :
  lookup SweepCases.a_odt (documents SweepCases.fresh)
  = Some (mkOdt spec_styles (spec_text Samples.model_smith)) \/
  let extracted := fst (convert_all SweepCases.home SweepCases.io_ok SweepCases.grobid
                          (find_pdfs (SOURCE_FOLDER SweepCases.home) SweepCases.fresh)
                          SweepCases.fresh) in
  exists tei parsed,
    In tei (glob (TEI_FOLDER SweepCases.home) ".tei.xml" extracted) /\
    SweepCases.a_odt = odt_path_of SweepCases.home tei /\
    fst (parse_tei (fun _ => read_xml SweepCases.xml_of extracted tei) (str_path tei))
    = Some parsed /\
    value (create_odt_try Samples.never_raises parsed (str_path SweepCases.a_odt)
             (mkOdt [] [])) = ok tt /\
    mkOdt spec_styles (spec_text Samples.model_smith)
    = final (create_odt_try Samples.never_raises parsed (str_path SweepCases.a_odt)
               (mkOdt [] [])).
Proof.
  apply (X18_saved_documents SweepCases.home SweepCases.io_ok SweepCases.grobid
           SweepCases.xml_of Samples.never_raises SweepCases.fresh SweepCases.a_odt).
  reflexivity.
Defined.

(** *** The names of the files *)

Lemma string_length_app (x y : string) :
  String.length (x ++ y) = (String.length x + String.length y)%nat.
Proof.
  induction x as [|c rest IH]; simpl; [reflexivity|now rewrite IH].
Qed.

Lemma rfind_dot_app (x y : string) (i : nat) :
  rfind_dot y = Some i -> rfind_dot (x ++ y) = Some (String.length x + i)%nat.
Proof.
  intros Hy. induction x as [|c rest IH]; simpl; [exact Hy|now rewrite IH].
Qed.

Lemma substring_app (x y : string) (k : nat) :
  substring 0 (String.length x + k) (x ++ y) = (x ++ substring 0 k y)%string.
Proof.
  induction x as [|c rest IH]; simpl; [reflexivity|now rewrite IH].
Qed.

Lemma stem_suffix (x suffix : string) (i : nat) :
  rfind_dot suffix = Some i ->
  (0 < String.length x + i)%nat -> (i + 1 < String.length suffix)%nat ->
  stem (x ++ suffix) = (x ++ substring 0 i suffix)%string.
Proof.
  intros Hs Hpos Hlast. unfold stem. rewrite (rfind_dot_app x suffix i Hs).
  rewrite string_length_app.
  assert (H1 : (0 <? String.length x + i)%nat = true) by now apply Nat.ltb_lt.
  assert (H2 : (String.length x + i <? String.length x + String.length suffix - 1)%nat
               = true)
    by (apply Nat.ltb_lt; lia).
  rewrite H1, H2. simpl. apply substring_app.
Qed.

(** X19: the files of a PDF named x.pdf, x not empty: its TEI file is
    x.tei.xml in the TEI folder, and the document rendered from that is
    x.tei.odt in the output folder. *)
Theorem X19_file_names (home : list string) (pdf_file : Path) (x : string) :
  name pdf_file = (x ++ ".pdf")%string -> x <> EmptyString ->
  tei_path_of home pdf_file = mkPath (home ++ ["tei"]) (x ++ ".tei.xml") /\
  odt_path_of home (tei_path_of home pdf_file)
  = mkPath (home ++ ["output"]) (x ++ ".tei.odt").
Proof.
  intros Hname Hx.
  assert (Hstem : stem (x ++ ".pdf") = x).
  { rewrite (stem_suffix x ".pdf" 0); simpl.
    - apply string_app_nil_r.
    - reflexivity.
    - destruct x; [contradiction|simpl; lia].
    - lia. }
  unfold tei_path_of, odt_path_of, TEI_FOLDER, OUTPUT_FOLDER.
  rewrite Hname, Hstem. split; [reflexivity|]. simpl name.
  rewrite (stem_suffix x ".tei.xml" 4); simpl; try lia; try reflexivity.
  now rewrite string_app_assoc.
Qed.

Lemma X19_file_names_witness :
  tei_path_of SweepCases.home SweepCases.a_pdf
  = mkPath (SweepCases.home ++ ["tei"]) ("a" ++ ".tei.xml") /\
  odt_path_of SweepCases.home (tei_path_of SweepCases.home SweepCases.a_pdf)
  = mkPath (SweepCases.home ++ ["output"]) ("a" ++ ".tei.odt").
Proof.
  apply (X19_file_names SweepCases.home SweepCases.a_pdf "a").
  - reflexivity.
  - discriminate.
Defined.

(** *** One document does not stop the others *)

Section Others.
Variable home : list string.
Variable io_raises : io_call -> option exn.
Variable grobid : Path -> string -> result string.
Variable xml_of : Path -> string -> result node.
Variable raises : odf_call -> option exn.

Lemma render_one_reaches (tei : Path) (parsed : DocumentModel) (w : world) :
  fst (parse_tei (fun _ => read_xml xml_of w tei) (str_path tei)) = Some parsed ->
  value (create_odt_try raises parsed (str_path (odt_path_of home tei)) (mkOdt [] []))
  = ok tt ->
  exists_ (fst (render_one home xml_of raises tei w)) (odt_path_of home tei) = true.
Proof.
  intros Hparse Hv. unfold render_one.
  destruct (parse_tei (fun _ => read_xml xml_of w tei) (str_path tei)) as [r printed].
  simpl in Hparse. subst r.
  destruct (exists_ w (odt_path_of home tei)) eqn:E; [exact E|].
  cbn [fst]. rewrite save_documents_create_odt, Hv.
  unfold exists_, write_document. simpl.
  rewrite lookup_store_same. now destruct (lookup _ (files w)).
Qed.

Lemma render_all_reaches (tei_files : list Path) (tei : Path) (parsed : DocumentModel) :
  forall w,
    In tei tei_files ->
    fst (parse_tei (fun _ => read_xml xml_of w tei) (str_path tei)) = Some parsed ->
    value (create_odt_try raises parsed (str_path (odt_path_of home tei)) (mkOdt [] []))
    = ok tt ->
    exists_ (fst (render_all home xml_of raises tei_files w)) (odt_path_of home tei) = true.
Proof.
  induction tei_files as [|t rest IH]; intros w Hin Hparse Hv; [destruct Hin|].
  simpl.
  pose proof (render_one_files home xml_of raises t w) as Hfiles.
  assert (Hhead : t = tei ->
                  exists_ (fst (render_one home xml_of raises t w)) (odt_path_of home tei)
                  = true).
  { intros ->. now apply (render_one_reaches tei parsed). }
  destruct (render_one home xml_of raises t w) as [w1 e1]. simpl in Hfiles, Hhead.
  pose proof (render_all_kept home xml_of raises rest w1) as Hk.
  specialize (IH w1).
  destruct (render_all home xml_of raises rest w1) as [w2 e2]. simpl in *.
  destruct Hin as [Heq|Hin].
  - apply (kept_exists w1 w2 _ Hk). now apply Hhead.
  - apply IH; [exact Hin| |exact Hv].
    unfold read_xml in *. now rewrite Hfiles.
Qed.

End Others.

(** X20: one document does not stop the others: every TEI file of the
    TEI folder that parses, and whose rendering returns, has its output
    document when the sweep ends, whatever happens to the other files. *)
Theorem X20_every_good_file_rendered (home : list string)
  (io_raises : io_call -> option exn) (grobid : Path -> string -> result string)
  (xml_of : Path -> string -> result node) (raises : odf_call -> option exn)
  (w : world) (tei : Path) (parsed : DocumentModel) :
  let extracted := fst (convert_all home io_raises grobid
                          (find_pdfs (SOURCE_FOLDER home) w) w) in
  In tei (glob (TEI_FOLDER home) ".tei.xml" extracted) ->
  fst (parse_tei (fun _ => read_xml xml_of extracted tei) (str_path tei)) = Some parsed ->
  value (create_odt_try raises parsed (str_path (odt_path_of home tei)) (mkOdt [] []))
  = ok tt ->
  exists_ (fst (process_pdfs_to_odt home io_raises grobid xml_of raises w))
          (odt_path_of home tei) = true.
Proof.
  intros extracted Hin Hparse Hv. rewrite process_world. fold extracted.
  now apply (render_all_reaches home xml_of raises _ tei parsed).
Qed.

Lemma X20_every_good_file_rendered_witness :
  exists_ (fst (process_pdfs_to_odt SweepCases.home SweepCases.io_ok SweepCases.grobid
                  SweepCases.xml_of Samples.never_raises SweepCases.fresh))
          (odt_path_of SweepCases.home SweepCases.a_tei) = true.
Proof.
  apply (X20_every_good_file_rendered SweepCases.home SweepCases.io_ok SweepCases.grobid
           SweepCases.xml_of Samples.never_raises SweepCases.fresh SweepCases.a_tei
           Samples.model_smith).
  - vm_compute. right. now left.
  - reflexivity.
  - reflexivity.
Defined.

End SweepFacts.
